(** * Real-time interview assistant: the session pipeline and its services

    A shallow embedding of [backend/app]: the answer post-processing of
    [services/ai_service.py], the three provider registries with their
    fallback loops ([speech_service.py], [translation_service.py],
    [ai_service.py]), the language helper of [translation_service.py] and
    the chunk pipeline, session table and configuration endpoint of
    [main.py].

    Conventions.
    - A Python [str] that carries free text (a transcription, a question,
      an answer) is a list of Unicode code points, [list N]; identifiers
      (provider names, language tags, message types, exception messages)
      are [string]s.
    - A Python [float] is a binary64 primitive float.
    - [await]ed calls are sequenced; one pipeline run is one function from
      the application state to the application state.
    - Wall-clock values ([processing_time], [timestamp]) and log lines are
      left out: no decision of the code reads them. *)

From Stdlib Require Import ZArith NArith List String Ascii Bool Lia.
From Corelib Require Import PrimFloat.
From stdpp Require Import gmap strings list.

Set Warnings "-inexact-float".
Local Open Scope Z_scope.

(** ** Python values *)

Module Py.

(** [str.isspace] on one code point: the set that [str.split()] and
    [str.strip()] without arguments treat as whitespace. *)
Definition is_space (c : N) : bool :=
  ((9 <=? c) && (c <=? 13) || (28 <=? c) && (c <=? 32) || (c =? 133)
   || (c =? 160) || (c =? 5760) || (8192 <=? c) && (c <=? 8202)
   || (c =? 8232) || (c =? 8233) || (c =? 8239) || (c =? 8287)
   || (c =? 12288))%N.

(** A string literal, byte for byte (used for ASCII literals only). *)
Fixpoint of_string (s : string) : list N :=
  match s with
  | EmptyString => []
  | String a rest => N_of_ascii a :: of_string rest
  end.

Definition SPACE : N := 32.
Definition DOT : N := 46.
Definition BANG : N := 33.
Definition QUESTION : N := 63.

(** True at the end of the string and in front of a whitespace character. *)
Definition starts_with_space (s : list N) : bool :=
  match s with
  | [] => true
  | c :: _ => is_space c
  end.

(** [s.split()]: the maximal runs of non-whitespace characters. A
    non-whitespace [c] that is followed by whitespace or by the end of
    the string is a word's last character; otherwise it is put in front
    of the first word of the rest. *)
Fixpoint split (s : list N) : list (list N) :=
  match s with
  | [] => []
  | c :: rest =>
      if is_space c then split rest
      else if starts_with_space rest then [c] :: split rest
      else match split rest with
           | w :: ws => (c :: w) :: ws
           | [] => [[c]]
           end
  end.

(** [sep.join(ws)]. *)
Fixpoint join (sep : list N) (ws : list (list N)) : list N :=
  match ws with
  | [] => []
  | w :: rest =>
      match rest with
      | [] => w
      | _ :: _ => w ++ sep ++ join sep rest
      end
  end.

(** [s.endswith(suffix)]. *)
Definition endswith (s suffix : list N) : bool :=
  bool_decide (drop (length s - length suffix)%nat s = suffix).

(** [s.endswith((a, b, ...))]: some member of the tuple is a suffix. *)
Definition endswith_any (s : list N) (suffixes : list (list N)) : bool :=
  existsb (endswith s) suffixes.

(** [s.rfind(c)] for a one-character [c]: the highest index holding [c],
    [-1] when there is none. *)
Fixpoint rfind (s : list N) (c : N) : Z :=
  match s with
  | [] => -1
  | d :: rest =>
      let r := rfind rest c in
      if 0 <=? r then r + 1 else if (d =? c)%N then 0 else -1
  end.

(** [l[:stop]]: a negative [stop] counts from the end. *)
Definition slice_to {A} (l : list A) (stop : Z) : list A :=
  take (Z.to_nat (if stop <? 0 then Z.of_nat (length l) + stop else stop)) l.

Fixpoint lstrip (s : list N) : list N :=
  match s with
  | [] => []
  | c :: rest => if is_space c then lstrip rest else s
  end.

Definition rstrip (s : list N) : list N := reverse (lstrip (reverse s)).

(** [s.strip()]. *)
Definition strip (s : list N) : list N := rstrip (lstrip s).

(** [float(i)] for an [int]; exact below 2^53. *)
Fixpoint float_of_pos (p : positive) : float :=
  match p with
  | xH => 1%float
  | xO q => (2 * float_of_pos q)%float
  | xI q => (2 * float_of_pos q + 1)%float
  end.

Definition float_of_Z (i : Z) : float :=
  match i with
  | Z0 => 0%float
  | Zpos p => float_of_pos p
  | Zneg p => (- float_of_pos p)%float
  end.

(** [i > x] for an [int] [i] and a [float] [x]. Python compares the two
    exactly; so does this as long as [i] is below 2^53 in size. *)
Definition int_gt_float (i : Z) (x : float) : bool :=
  PrimFloat.ltb x (float_of_Z i).

(** [len(s)] as a Python [int]. *)
Definition len {A} (l : list A) : Z := Z.of_nat (length l).

(** [s.lower()], on the ASCII letters. Python applies the Unicode case
    mapping; the two agree on ASCII text. Only the mock answer adapter
    uses it, to choose among its canned answers. *)
Definition lower (s : list N) : list N :=
  map (fun c => if ((65 <=? c) && (c <=? 90))%N then (c + 32)%N else c) s.

(** [needle in s] for strings. *)
Fixpoint is_prefix (p s : list N) : bool :=
  match p, s with
  | [], _ => true
  | a :: p', b :: s' => (a =? b)%N && is_prefix p' s'
  | _ :: _, [] => false
  end.

Fixpoint contains (s needle : list N) : bool :=
  is_prefix needle s ||
  match s with
  | [] => false
  | _ :: rest => contains rest needle
  end.

(** [s.upper()] on an ASCII identifier. *)
Definition upper_ascii (a : ascii) : ascii :=
  let n := nat_of_ascii a in
  if ((97 <=? n) && (n <=? 122))%nat then ascii_of_nat (n - 32) else a.

Fixpoint upper (s : string) : string :=
  match s with
  | EmptyString => EmptyString
  | String a rest => String (upper_ascii a) (upper rest)
  end.

(** [s.split(sep)[0]]: what precedes the first [sep]. *)
Fixpoint split0 (sep : ascii) (s : string) : string :=
  match s with
  | EmptyString => EmptyString
  | String a rest =>
      if Ascii.eqb a sep then EmptyString else String a (split0 sep rest)
  end.

(** Truthiness of an [Optional[str]]: [None] and [""] are falsy. *)
Definition truthy (o : option string) : bool :=
  match o with
  | Some s => negb (String.eqb s "")
  | None => false
  end.

(** The tuple [('.', '!', '?')] of the punctuation check. *)
Definition terminators : list (list N) := [[DOT]; [BANG]; [QUESTION]].

(** *** Whitespace-normal strings

    The two readings of "already whitespace-normalized" that the
    statements about [_post_process_answer] compare; they follow the
    specification's words, not the source. *)

Definition has_leading_space (s : list N) : bool :=
  match s with
  | [] => false
  | c :: _ => is_space c
  end.

Definition has_trailing_space (s : list N) : bool :=
  match last s with
  | None => false
  | Some c => is_space c
  end.

(** No two whitespace characters in a row. *)
Fixpoint no_space_runs (s : list N) : bool :=
  match s with
  | [] => true
  | c :: rest =>
      negb (is_space c && has_leading_space rest) && no_space_runs rest
  end.

(** No leading or trailing whitespace and no run of more than one
    whitespace character. *)
Definition loosely_normalized (s : list N) : bool :=
  negb (has_leading_space s) && negb (has_trailing_space s)
  && no_space_runs s.

(** Moreover every whitespace character is the space U+0020. *)
Definition is_normalized (s : list N) : bool :=
  loosely_normalized s
  && forallb (fun c => negb (is_space c) || (c =? SPACE)%N) s.

(** A word of [split]: non-empty, free of whitespace. *)
Definition word (w : list N) : Prop :=
  w <> [] /\ Forall (fun c => is_space c = false) w.

(** [is_normalized] as one left-to-right scan of a non-empty string:
    [prev_space] says that the previous character was a space, or that
    the string starts here. *)
Fixpoint norm_after (prev_space : bool) (s : list N) : bool :=
  match s with
  | [] => negb prev_space
  | c :: rest =>
      if is_space c
      then (c =? SPACE)%N && negb prev_space && norm_after true rest
      else norm_after false rest
  end.

(** Exceptions, with the message [str(e)] returns. *)
Inductive exn : Type :=
  | ValueError (msg : string)
  | Exception (msg : string).

Definition str (e : exn) : string :=
  match e with
  | ValueError msg => msg
  | Exception msg => msg
  end.

End Py.

(** ** models/schemas.py

    One module per model, so that the fields keep their names. *)

(** [language] is [Optional[str]]: [None] is the value [None], which the
    body of [POST /transcribe] may carry as a JSON null; the pipeline
    always passes the session's source language. [set_provider r name]
    is the assignment [r.provider = name]. *)
Module TranscriptionRequest.
Record t := mk {
  audio_data : string;
  language : option string;
  provider : string
}.
Definition set_provider (r : t) (name : string) : t :=
  mk (audio_data r) (language r) name.
End TranscriptionRequest.

Module TranscriptionResponse.
Record t := mk {
  text : list N;
  confidence : float;
  language : string;
  provider : string
}.
End TranscriptionResponse.

Module TranslationRequest.
Record t := mk {
  text : list N;
  source_language : string;
  target_language : string;
  provider : string
}.
Definition set_provider (r : t) (name : string) : t :=
  mk (text r) (source_language r) (target_language r) name.
End TranslationRequest.

Module TranslationResponse.
Record t := mk {
  original_text : list N;
  translated_text : list N;
  source_language : string;
  target_language : string;
  confidence : float;
  provider : string
}.
End TranslationResponse.

Module AnswerGenerationRequest.
Record t := mk {
  question : list N;
  context : option (list N);
  style : string;
  max_length : Z;
  language : string;
  provider : string
}.
Definition set_provider (r : t) (name : string) : t :=
  mk (question r) (context r) (style r) (max_length r) (language r) name.
End AnswerGenerationRequest.

Module AnswerGenerationResponse.
Record t := mk {
  question : list N;
  answer : list N;
  confidence : float;
  provider : string
}.
End AnswerGenerationResponse.

Module InterviewSession.
Record t := mk {
  session_id : string;
  source_language : string;
  target_language : string;
  is_active : bool
}.
End InterviewSession.

Module ConfigUpdate.
Record t := mk {
  source_language : option string;
  target_language : option string;
  stt_provider : option string;
  translation_provider : option string;
  answer_provider : option string;
  answer_style : option string
}.
End ConfigUpdate.

(** The [data] dict of an outbound frame, by the frame's type. *)
Inductive EventData : Type :=
  | StatusData (message : string) (session_id : string)
      (capabilities : list string)
  | TranscriptionData (text : list N) (confidence : float)
      (language : string)
  | TranslationData (original_text translated_text : list N)
      (source_language target_language : string) (confidence : float)
  | AnswerData (question answer : list N) (confidence : float)
      (style : string)
  | ErrorData (error message : string)
  | PongData
  | ConfigUpdatedData (source_language target_language : string).

Module RealTimeMessage.
Record t := mk {
  type : string;
  session_id : string;
  data : EventData
}.
End RealTimeMessage.

(** The dicts the adapters return; [confidence], [language] and
    [source_language] are read with [dict.get] and may be absent, which
    is the outer [None]. The [language] of a transcription can also be
    present with the value [None], the inner one: the mock adapter
    copies it from the request. *)
Module SttResult.
Record t := mk {
  text : list N;
  confidence : option float;
  language : option (option string)
}.
End SttResult.

Module TranslateResult.
Record t := mk {
  translated_text : list N;
  source_language : option string;
  confidence : option float
}.
End TranslateResult.

Module GenerateResult.
Record t := mk {
  answer : list N;
  confidence : option float
}.
End GenerateResult.

(** ** config/settings.py *)

Module Settings.
Record t := mk {
  openai_api_key : option string;
  google_translate_api_key : option string;
  google_speech_api_key : option string;
  deepl_api_key : option string;
  anthropic_api_key : option string;
  debug : bool;
  default_source_language : string;
  default_target_language : string;
  translation_provider : string;
  stt_provider : string;
  answer_max_length : Z;
  answer_style : string
}.

(** The field defaults of [class Settings], with no key configured. *)
Definition defaults : t :=
  mk None None None None None false "auto" "en" "google" "openai" 150
     "professional".

(** [validate_api_keys()]: [None] when it returns, the exception when it
    raises. *)
Definition validate_api_keys (settings : t) : option Py.exn :=
  (* Skip validation in debug mode or if using test/mock providers *)
  if debug settings
     || bool_decide (openai_api_key settings = Some "test_key")
     || bool_decide (stt_provider settings = "mock")
     || bool_decide (stt_provider settings = "local")
     || bool_decide (translation_provider settings = "mock")
  then None
  else
    let errors : list string :=
      (if negb (Py.truthy (openai_api_key settings))
          && bool_decide (stt_provider settings = "openai")
       then ["OpenAI API key required for OpenAI STT provider"] else [])
      ++ (if negb (Py.truthy (google_translate_api_key settings))
             && bool_decide (translation_provider settings = "google")
          then ["Google Translate API key required for Google translation provider"]
          else []) in
    match errors with
    | [] => None
    | _ :: _ =>
        Some (Py.ValueError
                ("Configuration errors: " ++ String.concat "; " errors))
    end.
End Settings.

(** ** The provider registries and their fallback loop

    [SpeechToTextService], [TranslationService] and [AIAnswerService]
    share one shape: an entry point that looks the requested provider up
    in [self.providers] and calls it, and a [_try_fallback] that walks a
    fixed list of names. The shape is written once, over what the three
    differ in: the request and result types, the fallback list, the two
    response constructors and the message of the final exception.

    An adapter is a function of the request it is handed and of the
    outside world [W] (the vendors' state, the network); it returns a
    result dict or raises, which is [None], and the world after the call.
    The request is a mutable object: it is threaded through the loop, and
    [attempts] records, in order, the name of every adapter called.

    The adapter call stands for everything in the [try] block that can
    raise. For translation and answer generation that is the call of the
    adapter: with fields of the types of [schemas.py] the response
    constructors accept what they are handed. For speech-to-text the
    constructor can refuse the language, and an attempt is the call
    together with that check ([SpeechToTextService.attempt]). *)

Module Service.

Abbreviation Adapter W Req Raw := (Req -> W -> option Raw * W).

Section Service.
Context {W Req Raw Resp : Type}.

Record Run : Type := mkRun {
  request : Req;
  world : W;
  attempts : list string
}.

Variable provider_of : Req -> string.
Variable set_provider : Req -> string -> Req.
(** The response of the entry point, labelled [request.provider]. *)
Variable primary_response : Req -> Raw -> Resp.
(** The response of [_try_fallback], labelled [provider_name]. *)
Variable fallback_response : Req -> string -> Raw -> Resp.
(** The message of the exception raised when the list is exhausted. *)
Variable all_failed : string.

(** The [for provider_name in fallback_order] loop of [_try_fallback]. *)
Fixpoint fallback_loop (providers : gmap string (Adapter W Req Raw))
    (names : list string) (st : Run) : (Resp + Py.exn) * Run :=
  match names with
  | [] => (inr (Py.Exception all_failed), st)
  | provider_name :: rest =>
      match providers !! provider_name with
      | None => fallback_loop providers rest st
      | Some provider =>
          if bool_decide (provider_name = provider_of (request st))
          then fallback_loop providers rest st
          else
            let request := set_provider (request st) provider_name in
            let '(result, world) := provider request (world st) in
            let st := mkRun request world (attempts st ++ [provider_name]) in
            match result with
            | Some result =>
                (inl (fallback_response request provider_name result), st)
            | None => fallback_loop providers rest st
            end
      end
  end.

(** The entry point: [transcribe], [translate], [generate_answer]. *)
Definition invoke (fallback_order : list string)
    (providers : gmap string (Adapter W Req Raw)) (request : Req)
    (world : W)
    : (Resp + Py.exn) * Run :=
  match providers !! provider_of request with
  | None =>
      (inr (Py.ValueError
              ("Provider " ++ provider_of request ++ " not available")),
       mkRun request world [])
  | Some provider =>
      let '(result, world) := provider request world in
      let st := mkRun request world [provider_of request] in
      match result with
      | Some result => (inl (primary_response request result), st)
      | None => fallback_loop providers fallback_order st
      end
  end.

(** Every adapter of the registry raises, on every request, always. *)
Definition all_fail (providers : gmap string (Adapter W Req Raw)) : Prop :=
  forall name provider request world,
    providers !! name = Some provider -> (provider request world).1 = None.

(** The request names the adapter that was called last. *)
Definition names_last (st : Run) : Prop :=
  last (attempts st) = Some (provider_of (request st)).

End Service.
End Service.

(** What the import block of a service module and the provider
    constructors give at start-up: a flag per optional library ([false]
    when the import fell back to [None]) and, per provider class, the
    adapter its constructor builds ([None] when the constructor raises). *)
Module Environment.
Record t {W : Type} := mk {
  openai : bool;
  whisper : bool;
  speech : bool;
  translate : bool;
  DeepLTranslator : bool;
  googletrans : bool;
  anthropic : bool;
  OpenAISTTProvider :
    option (Service.Adapter W TranscriptionRequest.t SttResult.t);
  GoogleSTTProvider :
    option (Service.Adapter W TranscriptionRequest.t SttResult.t);
  LocalWhisperProvider :
    option (Service.Adapter W TranscriptionRequest.t SttResult.t);
  GoogleTranslateProvider :
    option (Service.Adapter W TranslationRequest.t TranslateResult.t);
  DeepLProvider :
    option (Service.Adapter W TranslationRequest.t TranslateResult.t);
  GoogleTranslateFreeProvider :
    option (Service.Adapter W TranslationRequest.t TranslateResult.t);
  OpenAIProvider :
    option (Service.Adapter W AnswerGenerationRequest.t GenerateResult.t);
  AnthropicProvider :
    option (Service.Adapter W AnswerGenerationRequest.t GenerateResult.t)
}.
Arguments t : clear implicits.

(** Whether a provider gets registered: its guard holds and its
    constructor returns. *)
Definition available {W Req Raw} (guard : bool)
    (constructed : option (Service.Adapter W Req Raw)) : bool :=
  guard && match constructed with Some _ => true | None => false end.

(** [self.providers[name] = Cls()] inside [try ... except: warning]. *)
Definition register {W Req Raw} (guard : bool) (name : string)
    (constructed : option (Service.Adapter W Req Raw))
    (providers : gmap string (Service.Adapter W Req Raw))
    : gmap string (Service.Adapter W Req Raw) :=
  if guard then
    match constructed with
    | Some provider => <[name := provider]> providers
    | None => providers
    end
  else providers.
End Environment.

(** ** services/speech_service.py *)

Module SpeechToTextService.
Section SpeechToTextService.
Context {W : Type}.

Abbreviation Adapter := (Service.Adapter W TranscriptionRequest.t SttResult.t).
Abbreviation Run := (@Service.Run W TranscriptionRequest.t).

(** [MockSTTProvider.transcribe]. *)
Definition MockSTTProvider : Adapter :=
  fun request world =>
    (Some (SttResult.mk
       (Py.of_string "This is a mock transcription for testing purposes.")
       (Some 0.95%float)
       (Some (if bool_decide (TranscriptionRequest.language request
                              <> Some "auto")
              then TranscriptionRequest.language request else Some "en"))),
     world).

(** [_initialize_providers]: the registry [self.providers]. *)
Definition _initialize_providers (settings : Settings.t)
    (env : Environment.t W) : gmap string Adapter :=
  let providers : gmap string Adapter := ∅ in
  (* OpenAI Whisper API *)
  let providers :=
    Environment.register
      (Py.truthy (Settings.openai_api_key settings) && Environment.openai env)
      "openai" (Environment.OpenAISTTProvider env) providers in
  (* Google Speech-to-Text *)
  let providers :=
    Environment.register
      (Py.truthy (Settings.google_speech_api_key settings)
       && Environment.speech env)
      "google" (Environment.GoogleSTTProvider env) providers in
  (* Local Whisper *)
  let providers :=
    Environment.register (Environment.whisper env)
      "local" (Environment.LocalWhisperProvider env) providers in
  (* Mock provider for testing *)
  if bool_decide (size providers = 0%nat)
  then <["mock" := MockSTTProvider]> providers
  else providers.

(** Start-up registers none of the three real STT adapters. *)
Definition no_real_adapter (settings : Settings.t) (env : Environment.t W)
    : bool :=
  negb (Environment.available
          (Py.truthy (Settings.openai_api_key settings)
           && Environment.openai env) (Environment.OpenAISTTProvider env))
  && negb (Environment.available
             (Py.truthy (Settings.google_speech_api_key settings)
              && Environment.speech env) (Environment.GoogleSTTProvider env))
  && negb (Environment.available (Environment.whisper env)
             (Environment.LocalWhisperProvider env)).

Definition fallback_order : list string := ["local"; "openai"; "google"].

Definition all_failed : string := "All STT providers failed".

(** [result.get('language', request.language)]: a string, or [None]. *)
Definition result_language (request : TranscriptionRequest.t)
    (result : SttResult.t) : option string :=
  default (TranscriptionRequest.language request) (SttResult.language result).

(** The statements of the two [try] blocks that can raise: the adapter
    call, and the construction of the [TranscriptionResponse]. The
    [language] of the response model is a required [str]: handed [None],
    the constructor raises a validation error, and the [except] clause
    treats it like an exception of the adapter. What is left of an
    attempt that did not raise is the adapter's result and the language
    string of the response. *)
Definition attempt (provider : Adapter)
    : Service.Adapter W TranscriptionRequest.t (SttResult.t * string) :=
  fun request world =>
    let '(result, world) := provider request world in
    (match result with
     | Some result =>
         match result_language request result with
         | Some language => Some (result, language)
         | None => None
         end
     | None => None
     end,
     world).

(** [TranscriptionResponse(...)] as built by [transcribe]. *)
Definition primary_response (request : TranscriptionRequest.t)
    (result : SttResult.t * string) : TranscriptionResponse.t :=
  TranscriptionResponse.mk
    (SttResult.text result.1)
    (default 0.9%float (SttResult.confidence result.1))
    result.2
    (TranscriptionRequest.provider request).

(** [TranscriptionResponse(...)] as built by [_try_fallback]. *)
Definition fallback_response (request : TranscriptionRequest.t)
    (provider_name : string) (result : SttResult.t * string)
    : TranscriptionResponse.t :=
  TranscriptionResponse.mk
    (SttResult.text result.1)
    (default 0.8%float (SttResult.confidence result.1))
    result.2
    provider_name.

Definition _try_fallback (providers : gmap string Adapter) (st : Run)
    : (TranscriptionResponse.t + Py.exn) * Run :=
  Service.fallback_loop TranscriptionRequest.provider
    TranscriptionRequest.set_provider fallback_response all_failed
    (attempt <$> providers) fallback_order st.

Definition transcribe (providers : gmap string Adapter)
    (request : TranscriptionRequest.t) (world : W)
    : (TranscriptionResponse.t + Py.exn) * Run :=
  Service.invoke TranscriptionRequest.provider
    TranscriptionRequest.set_provider primary_response fallback_response
    all_failed fallback_order (attempt <$> providers) request world.

End SpeechToTextService.
End SpeechToTextService.

(** ** services/translation_service.py *)

Module TranslationService.
Section TranslationService.
Context {W : Type}.

Abbreviation Adapter :=
  (Service.Adapter W TranslationRequest.t TranslateResult.t).
Abbreviation Run := (@Service.Run W TranslationRequest.t).

(** [MockTranslationProvider.translate]; the first prefix is
    "[", U+4E2D, U+6587, U+7FFB, U+8BD1, "] ". [target.upper()] is taken
    byte by byte on the ASCII letters ([Py.upper]), which is Python's
    result for the ASCII language codes; the text of a translation into
    a language other than "zh" and "en" is stated nowhere below. *)
Definition MockTranslationProvider : Adapter :=
  fun request world =>
    let target := TranslationRequest.target_language request in
    let translated :=
      if bool_decide (target = "zh")
      then [91; 20013; 25991; 32763; 35793; 93; 32]%N
           ++ TranslationRequest.text request
      else if bool_decide (target = "en")
      then Py.of_string "[English Translation] "
           ++ TranslationRequest.text request
      else Py.of_string ("[" ++ Py.upper target ++ " Translation] ")
           ++ TranslationRequest.text request in
    (Some (TranslateResult.mk translated
             (Some (TranslationRequest.source_language request))
             (Some 0.90%float)),
     world).

(** [_initialize_providers]. *)
Definition _initialize_providers (settings : Settings.t)
    (env : Environment.t W) : gmap string Adapter :=
  let providers : gmap string Adapter := ∅ in
  (* Google Translate API *)
  let providers :=
    Environment.register
      (Py.truthy (Settings.google_translate_api_key settings)
       && Environment.translate env)
      "google" (Environment.GoogleTranslateProvider env) providers in
  (* DeepL API *)
  let providers :=
    Environment.register
      (Py.truthy (Settings.deepl_api_key settings)
       && Environment.DeepLTranslator env)
      "deepl" (Environment.DeepLProvider env) providers in
  (* Free Google Translate (fallback) *)
  let providers :=
    Environment.register (Environment.googletrans env)
      "google_free" (Environment.GoogleTranslateFreeProvider env)
      providers in
  (* Mock provider for testing *)
  if bool_decide (size providers = 0%nat)
  then <["mock" := MockTranslationProvider]> providers
  else providers.

(** Start-up registers none of the three real translation adapters. *)
Definition no_real_adapter (settings : Settings.t) (env : Environment.t W)
    : bool :=
  negb (Environment.available
          (Py.truthy (Settings.google_translate_api_key settings)
           && Environment.translate env)
          (Environment.GoogleTranslateProvider env))
  && negb (Environment.available
             (Py.truthy (Settings.deepl_api_key settings)
              && Environment.DeepLTranslator env)
             (Environment.DeepLProvider env))
  && negb (Environment.available (Environment.googletrans env)
             (Environment.GoogleTranslateFreeProvider env)).

Definition fallback_order : list string := ["google_free"; "google"; "deepl"].

Definition all_failed : string := "All translation providers failed".

Definition primary_response (request : TranslationRequest.t)
    (result : TranslateResult.t) : TranslationResponse.t :=
  TranslationResponse.mk
    (TranslationRequest.text request)
    (TranslateResult.translated_text result)
    (default (TranslationRequest.source_language request)
       (TranslateResult.source_language result))
    (TranslationRequest.target_language request)
    (default 0.9%float (TranslateResult.confidence result))
    (TranslationRequest.provider request).

Definition fallback_response (request : TranslationRequest.t)
    (provider_name : string) (result : TranslateResult.t)
    : TranslationResponse.t :=
  TranslationResponse.mk
    (TranslationRequest.text request)
    (TranslateResult.translated_text result)
    (default (TranslationRequest.source_language request)
       (TranslateResult.source_language result))
    (TranslationRequest.target_language request)
    (default 0.8%float (TranslateResult.confidence result))
    provider_name.

Definition _try_fallback (providers : gmap string Adapter) (st : Run)
    : (TranslationResponse.t + Py.exn) * Run :=
  Service.fallback_loop TranslationRequest.provider
    TranslationRequest.set_provider fallback_response all_failed
    providers fallback_order st.

Definition translate (providers : gmap string Adapter)
    (request : TranslationRequest.t) (world : W)
    : (TranslationResponse.t + Py.exn) * Run :=
  Service.invoke TranslationRequest.provider
    TranslationRequest.set_provider primary_response fallback_response
    all_failed fallback_order providers request world.

End TranslationService.

(** [is_translation_needed(source_lang, target_lang)]. *)
Definition is_translation_needed (source_lang target_lang : string) : bool :=
  if bool_decide (source_lang = target_lang) then false
  else
    (* Handle language variants *)
    let source_base := Py.split0 "-" source_lang in
    let target_base := Py.split0 "-" target_lang in
    negb (bool_decide (source_base = target_base)).

End TranslationService.

(** ** services/ai_service.py *)

Module AIAnswerService.

(** [_post_process_answer(self, answer, request)]. *)
Definition _post_process_answer (answer : list N)
    (request : AnswerGenerationRequest.t) : list N :=
  let max_length := AnswerGenerationRequest.max_length request in
  (* Remove extra whitespace *)
  let answer := Py.join [Py.SPACE] (Py.split answer) in
  (* Ensure it's within length limit *)
  let answer :=
    if max_length <? Py.len (Py.split answer) then
      let words := Py.slice_to (Py.split answer) max_length in
      let answer := Py.join [Py.SPACE] words in
      (* Try to end at a sentence boundary *)
      if negb (Py.endswith answer [Py.DOT]) then
        let last_period := Py.rfind answer Py.DOT in
        (* If period is in last 30% *)
        if Py.int_gt_float last_period
             (Py.float_of_Z (Py.len answer) * 0.7)
        then Py.slice_to answer (last_period + 1)
        else answer
      else answer
    else answer in
  (* Ensure proper punctuation *)
  let answer :=
    if negb (Py.endswith_any answer Py.terminators)
    then answer ++ [Py.DOT]
    else answer in
  Py.strip answer.

Section AIAnswerService.
Context {W : Type}.

(** A [generate] adapter is handed the formatted prompt and the request;
    the prompt is a function of the request ([_format_prompt] on its
    style, question and context), so the request stands for both. *)
Abbreviation Adapter :=
  (Service.Adapter W AnswerGenerationRequest.t GenerateResult.t).
Abbreviation Run := (@Service.Run W AnswerGenerationRequest.t).

(** [MockAIProvider.generate]. [question.lower()] is taken on the ASCII
    letters ([Py.lower]); which of the canned answers is chosen is
    stated nowhere below. *)
Definition MockAIProvider : Adapter :=
  fun request world =>
    let question := Py.lower (AnswerGenerationRequest.question request) in
    let has (phrase : string) := Py.contains question (Py.of_string phrase) in
    let answer :=
      if has "tell me about yourself" || has "introduce yourself" then
        "I am a dedicated professional with strong communication skills and a passion for continuous learning. I believe my experience and enthusiasm make me a great fit for this role."
      else if has "why do you want" then
        "I am excited about this opportunity because it aligns perfectly with my career goals and allows me to contribute my skills while growing professionally."
      else if has "strength" then
        "One of my key strengths is my ability to work collaboratively while maintaining attention to detail. I consistently deliver high-quality results under pressure."
      else if has "weakness" then
        "I sometimes focus too much on perfecting details, but I've learned to balance thoroughness with meeting deadlines effectively."
      else if has "experience" then
        "In my previous roles, I have successfully managed projects and collaborated with diverse teams to achieve challenging goals and deliver excellent results."
      else
        "That's an excellent question. Based on my experience and understanding of the role, I believe the key is to approach challenges systematically while maintaining clear communication with stakeholders."
    in
    (Some (GenerateResult.mk (Py.of_string answer) (Some 0.85%float)), world).

(** [_initialize_providers]. *)
Definition _initialize_providers (settings : Settings.t)
    (env : Environment.t W) : gmap string Adapter :=
  let providers : gmap string Adapter := ∅ in
  (* OpenAI *)
  let providers :=
    Environment.register
      (Py.truthy (Settings.openai_api_key settings) && Environment.openai env)
      "openai" (Environment.OpenAIProvider env) providers in
  (* Anthropic Claude *)
  let providers :=
    Environment.register
      (Py.truthy (Settings.anthropic_api_key settings)
       && Environment.anthropic env)
      "anthropic" (Environment.AnthropicProvider env) providers in
  (* Mock provider for testing *)
  if bool_decide (size providers = 0%nat)
  then <["mock" := MockAIProvider]> providers
  else providers.

(** Start-up registers neither of the two real answer adapters. *)
Definition no_real_adapter (settings : Settings.t) (env : Environment.t W)
    : bool :=
  negb (Environment.available
          (Py.truthy (Settings.openai_api_key settings)
           && Environment.openai env) (Environment.OpenAIProvider env))
  && negb (Environment.available
             (Py.truthy (Settings.anthropic_api_key settings)
              && Environment.anthropic env)
             (Environment.AnthropicProvider env)).

Definition fallback_order : list string := ["openai"; "anthropic"].

Definition all_failed : string := "All AI providers failed".

(** [AnswerGenerationResponse(...)] as built by [generate_answer]; the
    [metadata] dict is left out. *)
Definition primary_response (request : AnswerGenerationRequest.t)
    (result : GenerateResult.t) : AnswerGenerationResponse.t :=
  let processed_answer :=
    _post_process_answer (GenerateResult.answer result) request in
  AnswerGenerationResponse.mk
    (AnswerGenerationRequest.question request)
    processed_answer
    (default 0.9%float (GenerateResult.confidence result))
    (AnswerGenerationRequest.provider request).

(** [AnswerGenerationResponse(...)] as built by [_try_fallback]. *)
Definition fallback_response (request : AnswerGenerationRequest.t)
    (provider_name : string) (result : GenerateResult.t)
    : AnswerGenerationResponse.t :=
  let processed_answer :=
    _post_process_answer (GenerateResult.answer result) request in
  AnswerGenerationResponse.mk
    (AnswerGenerationRequest.question request)
    processed_answer
    (default 0.8%float (GenerateResult.confidence result))
    provider_name.

Definition _try_fallback (providers : gmap string Adapter) (st : Run)
    : (AnswerGenerationResponse.t + Py.exn) * Run :=
  Service.fallback_loop AnswerGenerationRequest.provider
    AnswerGenerationRequest.set_provider fallback_response all_failed
    providers fallback_order st.

Definition generate_answer (providers : gmap string Adapter)
    (request : AnswerGenerationRequest.t) (world : W)
    : (AnswerGenerationResponse.t + Py.exn) * Run :=
  Service.invoke AnswerGenerationRequest.provider
    AnswerGenerationRequest.set_provider primary_response fallback_response
    all_failed fallback_order providers request world.

End AIAnswerService.
End AIAnswerService.

(** ** main.py *)

Module Main.

Inductive Capability : Type := STT | Translation | Answer.

(** An entry of the call log: a call of a service entry point, or a call
    of one adapter made on its behalf. *)
Inductive Invocation : Type :=
  | ServiceCall (c : Capability)
  | AdapterCall (c : Capability) (provider : string).

(** The [data] of an inbound frame, for the frames whose [data] is a
    JSON object (or is missing, which the handler reads as the empty
    object) with strings at the keys the handlers read. [None] is a
    missing key; for [audio_data], which is only tested for truth, it is
    a null as well. A [data] that is no object, and a language that is
    no string, have no value in this type: what is stated of the
    handlers is stated of these frames. *)
Module Inbound.
Record t := mk {
  audio_data : option string;
  source_language : option string;
  target_language : option string
}.
End Inbound.

Section Main.
Context {W : Type}.

(** The module's globals after start-up, the outside world, and two
    records of what the run did: [sent], every frame handed to a
    connection's [send_text], oldest first, and [log], every service and
    adapter call. A [send_text] that raises is caught inside
    [send_message] and changes nothing else. *)
Record App : Type := mkApp {
  settings : Settings.t;
  stt_service :
    gmap string (Service.Adapter W TranscriptionRequest.t SttResult.t);
  translation_service :
    gmap string (Service.Adapter W TranslationRequest.t TranslateResult.t);
  ai_service :
    gmap string
      (Service.Adapter W AnswerGenerationRequest.t GenerateResult.t);
  active_connections : gset string;
  active_sessions : gmap string InterviewSession.t;
  world : W;
  sent : list RealTimeMessage.t;
  log : list Invocation
}.

(** A coroutine of [main.py]: it reads and updates the globals and
    returns a value or raises. *)
Definition M (A : Type) : Type := App -> (A + Py.exn) * App.

Definition ret {A} (a : A) : M A := fun app => (inl a, app).

Definition bind {A B} (m : M A) (k : A -> M B) : M B :=
  fun app =>
    match m app with
    | (inl a, app) => k a app
    | (inr e, app) => (inr e, app)
    end.

(** [try: body except Exception as e: handler(e)]. *)
Definition try_except {A} (body : M A) (handler : Py.exn -> M A) : M A :=
  fun app =>
    match body app with
    | (inl a, app) => (inl a, app)
    | (inr e, app) => handler e app
    end.

Definition gets {A} (f : App -> A) : M A := fun app => (inl (f app), app).

(** A read of the global [settings] object. *)
Definition get_settings : M Settings.t := gets settings.

Definition set_settings (s : Settings.t) (app : App) : App :=
  mkApp s (stt_service app) (translation_service app) (ai_service app)
    (active_connections app) (active_sessions app) (world app) (sent app)
    (log app).

Definition set_active_connections (c : gset string) (app : App) : App :=
  mkApp (settings app) (stt_service app) (translation_service app)
    (ai_service app) c (active_sessions app) (world app) (sent app)
    (log app).

Definition set_active_sessions (s : gmap string InterviewSession.t)
    (app : App) : App :=
  mkApp (settings app) (stt_service app) (translation_service app)
    (ai_service app) (active_connections app) s (world app) (sent app)
    (log app).

(** The state after a service call: the world it left and its calls. *)
Definition after_call (c : Capability) (w : W) (attempts : list string)
    (app : App) : App :=
  mkApp (settings app) (stt_service app) (translation_service app)
    (ai_service app) (active_connections app) (active_sessions app) w
    (sent app) (log app ++ ServiceCall c :: map (AdapterCall c) attempts).

Definition push_sent (m : RealTimeMessage.t) (app : App) : App :=
  mkApp (settings app) (stt_service app) (translation_service app)
    (ai_service app) (active_connections app) (active_sessions app)
    (world app) (sent app ++ [m]) (log app).

(** [await stt_service.transcribe(request)]. *)
Definition stt_transcribe (request : TranscriptionRequest.t)
    : M TranscriptionResponse.t :=
  fun app =>
    let '(r, run) :=
      SpeechToTextService.transcribe (stt_service app) request (world app) in
    (r, after_call STT (Service.world run) (Service.attempts run) app).

(** [await translation_service.translate(request)]. *)
Definition translation_translate (request : TranslationRequest.t)
    : M TranslationResponse.t :=
  fun app =>
    let '(r, run) :=
      TranslationService.translate (translation_service app) request
        (world app) in
    (r, after_call Translation (Service.world run) (Service.attempts run) app).

(** [await ai_service.generate_answer(request)]. *)
Definition ai_generate_answer (request : AnswerGenerationRequest.t)
    : M AnswerGenerationResponse.t :=
  fun app =>
    let '(r, run) :=
      AIAnswerService.generate_answer (ai_service app) request (world app) in
    (r, after_call Answer (Service.world run) (Service.attempts run) app).

(** [send_message(session_id, message_type, data)]. *)
Definition send_message (session_id message_type : string)
    (data : EventData) : M unit :=
  fun app =>
    if bool_decide (session_id ∈ active_connections app)
    then (inl tt,
          push_sent (RealTimeMessage.mk message_type session_id data) app)
    else (inl tt, app).

(** [send_error(session_id, error, message)]. *)
Definition send_error (session_id error message : string) : M unit :=
  send_message session_id "error" (ErrorData error message).

End Main.

Declare Scope py_scope.
Notation "'let*' x ':=' m 'in' k" := (bind m (fun x => k))
  (at level 10, x name, m at level 100, k at level 200) : py_scope.
Notation "m '>>' k" := (bind m (fun _ => k))
  (at level 100, k at level 200, right associativity) : py_scope.
Local Open Scope py_scope.

Section Handlers.
Context {W : Type}.

(** [process_audio_chunk(session_id, data)]. *)
Definition process_audio_chunk (session_id : string) (data : Inbound.t)
    : M (W := W) unit :=
  try_except
    (let* sessions := gets active_sessions in
     match sessions !! session_id with
     | None => ret tt
     | Some session =>
     if negb (Py.truthy (Inbound.audio_data data)) then ret tt else
     let audio_data := default "" (Inbound.audio_data data) in
     (* Step 1: Transcription *)
     let* settings := get_settings in
     let transcription_request :=
       TranscriptionRequest.mk audio_data
         (Some (InterviewSession.source_language session))
         (Settings.stt_provider settings) in
     let* transcription := stt_transcribe transcription_request in
     (* Send transcription result *)
     send_message session_id "transcription"
       (TranscriptionData
          (TranscriptionResponse.text transcription)
          (TranscriptionResponse.confidence transcription)
          (TranscriptionResponse.language transcription)) >>
     if bool_decide (Py.strip (TranscriptionResponse.text transcription) = [])
     then ret tt else
     (* Step 2: Translation (if needed) *)
     let* question_text :=
       if negb (bool_decide (InterviewSession.source_language session
                             = InterviewSession.target_language session))
       then
         let* settings := get_settings in
         let translation_request :=
           TranslationRequest.mk
             (TranscriptionResponse.text transcription)
             (TranscriptionResponse.language transcription)
             (InterviewSession.target_language session)
             (Settings.translation_provider settings) in
         let* translation := translation_translate translation_request in
         (* Send translation result *)
         send_message session_id "translation"
           (TranslationData
              (TranslationResponse.original_text translation)
              (TranslationResponse.translated_text translation)
              (TranslationResponse.source_language translation)
              (TranslationResponse.target_language translation)
              (TranslationResponse.confidence translation)) >>
         ret (TranslationResponse.translated_text translation)
       else ret (TranscriptionResponse.text transcription) in
     (* Step 3: Answer Generation *)
     let* settings := get_settings in
     let answer_request :=
       AnswerGenerationRequest.mk question_text None
         (Settings.answer_style settings)
         (Settings.answer_max_length settings)
         (InterviewSession.target_language session)
         "openai" (* Default to OpenAI for now *) in
     let* answer := ai_generate_answer answer_request in
     (* Send answer result *)
     let* settings := get_settings in
     send_message session_id "answer"
       (AnswerData
          (AnswerGenerationResponse.question answer)
          (AnswerGenerationResponse.answer answer)
          (AnswerGenerationResponse.confidence answer)
          (Settings.answer_style settings))
     end)
    (fun e => send_error session_id "Pipeline error" (Py.str e)).

(** *** The requests and frames of one run

    The three requests [process_audio_chunk] builds and the frames it
    sends, named so that statements about a run can refer to them. *)

Definition stt_request (app : App (W := W)) (session : InterviewSession.t)
    (data : Inbound.t) : TranscriptionRequest.t :=
  TranscriptionRequest.mk (default "" (Inbound.audio_data data))
    (Some (InterviewSession.source_language session))
    (Settings.stt_provider (settings app)).

Definition translation_request (app : App (W := W))
    (session : InterviewSession.t) (t : TranscriptionResponse.t)
    : TranslationRequest.t :=
  TranslationRequest.mk (TranscriptionResponse.text t)
    (TranscriptionResponse.language t)
    (InterviewSession.target_language session)
    (Settings.translation_provider (settings app)).

Definition answer_request (app : App (W := W))
    (session : InterviewSession.t) (question_text : list N)
    : AnswerGenerationRequest.t :=
  AnswerGenerationRequest.mk question_text None
    (Settings.answer_style (settings app))
    (Settings.answer_max_length (settings app))
    (InterviewSession.target_language session) "openai".

Definition transcription_frame (session_id : string)
    (t : TranscriptionResponse.t) : RealTimeMessage.t :=
  RealTimeMessage.mk "transcription" session_id
    (TranscriptionData (TranscriptionResponse.text t)
       (TranscriptionResponse.confidence t)
       (TranscriptionResponse.language t)).

Definition translation_frame (session_id : string)
    (t : TranslationResponse.t) : RealTimeMessage.t :=
  RealTimeMessage.mk "translation" session_id
    (TranslationData (TranslationResponse.original_text t)
       (TranslationResponse.translated_text t)
       (TranslationResponse.source_language t)
       (TranslationResponse.target_language t)
       (TranslationResponse.confidence t)).

Definition error_frame (session_id message : string) : RealTimeMessage.t :=
  RealTimeMessage.mk "error" session_id (ErrorData "Pipeline error" message).

(** A run of [process_audio_chunk] on [data] for [session] reaches
    [stage] and exhausts its providers: the stages before it return (a
    non-blank transcription; for the answer stage the translation too,
    unless it is skipped), the provider the stage asks for is
    registered, and the service call of the stage returns no response,
    which is to say that the adapter asked for and every fallback the
    loop went on to have raised in this run. *)
Definition exhausted (stage : Capability) (app : App (W := W))
    (session : InterviewSession.t) (data : Inbound.t) : Prop :=
  match stage with
  | STT =>
      is_Some (stt_service app !! Settings.stt_provider (settings app))
      /\ exists e run,
           SpeechToTextService.transcribe (stt_service app)
             (stt_request app session data) (world app) = (inr e, run)
  | Translation =>
      exists t run,
        SpeechToTextService.transcribe (stt_service app)
          (stt_request app session data) (world app) = (inl t, run)
        /\ Py.strip (TranscriptionResponse.text t) <> []
        /\ InterviewSession.source_language session
           <> InterviewSession.target_language session
        /\ is_Some (translation_service app
                      !! Settings.translation_provider (settings app))
        /\ exists e run',
             TranslationService.translate (translation_service app)
               (translation_request app session t) (Service.world run)
             = (inr e, run')
  | Answer =>
      exists t run question world',
        SpeechToTextService.transcribe (stt_service app)
          (stt_request app session data) (world app) = (inl t, run)
        /\ Py.strip (TranscriptionResponse.text t) <> []
        /\ (InterviewSession.source_language session
            = InterviewSession.target_language session
            /\ question = TranscriptionResponse.text t
            /\ world' = Service.world run
            \/ InterviewSession.source_language session
               <> InterviewSession.target_language session
               /\ exists tr run',
                    TranslationService.translate (translation_service app)
                      (translation_request app session t) (Service.world run)
                    = (inl tr, run')
                    /\ question = TranslationResponse.translated_text tr
                    /\ world' = Service.world run')
        /\ is_Some (ai_service app !! "openai")
        /\ exists e run2,
             AIAnswerService.generate_answer (ai_service app)
               (answer_request app session question) world' = (inr e, run2)
  end.

(** [update_session_config(session_id, config)]. *)
Definition update_session_config (session_id : string) (config : Inbound.t)
    : M (W := W) unit :=
  let* sessions := gets active_sessions in
  match sessions !! session_id with
  | None => ret tt
  | Some session =>
      let session :=
        match Inbound.source_language config with
        | Some l =>
            InterviewSession.mk (InterviewSession.session_id session) l
              (InterviewSession.target_language session)
              (InterviewSession.is_active session)
        | None => session
        end in
      let session :=
        match Inbound.target_language config with
        | Some l =>
            InterviewSession.mk (InterviewSession.session_id session)
              (InterviewSession.source_language session) l
              (InterviewSession.is_active session)
        | None => session
        end in
      (fun app =>
         (inl tt,
          set_active_sessions (<[session_id := session]> (active_sessions app))
            app)) >>
      send_message session_id "config_updated"
        (ConfigUpdatedData (InterviewSession.source_language session)
           (InterviewSession.target_language session))
  end.

(** [handle_websocket_message(session_id, message)], on the frame's
    [type] and [data]. *)
Definition handle_websocket_message (session_id : string)
    (message_type : option string) (data : Inbound.t) : M (W := W) unit :=
  try_except
    (if bool_decide (message_type = Some "audio_chunk")
     then process_audio_chunk session_id data
     else if bool_decide (message_type = Some "config_update")
     then update_session_config session_id data
     else if bool_decide (message_type = Some "ping")
     then send_message session_id "pong" PongData
     else ret tt)
    (fun e =>
       send_error session_id
         ("Error processing " ++ default "None" message_type) (Py.str e)).

(** The head of [websocket_endpoint(websocket, session_id)], up to the
    receive loop: the connection and a new session are entered in the
    two tables and the welcome frame is sent. *)
Definition websocket_endpoint_open (session_id : string) : M (W := W) unit :=
  (fun app =>
     (inl tt,
      set_active_connections ({[session_id]} ∪ active_connections app) app)) >>
  (* Create new session *)
  let* settings := get_settings in
  let session :=
    InterviewSession.mk session_id
      (Settings.default_source_language settings)
      (Settings.default_target_language settings) true in
  (fun app =>
     (inl tt,
      set_active_sessions (<[session_id := session]> (active_sessions app))
        app)) >>
  (* Send welcome message *)
  send_message session_id "status"
    (StatusData "Connected to Real-Time Interview Assistant" session_id
       ["transcription"; "translation"; "answer_generation"]).

(** [update_config(config)], the handler of [POST /config/update]. *)
Definition update_config (config : ConfigUpdate.t) : M (W := W) unit :=
  fun app =>
    let s := settings app in
    let pick (o : option string) (old : string) : string :=
      if Py.truthy o then default old o else old in
    let s :=
      Settings.mk
        (Settings.openai_api_key s) (Settings.google_translate_api_key s)
        (Settings.google_speech_api_key s) (Settings.deepl_api_key s)
        (Settings.anthropic_api_key s) (Settings.debug s)
        (pick (ConfigUpdate.source_language config)
           (Settings.default_source_language s))
        (pick (ConfigUpdate.target_language config)
           (Settings.default_target_language s))
        (pick (ConfigUpdate.translation_provider config)
           (Settings.translation_provider s))
        (pick (ConfigUpdate.stt_provider config) (Settings.stt_provider s))
        (Settings.answer_max_length s)
        (pick (ConfigUpdate.answer_style config) (Settings.answer_style s)) in
    (inl tt, set_settings s app).

(** The globals as [startup_event] leaves them when it returns: the
    three services built from the settings and the environment, no
    connection and no session yet. *)
Definition initialize_services (settings : Settings.t)
    (env : Environment.t W) (world : W) : App :=
  mkApp settings
    (SpeechToTextService._initialize_providers settings env)
    (TranslationService._initialize_providers settings env)
    (AIAnswerService._initialize_providers settings env)
    ∅ ∅ world [] [].

(** [startup_event()]: the key validation, then the services; a failed
    validation is re-raised and the application does not start. *)
Definition startup_event (settings : Settings.t) (env : Environment.t W)
    (world : W) : App + Py.exn :=
  match Settings.validate_api_keys settings with
  | Some e => inr e
  | None => inl (initialize_services settings env world)
  end.

End Handlers.
End Main.

(** An environment with no optional library installed. *)
Definition bare_environment : Environment.t unit :=
  Environment.mk unit false false false false false false false
    None None None None None None None None.

(** ** Sample values

    Concrete requests, texts and application states, used to run the
    definitions above. *)

Module Samples.

Definition request (max_length : Z) : AnswerGenerationRequest.t :=
  AnswerGenerationRequest.mk (Py.of_string "Tell me about yourself") None
    "professional" max_length "en" "openai".

(** Six words, with irregular spacing. *)
Definition six_words : list N :=
  Py.of_string "  hello   world. this is a test  ".

(** Two words with one tab between them. *)
Definition tabbed : list N := [97; 9; 98; 46]%N.

(** An adapter whose every call raises. *)
Definition failing {Req Raw} : Service.Adapter unit Req Raw :=
  fun _ world => (None, world).

(** Every real adapter registered, every one of them raising. *)
Definition stt_all_failing
    : gmap string (Service.Adapter unit TranscriptionRequest.t SttResult.t) :=
  <["local" := failing]> (<["openai" := failing]> (<["google" := failing]> ∅)).

Definition translation_all_failing
    : gmap string
        (Service.Adapter unit TranslationRequest.t TranslateResult.t) :=
  <["google_free" := failing]>
    (<["google" := failing]> (<["deepl" := failing]> ∅)).

Definition ai_all_failing
    : gmap string
        (Service.Adapter unit AnswerGenerationRequest.t GenerateResult.t) :=
  <["openai" := failing]> (<["anthropic" := failing]> ∅).

(** The defaults of [class Settings] in debug mode, without and with
    the keys of the OpenAI and Google speech adapters; and the defaults
    with the mock named as STT and translation provider. *)
Definition debug_settings : Settings.t :=
  Settings.mk None None None None None true "auto" "en" "google" "openai" 150
    "professional".

Definition keyed_settings : Settings.t :=
  Settings.mk (Some "sk-sample") None (Some "g-sample") None None true "auto"
    "en" "google" "openai" 150 "professional".

Definition mock_settings : Settings.t :=
  Settings.mk None None None None None false "auto" "en" "mock" "mock" 150
    "professional".

(** An environment with the three STT libraries installed, whose STT
    constructors build the given adapters. *)
Definition stt_environment
    (openai google local :
       option (Service.Adapter unit TranscriptionRequest.t SttResult.t))
    : Environment.t unit :=
  Environment.mk unit true true true false false false false
    openai google local None None None None None.

(** The application after start-up with no optional library, in debug
    mode with the default providers, and with the mock providers. *)
Definition default_app : Main.App (W := unit) :=
  Main.initialize_services debug_settings bare_environment tt.

Definition mock_app : Main.App (W := unit) :=
  Main.initialize_services mock_settings bare_environment tt.

(** An [audio_chunk] frame and a [config_update] frame. *)
Definition chunk : Main.Inbound.t := Main.Inbound.mk (Some "QUJD") None None.

Definition set_source (language : string) : Main.Inbound.t :=
  Main.Inbound.mk None (Some language) None.

(** The state a computation leaves, started in [app]. *)
Definition after {A} (m : Main.M (W := unit) A) (app : Main.App)
    : Main.App := (m app).2.

(** An STT adapter that hears nothing but whitespace, and one that
    reports a confidence of its own. *)
Definition silent
    : Service.Adapter unit TranscriptionRequest.t SttResult.t :=
  fun _ world => (Some (SttResult.mk (Py.of_string "  ") None None), world).

Definition confident
    : Service.Adapter unit TranscriptionRequest.t SttResult.t :=
  fun _ world =>
    (Some (SttResult.mk (Py.of_string "Hello") (Some 0.97%float) None),
     world).

(** The application started with the given STT adapters, and session
    "s1" open. *)
Definition app_with_stt
    (openai google local :
       option (Service.Adapter unit TranscriptionRequest.t SttResult.t))
    : Main.App (W := unit) :=
  after (Main.websocket_endpoint_open "s1")
    (Main.initialize_services keyed_settings
       (stt_environment openai google local) tt).

Definition silent_app : Main.App (W := unit) :=
  app_with_stt (Some silent) None None.

Definition failing_app : Main.App (W := unit) :=
  app_with_stt (Some failing) (Some failing) (Some failing).

(** The primary "openai" raises, the fallback "google" returns. *)
Definition fallback_app : Main.App (W := unit) :=
  app_with_stt (Some failing) (Some confident) None.

(** [default_app] with session "s1" open. *)
Definition open_app : Main.App (W := unit) :=
  after (Main.websocket_endpoint_open "s1") default_app.


(** One that sets the two default languages only. *)
Definition use_french : ConfigUpdate.t :=
  ConfigUpdate.mk (Some "fr") (Some "de") None None None None.

Definition transcription_request (provider : string)
    : TranscriptionRequest.t :=
  TranscriptionRequest.mk "QUJD" (Some "auto") provider.

Definition translation_request (provider : string) : TranslationRequest.t :=
  TranslationRequest.mk (Py.of_string "Bonjour") "fr" "en" provider.

End Samples.

(** ** main.py: the connection, and the HTTP endpoints *)

Module HealthCheck.
Record t := mk {
  status : string;
  services : list (string * string);
  version : string
}.
End HealthCheck.

(** The dict [get_current_config] returns. *)
Module CurrentConfig.
Record t := mk {
  source_language : string;
  target_language : string;
  stt_provider : string;
  translation_provider : string;
  answer_style : string;
  answer_max_length : Z
}.
End CurrentConfig.

Module HTTPException.
Record t := mk {
  status_code : Z;
  detail : string
}.
End HTTPException.

(** What [websocket.receive_text()] and [json.loads] deliver: a JSON
    object with its [type] and [data], or an exception, raised for a
    text that is not a JSON object or by the socket itself. The end of
    the list stands for [WebSocketDisconnect]. *)
Inductive Received : Type :=
  | Message (message_type : option string) (data : Main.Inbound.t)
  | Broken (e : Py.exn).

Module Endpoints.
Import Main.
Local Open Scope py_scope.

Section Endpoints.
Context {W : Type}.

(** The [finally] block of [websocket_endpoint]. *)
Definition websocket_endpoint_close (session_id : string)
    : M (W := W) unit :=
  (fun app =>
     (inl tt,
      if bool_decide (session_id ∈ active_connections app)
      then set_active_connections (active_connections app ∖ {[session_id]})
             app
      else app)) >>
  (fun app =>
     (inl tt,
      if bool_decide (is_Some (active_sessions app !! session_id))
      then set_active_sessions (delete session_id (active_sessions app)) app
      else app)).

(** The [while True] loop of [websocket_endpoint] on the texts that
    arrive. *)
Fixpoint receive_loop (session_id : string) (received : list Received)
    : M (W := W) unit :=
  match received with
  | [] => ret tt
  | Message message_type data :: rest =>
      handle_websocket_message session_id message_type data >>
      receive_loop session_id rest
  | Broken e :: _ => fun app => (inr e, app)
  end.

(** [websocket_endpoint(websocket, session_id)], from [accept] to the
    end of the [finally] block. *)
Definition websocket_endpoint (session_id : string)
    (received : list Received) : M (W := W) unit :=
  fun app =>
    let '(_, app) := websocket_endpoint_open session_id app in
    let '(_, app) :=
      try_except (receive_loop session_id received)
        (fun e => send_error session_id "WebSocket error" (Py.str e)) app in
    websocket_endpoint_close session_id app.

(** [health_check()], without the timestamp. The globals are [None]
    until [startup_event] has run; afterwards the four services are
    set. *)
Definition health_check (globals : option (App (W := W))) : HealthCheck.t :=
  let status_of (ok : bool) : string :=
    if ok then "healthy" else "unhealthy" in
  let services_status : list (string * string) :=
    [ ("speech_to_text",
       status_of match globals with
                 | Some app => negb (bool_decide (stt_service app = ∅))
                 | None => false
                 end);
      ("translation",
       status_of match globals with
                 | Some app =>
                     negb (bool_decide (translation_service app = ∅))
                 | None => false
                 end);
      ("ai_generation",
       status_of match globals with
                 | Some app => negb (bool_decide (ai_service app = ∅))
                 | None => false
                 end);
      ("audio_capture",
       status_of match globals with Some _ => true | None => false end) ] in
  let overall_status :=
    if forallb (fun entry => String.eqb entry.2 "healthy") services_status
    then "healthy" else "degraded" in
  HealthCheck.mk overall_status services_status "1.0.0".

(** [get_current_config()]. *)
Definition get_current_config : M (W := W) CurrentConfig.t :=
  let* settings := get_settings in
  ret (CurrentConfig.mk
         (Settings.default_source_language settings)
         (Settings.default_target_language settings)
         (Settings.stt_provider settings)
         (Settings.translation_provider settings)
         (Settings.answer_style settings)
         (Settings.answer_max_length settings)).

(** [str(e)] for an [HTTPException], as the web framework defines it. *)
Variable http_str : HTTPException.t -> string.

(** The body the three service endpoints share:
    [try: if not service: raise HTTPException(503, ...); return await
    call; except Exception as e: raise HTTPException(500, str(e))]. The
    first [raise] happens inside the [try], and [HTTPException] is an
    [Exception]. *)
Definition service_endpoint {A} (unavailable : string) (call : M (W := W) A)
    (globals : option (App (W := W)))
    : (A + HTTPException.t) * option (App (W := W)) :=
  match globals with
  | None =>
      (inr (HTTPException.mk 500
              (http_str (HTTPException.mk 503 unavailable))), None)
  | Some app =>
      match call app with
      | (inl result, app) => (inl result, Some app)
      | (inr e, app) => (inr (HTTPException.mk 500 (Py.str e)), Some app)
      end
  end.

(** [transcribe_audio(request)], the handler of [POST /transcribe]. *)
Definition transcribe_audio (request : TranscriptionRequest.t) :=
  service_endpoint "Speech-to-text service not available"
    (stt_transcribe request).

(** [translate_text(request)], the handler of [POST /translate]. *)
Definition translate_text (request : TranslationRequest.t) :=
  service_endpoint "Translation service not available"
    (translation_translate request).

(** [generate_answer(request)], the handler of
    [POST /generate-answer]. *)
Definition generate_answer (request : AnswerGenerationRequest.t) :=
  service_endpoint "AI service not available" (ai_generate_answer request).

End Endpoints.
End Endpoints.

(** ** The utility functions of the services *)

(** Language codes and provider names are ASCII identifiers; on these
    [lower] below and [Py.upper] are Python's [str.lower] and
    [str.upper]. *)
Module Identifier.

Definition lower_ascii (a : ascii) : ascii :=
  let n := nat_of_ascii a in
  if ((65 <=? n) && (n <=? 90))%nat then ascii_of_nat (n + 32) else a.

Fixpoint lower (s : string) : string :=
  match s with
  | EmptyString => EmptyString
  | String a rest => String (lower_ascii a) (lower rest)
  end.

Fixpoint is_ascii (s : string) : bool :=
  match s with
  | EmptyString => true
  | String a rest => (nat_of_ascii a <? 128)%nat && is_ascii rest
  end.

End Identifier.

(** [class DeepLProvider] of translation_service.py. *)
Module DeepLProvider.

Definition mapping : gmap string string :=
  list_to_map
    [("en", "EN"); ("zh", "ZH"); ("zh-cn", "ZH"); ("zh-tw", "ZH");
     ("ja", "JA"); ("ko", "KO"); ("fr", "FR"); ("de", "DE"); ("es", "ES");
     ("it", "IT"); ("pt", "PT"); ("ru", "RU")].

(** [_map_language_code(lang_code)]. *)
Definition _map_language_code (lang_code : string) : string :=
  default (Py.upper lang_code) (mapping !! Identifier.lower lang_code).

End DeepLProvider.

(** The utility functions of translation_service.py. *)
Module LanguageNames.

(** Text on which [Py.lower] is Python's [str.lower]. *)
Definition is_ascii (s : list N) : bool := forallb (fun c => (c <? 128)%N) s.

Definition mapping : gmap (list N) (list N) :=
  list_to_map
    [(Py.of_string "chinese", Py.of_string "zh");
     (Py.of_string "english", Py.of_string "en");
     (Py.of_string "japanese", Py.of_string "ja");
     (Py.of_string "korean", Py.of_string "ko");
     (Py.of_string "french", Py.of_string "fr");
     (Py.of_string "german", Py.of_string "de");
     (Py.of_string "spanish", Py.of_string "es");
     (Py.of_string "italian", Py.of_string "it");
     (Py.of_string "portuguese", Py.of_string "pt");
     (Py.of_string "russian", Py.of_string "ru")].

(** [normalize_language_code(lang_code)], on a name as a user types
    it. *)
Definition normalize_language_code (lang_code : list N) : list N :=
  let normalized := Py.strip (Py.lower lang_code) in
  default normalized (mapping !! normalized).

End LanguageNames.

(** [validate_answer_quality] of ai_service.py. *)
Module AnswerQuality.

Record Metrics := mkMetrics {
  length_appropriate : bool;
  has_punctuation : bool;
  not_too_repetitive : bool;
  addresses_question : bool
}.

Record t := mk {
  score : float;
  metrics : Metrics;
  is_acceptable : bool
}.

Section AnswerQuality.

(** Python's [str.lower], the Unicode case mapping. *)
Variable str_lower : list N -> list N.

(** [sum(metrics.values())]: the number of metrics that hold. *)
Definition passed (m : Metrics) : Z :=
  Z.b2z (length_appropriate m) + Z.b2z (has_punctuation m)
  + Z.b2z (not_too_repetitive m) + Z.b2z (addresses_question m).

(** [validate_answer_quality(answer, question)]; [None] stands for the
    [ZeroDivisionError] of the third metric. The two quotients are
    quotients of integers far below 2^53. *)
Definition validate_answer_quality (answer question : list N) : option t :=
  let words := Py.split answer in
  if bool_decide (Py.len words = 0) then None
  else
    let metrics :=
      mkMetrics
        ((20 <=? Py.len words) && (Py.len words <=? 150))
        (Py.endswith_any answer Py.terminators)
        (PrimFloat.ltb 0.7%float
           (Py.float_of_Z (Py.len (remove_dups words))
            / Py.float_of_Z (Py.len words))%float)
        (0 <? Py.len (list_intersection
                        (remove_dups (Py.split (str_lower question)))
                        (remove_dups (Py.split (str_lower answer))))) in
    let score := (Py.float_of_Z (passed metrics) / Py.float_of_Z 4)%float in
    Some (mk score metrics (PrimFloat.leb 0.75%float score)).

End AnswerQuality.
End AnswerQuality.

(** ** services/audio_capture.py: the ring buffer *)

Module AudioBuffer.

(** [target[start:stop] = values] on a numpy array, for indices that
    are not negative: the values replace the slice when the lengths
    agree, a single value is broadcast over it, and anything else
    raises [ValueError] ([None]). *)
Definition assign (target : list Z) (start stop : nat) (values : list Z)
    : option (list Z) :=
  let stop := Nat.min stop (length target) in
  let start := Nat.min start stop in
  if (length values =? stop - start)%nat
  then Some (take start target ++ values ++ drop stop target)
  else
    match values with
    | [v] =>
        Some (take start target ++ replicate (stop - start) v
              ++ drop stop target)
    | _ => None
    end.

(** [l[start:stop]] for integers of either sign. *)
Definition slice {A} (l : list A) (start stop : Z) : list A :=
  let clip (i : Z) : nat :=
    Z.to_nat (if i <? 0 then Z.max 0 (Py.len l + i)
              else Z.min i (Py.len l)) in
  take (clip stop - clip start) (drop (clip start) l).

(** The attributes of an [AudioBuffer] that its methods use. Positions
    and sizes are never negative. *)
Record t := mk {
  max_samples : nat;
  buffer : list Z;
  write_pos : nat;
  is_full : bool
}.

(** The buffer as [__init__] leaves it, for
    [max_samples = int(max_duration * sample_rate)]. *)
Definition init (max_samples : nat) : t :=
  mk max_samples (replicate max_samples 0) 0 false.

Section AudioBuffer.

(** Whether [numpy] could be imported. *)
Variable np : bool.

(** [np.frombuffer(data, dtype=np.int16)]: the samples of a byte
    string, [None] where it raises. *)
Variable frombuffer : list Byte.byte -> option (list Z).

(** [int(duration * self.sample_rate)]. *)
Variable to_samples : float -> Z.

(** [add_chunk(chunk)], on [chunk.data]; [None] when it raises. *)
Definition add_chunk (data : list Byte.byte) (b : t) : option t :=
  if negb np then Some b
  else
    match frombuffer data with
    | None => None
    | Some audio_array =>
        let chunk_size := length audio_array in
        let '(audio_array, chunk_size) :=
          if (max_samples b <? chunk_size)%nat
          then
            (* Chunk is larger than buffer, take the last part *)
            (if (max_samples b =? 0)%nat then audio_array
             else drop (length audio_array - max_samples b) audio_array,
             max_samples b)
          else (audio_array, chunk_size) in
        (* Check if we need to wrap around *)
        let written :=
          if (max_samples b <? write_pos b + chunk_size)%nat
          then
            (* Split the chunk *)
            let first_part_size := (max_samples b - write_pos b)%nat in
            let second_part_size := (chunk_size - first_part_size)%nat in
            match
              assign (buffer b) (write_pos b) (length (buffer b))
                (take first_part_size audio_array)
            with
            | None => None
            | Some buffer =>
                match
                  assign buffer 0 second_part_size
                    (drop first_part_size audio_array)
                with
                | None => None
                | Some buffer => Some (buffer, second_part_size)
                end
            end
          else
            (* Normal write *)
            match
              assign (buffer b) (write_pos b) (write_pos b + chunk_size)
                audio_array
            with
            | None => None
            | Some buffer => Some (buffer, (write_pos b + chunk_size)%nat)
            end in
        match written with
        | None => None
        | Some (buffer, write_pos) =>
            if (max_samples b <=? write_pos)%nat
            then Some (mk (max_samples b) buffer 0 true)
            else Some (mk (max_samples b) buffer write_pos (is_full b))
        end
    end.

(** [get_audio_data(duration)]; [None] when it raises. *)
Definition get_audio_data (duration : option float) (b : t)
    : option (list Z) :=
  if negb np then Some []
  else
    match duration with
    | None =>
        if is_full b
        then
          (* Return full buffer in correct order *)
          Some (drop (write_pos b) (buffer b) ++ take (write_pos b) (buffer b))
        else
          (* Return data up to write position *)
          Some (take (write_pos b) (buffer b))
    | Some duration =>
        (* Return specific duration *)
        let samples := to_samples duration in
        let samples := Z.min samples (Z.of_nat (max_samples b)) in
        if is_full b
        then
          if (max_samples b =? 0)%nat then None
          else
            let start_pos :=
              (Z.of_nat (write_pos b) - samples)
                `mod` Z.of_nat (max_samples b) in
            if start_pos + samples <=? Z.of_nat (max_samples b)
            then Some (slice (buffer b) start_pos (start_pos + samples))
            else
              Some (slice (buffer b) start_pos (Py.len (buffer b))
                    ++ slice (buffer b) 0
                         (samples - (Z.of_nat (max_samples b) - start_pos)))
        else
          let start_pos := Z.max 0 (Z.of_nat (write_pos b) - samples) in
          Some (slice (buffer b) start_pos (Z.of_nat (write_pos b)))
    end.

End AudioBuffer.

(** What [__init__] and [add_chunk] maintain. *)
Definition wf (b : t) : Prop :=
  length (buffer b) = max_samples b
  /\ (write_pos b < max_samples b)%nat.

End AudioBuffer.

(** ** Further sample values *)

Module Fixtures.

(** An answer adapter that returns seven words with irregular spacing
    and no final stop. *)
Definition verbose
    : Service.Adapter unit AnswerGenerationRequest.t GenerateResult.t :=
  fun _ world =>
    (Some (GenerateResult.mk
             (Py.of_string "I plan  carefully and deliver on time") None),
     world).


(** [Samples.mock_app] with session "s1" open: every registry holds the
    mock only, and the STT and translation settings name it. *)
Definition mock_open_app : Main.App (W := unit) :=
  Samples.after (Main.websocket_endpoint_open "s1") Samples.mock_app.

(** Settings with the OpenAI key, English on both sides and a limit of
    three words. *)
Definition english_settings : Settings.t :=
  Settings.mk (Some "sk-sample") None None None None true "en" "en" "google"
    "openai" 3 "professional".

(** An environment with the [openai] library only, whose STT adapter is
    [Samples.confident] and whose answer adapter is [verbose]. *)
Definition answering_environment : Environment.t unit :=
  Environment.mk unit true false false false false false false
    (Some Samples.confident) None None None None None (Some verbose) None.

(** The application started with these, and session "s1" open. *)
Definition answering_app : Main.App (W := unit) :=
  Samples.after (Main.websocket_endpoint_open "s1")
    (Main.initialize_services english_settings answering_environment tt).

(** An STT adapter that raises while the world has counted fewer than
    two adapter calls and returns "Hello" afterwards; every call is
    counted. *)
Definition flaky : Service.Adapter nat TranscriptionRequest.t SttResult.t :=
  fun _ calls =>
    (if bool_decide (calls < 2)%nat then None
     else Some (SttResult.mk (Py.of_string "Hello") None None),
     S calls).

(** The application started with it under "openai" and "google", no
    call counted yet, and session "s1" open: the first chunk exhausts
    the two, the second one is transcribed. *)
Definition flaky_app : Main.App (W := nat) :=
  (Main.websocket_endpoint_open "s1"
     (Main.initialize_services Samples.keyed_settings
        (Environment.mk nat true true true false false false false
           (Some flaky) (Some flaky) None None None None None None)
        0%nat)).2.

(** [np.frombuffer(data, dtype=np.int16)] on a little-endian machine:
    two bytes a sample, in two's complement; a byte string of odd
    length is refused. *)
Fixpoint int16_le (data : list Byte.byte) : option (list Z) :=
  match data with
  | [] => Some []
  | [_] => None
  | low :: high :: rest =>
      let value := Z.of_N (Byte.to_N low) + 256 * Z.of_N (Byte.to_N high) in
      option_map
        (cons (if 32768 <=? value then value - 65536 else value))
        (int16_le rest)
  end.

(** The bytes of the samples 1, 2; of 4, 5; and of 9. *)
Definition one_two : list Byte.byte :=
  [Byte.x01; Byte.x00; Byte.x02; Byte.x00].

Definition four_five : list Byte.byte :=
  [Byte.x04; Byte.x00; Byte.x05; Byte.x00].

Definition nine : list Byte.byte := [Byte.x09; Byte.x00].

(** A buffer of four samples that holds three, and a full one whose
    oldest sample is at position 1. *)
Definition three_of_four : AudioBuffer.t :=
  AudioBuffer.mk 4 [1; 2; 3; 0] 3 false.

Definition full_of_four : AudioBuffer.t :=
  AudioBuffer.mk 4 [5; 2; 3; 4] 1 true.

End Fixtures.

(** * Properties *)

(** ** The definitions on sample inputs *)

Module Sanity.

Example split_sample :
  Py.split (Py.of_string "  hello   world. this ")
  = [Py.of_string "hello"; Py.of_string "world."; Py.of_string "this"].
Proof. reflexivity. Qed.

Example split_tab_newline :
  Py.split [97; 9; 98; 10; 12288; 99]%N = [[97]; [98]; [99]]%N.
Proof. reflexivity. Qed.

Example join_sample :
  Py.join [Py.SPACE] [Py.of_string "a"; Py.of_string "b."]
  = Py.of_string "a b.".
Proof. reflexivity. Qed.

Example rfind_sample :
  Py.rfind (Py.of_string "a. b. c") Py.DOT = 4
  /\ Py.rfind (Py.of_string "abc") Py.DOT = -1.
Proof. by vm_compute. Qed.

Example slice_negative : Py.slice_to [1; 2; 3]%N (-1) = [1; 2]%N.
Proof. reflexivity. Qed.

Example strip_sample :
  Py.strip (Py.of_string "  a b 	") = Py.of_string "a b".
Proof. by vm_compute. Qed.

(** [7 > 10 * 0.7] is false and [8 > 10 * 0.7] is true; [11 > 17 * 0.7]
    is false (11.899...) and [12 > 17 * 0.7] is true. *)
Example threshold_sample :
  Py.int_gt_float 7 (Py.float_of_Z 10 * 0.7) = false
  /\ Py.int_gt_float 8 (Py.float_of_Z 10 * 0.7) = true
  /\ Py.int_gt_float 11 (Py.float_of_Z 17 * 0.7) = false
  /\ Py.int_gt_float 12 (Py.float_of_Z 17 * 0.7) = true.
Proof. by vm_compute. Qed.

(** Truncation to three words; the full stop at index 11 of 17 is not in
    the last 30%, so the hard cut stays and a full stop is appended. *)
Example post_process_truncates :
  AIAnswerService._post_process_answer Samples.six_words (Samples.request 3)
  = Py.of_string "hello world. this.".
Proof. by vm_compute. Qed.

(** Here the full stop at index 10 of 13 is in the last 30%: the answer
    is cut back to the sentence. *)
Example post_process_prefers_sentence :
  AIAnswerService._post_process_answer
    (Py.of_string "aaaaaaaa b. c d e f") (Samples.request 3)
  = Py.of_string "aaaaaaaa b.".
Proof. by vm_compute. Qed.

Example is_translation_needed_sample :
  TranslationService.is_translation_needed "zh-cn" "zh-tw" = false
  /\ TranslationService.is_translation_needed "en" "zh" = true
  /\ TranslationService.is_translation_needed "auto" "en" = true.
Proof. by vm_compute. Qed.

(** With the defaults and no key, start-up is refused; in debug mode, or
    with the mock named as provider, it goes through. *)
Example startup_default_refused :
  Main.startup_event Settings.defaults bare_environment tt
  = inr (Py.ValueError
           "Configuration errors: OpenAI API key required for OpenAI STT provider; Google Translate API key required for Google translation provider").
Proof. by vm_compute. Qed.

Example startup_samples :
  Main.startup_event Samples.debug_settings bare_environment tt
  = inl Samples.default_app
  /\ Main.startup_event Samples.mock_settings bare_environment tt
     = inl Samples.mock_app
  /\ Main.startup_event Samples.keyed_settings
       (Samples.stt_environment (Some Samples.failing)
          (Some Samples.failing) (Some Samples.failing)) tt
     = inl (Main.initialize_services Samples.keyed_settings
              (Samples.stt_environment (Some Samples.failing)
                 (Some Samples.failing) (Some Samples.failing)) tt).
Proof. repeat split; reflexivity. Qed.

Example failing_app_registry :
  Main.stt_service Samples.failing_app = Samples.stt_all_failing.
Proof. reflexivity. Qed.

End Sanity.

(** ** Python strings *)

Module PyFacts.
Import Py.

Lemma split_nonempty c s : is_space c = false -> split (c :: s) <> [].
Proof.
  intros H. simpl. rewrite H.
  destruct (starts_with_space s); [done|]. by destruct (split s).
Qed.

Lemma split_cons_length c s :
  is_space c = false ->
  length (split (c :: s))
  = if starts_with_space s then S (length (split s)) else length (split s).
Proof.
  intros H. simpl. rewrite H.
  destruct (starts_with_space s) eqn:E; [done|].
  destruct s as [|d s']; [done|]. simpl in E.
  pose proof (split_nonempty d s' E). by destruct (split (d :: s')).
Qed.

Lemma join_cons sep w v ws :
  join sep (w :: v :: ws) = w ++ sep ++ join sep (v :: ws).
Proof. reflexivity. Qed.

Lemma split_app_word w t :
  word w -> starts_with_space t = true -> split (w ++ t) = w :: split t.
Proof.
  intros [Hne Hw] Ht. induction w as [|c w IH]; [done|].
  apply Forall_cons in Hw as [Hc Hw].
  destruct w as [|d w].
  - simpl. by rewrite Hc, Ht.
  - change ((c :: d :: w) ++ t) with (c :: ((d :: w) ++ t)).
    cbn [split]. rewrite Hc.
    rewrite IH by done.
    apply Forall_cons in Hw as [Hd _]. simpl. by rewrite Hd.
Qed.

Lemma split_join ws : Forall word ws -> split (join [SPACE] ws) = ws.
Proof.
  induction 1 as [|w ws Hw Hws IH]; [done|].
  destruct ws as [|v ws].
  - simpl. rewrite <- (app_nil_r w) at 1. by rewrite split_app_word.
  - rewrite join_cons, split_app_word by done.
    f_equal. exact IH.
Qed.

Lemma split_words s : Forall word (split s).
Proof.
  induction s as [|c s IH]; [constructor|].
  simpl. destruct (is_space c) eqn:Hc; [done|].
  destruct (starts_with_space s).
  - constructor; [|done]. split; [done|]. by constructor.
  - destruct (split s) as [|w ws].
    + constructor; [|done]. split; [done|]. by constructor.
    + apply Forall_cons in IH as [[_ Hw] Hws].
      constructor; [|done]. split; [done|]. by constructor.
Qed.

Lemma split_take_length k s : (length (split (take k s)) <= length (split s))%nat.
Proof.
  revert k. induction s as [|c s IH]; intros k.
  - by rewrite take_nil.
  - destruct k as [|k]; [simpl; lia|].
    cbn [take]. destruct (is_space c) eqn:Hc.
    + simpl. rewrite Hc. apply IH.
    + rewrite !split_cons_length by done.
      specialize (IH k).
      destruct s as [|d s]; [by rewrite take_nil|].
      destruct (is_space d) eqn:Hd.
      * destruct k as [|k]; cbn [take starts_with_space] in *; rewrite ?Hd.
        -- cbn [split length]. lia.
        -- lia.
      * pose proof (split_nonempty d s Hd) as Hne.
        destruct k as [|k]; cbn [take starts_with_space] in *; rewrite ?Hd.
        -- destruct (split (d :: s)); [done|]. cbn [split length]. lia.
        -- lia.
Qed.

Lemma split_snoc_length s c :
  is_space c = false ->
  length (split (s ++ [c]))
  = if has_trailing_space s || bool_decide (s = [])
    then S (length (split s)) else length (split s).
Proof.
  intros Hc. induction s as [|a s IH].
  - simpl. by rewrite Hc.
  - change ((a :: s) ++ [c]) with (a :: (s ++ [c])).
    destruct (is_space a) eqn:Ha.
    + simpl split. rewrite Ha, IH.
      unfold has_trailing_space. destruct s as [|b s]; [simpl; by rewrite Ha|].
      by rewrite last_cons_cons.
    + rewrite !split_cons_length, IH by done.
      unfold has_trailing_space. destruct s as [|b s]; [simpl; by rewrite Ha, Hc|].
      rewrite last_cons_cons. cbn [app starts_with_space].
      rewrite !bool_decide_eq_false_2 by done.
      destruct (last (b :: s)) as [z|]; [destruct (is_space z)|];
        by destruct (is_space b).
Qed.

(** *** Suffix tests *)

Lemma endswith_last s c : endswith s [c] = true <-> last s = Some c.
Proof.
  unfold endswith. rewrite bool_decide_eq_true.
  destruct s as [|a s _] using rev_ind.
  - simpl. split; discriminate.
  - rewrite last_snoc, length_app. simpl.
    replace (length s + 1 - 1)%nat with (length s) by lia.
    rewrite drop_app_length. split; congruence.
Qed.

Lemma endswith_snoc s c : endswith (s ++ [c]) [c] = true.
Proof. apply endswith_last, last_snoc. Qed.

Lemma terminated_last s :
  endswith_any s terminators = true ->
  exists c, last s = Some c /\ is_space c = false.
Proof.
  unfold endswith_any, terminators. simpl.
  rewrite !orb_true_iff, !endswith_last.
  intros [H|[H|[H|H]]]; [| | |done]; eexists; (split; [exact H|reflexivity]).
Qed.

Lemma terminated_snoc_dot s : endswith_any (s ++ [DOT]) terminators = true.
Proof.
  unfold endswith_any, terminators. simpl. by rewrite endswith_snoc.
Qed.

(** *** [rfind] *)

Lemma rfind_spec s c :
  rfind s c = -1 \/ (0 <= rfind s c /\ s !! Z.to_nat (rfind s c) = Some c).
Proof.
  induction s as [|d s IH]; [by left|].
  simpl. destruct IH as [IH|[IH1 IH2]].
  - rewrite IH. simpl. destruct (N.eqb_spec d c) as [->|]; [right|left]; done.
  - right. destruct (Z.leb_spec 0 (rfind s c)); [|lia].
    split; [lia|].
    replace (Z.to_nat (rfind s c + 1)) with (S (Z.to_nat (rfind s c))) by lia.
    done.
Qed.

(** *** The scan [norm_after] *)

Lemma norm_after_cons b c s :
  norm_after b (c :: s)
  = if is_space c
    then (c =? SPACE)%N && negb b && norm_after true s
    else norm_after false s.
Proof. reflexivity. Qed.

Lemma norm_after_nonempty s : norm_after true s = true -> s <> [].
Proof. by destruct s. Qed.

Lemma norm_after_head s :
  norm_after true s = true -> starts_with_space s = false.
Proof.
  destruct s as [|c s]; [done|]. simpl.
  destruct (is_space c); [|done]. by rewrite andb_false_r.
Qed.

Lemma norm_after_last b s :
  norm_after b s = true -> s <> [] ->
  exists c, last s = Some c /\ is_space c = false.
Proof.
  revert b. induction s as [|c s IH]; intros b H Hne; [done|].
  destruct s as [|d s].
  - simpl in H. destruct (is_space c) eqn:Hc.
    + by rewrite andb_false_r in H.
    + by exists c.
  - rewrite last_cons_cons. rewrite norm_after_cons in H.
    destruct (is_space c).
    + apply andb_true_iff in H as [_ H]. by eapply IH.
    + by eapply IH.
Qed.

Lemma norm_after_word b w t :
  word w -> norm_after b (w ++ t) = norm_after false t.
Proof.
  intros [Hne Hw]. revert b. induction w as [|c w IH]; intros b; [done|].
  apply Forall_cons in Hw as [Hc Hw].
  change ((c :: w) ++ t) with (c :: (w ++ t)).
  rewrite norm_after_cons, Hc.
  destruct w as [|d w]; [done|]. by apply IH.
Qed.

Lemma norm_after_join ws :
  Forall word ws -> ws <> [] -> norm_after true (join [SPACE] ws) = true.
Proof.
  induction 1 as [|w ws Hw Hws IH]; intros Hne; [done|].
  destruct ws as [|v ws].
  - simpl. rewrite <- (app_nil_r w). by rewrite norm_after_word.
  - rewrite join_cons, norm_after_word by done.
    change ([SPACE] ++ join [SPACE] (v :: ws))
      with (SPACE :: join [SPACE] (v :: ws)).
    rewrite norm_after_cons. simpl. by apply IH.
Qed.

Lemma norm_after_take b s p c :
  norm_after b s = true -> s !! p = Some c -> is_space c = false ->
  norm_after b (take (S p) s) = true.
Proof.
  revert b p. induction s as [|a s IH]; intros b p H Hp Hc; [done|].
  destruct p as [|p].
  - simpl in Hp. injection Hp as ->. simpl. by rewrite Hc.
  - simpl in Hp. change (take (S (S p)) (a :: s)) with (a :: take (S p) s).
    rewrite norm_after_cons in *. destruct (is_space a).
    + apply andb_true_iff in H as [H1 H2]. rewrite H1. simpl. by eapply IH.
    + by eapply IH.
Qed.

Lemma norm_after_snoc b s c :
  s = [] \/ norm_after b s = true -> is_space c = false ->
  norm_after b (s ++ [c]) = true.
Proof.
  intros H Hc. revert b H. induction s as [|a s IH]; intros b H.
  - simpl. by rewrite Hc.
  - destruct H as [|H]; [done|].
    change ((a :: s) ++ [c]) with (a :: (s ++ [c])).
    rewrite norm_after_cons in *. destruct (is_space a).
    + apply andb_true_iff in H as [H1 H2]. rewrite H1. simpl.
      apply IH. by right.
    + apply IH. destruct s; [by left|by right].
Qed.

(** A scanned string is its own normal form. *)
Lemma norm_after_join_split b s :
  norm_after b s = true ->
  join [SPACE] (split s) = if starts_with_space s then tail s else s.
Proof.
  revert b. induction s as [|c s IH]; intros b H; [done|].
  rewrite norm_after_cons in H. cbn [split starts_with_space tail].
  destruct (is_space c) eqn:Hc.
  - apply andb_true_iff in H as [_ H].
    rewrite (IH _ H), (norm_after_head _ H). done.
  - specialize (IH _ H).
    destruct s as [|d s]; [done|].
    cbn [starts_with_space tail] in *.
    destruct (is_space d) eqn:Hd.
    + rewrite norm_after_cons, Hd in H.
      apply andb_true_iff in H as [H1 H2].
      apply andb_true_iff in H1 as [H1 _]. apply N.eqb_eq in H1 as ->.
      destruct (split (SPACE :: s)) as [|w ws].
      * simpl in IH. by subst s.
      * rewrite join_cons, IH. done.
    + pose proof (split_nonempty d s Hd) as Hne.
      destruct (split (d :: s)) as [|w ws]; [done|].
      destruct ws as [|v ws].
      * simpl in *. by rewrite IH.
      * rewrite join_cons. rewrite join_cons in IH. by rewrite <- IH.
Qed.

Lemma norm_after_fixed s :
  norm_after true s = true -> join [SPACE] (split s) = s.
Proof.
  intros H. rewrite (norm_after_join_split _ _ H).
  by rewrite (norm_after_head _ H).
Qed.

(** *** [strip] *)

Lemma lstrip_id s : starts_with_space s = false -> lstrip s = s.
Proof. destruct s as [|c s]; [done|]. simpl. by intros ->. Qed.

Lemma strip_id s :
  starts_with_space s = false ->
  (exists c, last s = Some c /\ is_space c = false) ->
  strip s = s.
Proof.
  intros Hh (c & Hl & Hc). unfold strip, rstrip.
  rewrite (lstrip_id _ Hh).
  apply last_Some in Hl as [s' ->].
  rewrite reverse_snoc. simpl. rewrite Hc.
  by rewrite <- reverse_snoc, reverse_involutive.
Qed.

Lemma norm_after_strip s : norm_after true s = true -> strip s = s.
Proof.
  intros H. apply strip_id; [by apply norm_after_head|].
  eapply norm_after_last; [done|]. by apply norm_after_nonempty.
Qed.

(** *** The whitespace-normal strings are the scanned ones *)

Lemma norm_after_intro b s :
  s <> [] ->
  (b = true -> has_leading_space s = false) ->
  has_trailing_space s = false ->
  no_space_runs s = true ->
  forallb (fun c => negb (is_space c) || (c =? SPACE)%N) s = true ->
  norm_after b s = true.
Proof.
  revert b. induction s as [|c s IH]; intros b Hne Hl Ht Hr Ha; [done|].
  rewrite norm_after_cons.
  cbn [no_space_runs forallb] in Hr, Ha.
  apply andb_true_iff in Hr as [Hr1 Hr2].
  apply andb_true_iff in Ha as [Ha1 Ha2].
  destruct s as [|d s].
  - unfold has_trailing_space in Ht. simpl in Ht. by rewrite Ht.
  - unfold has_trailing_space in Ht. rewrite last_cons_cons in Ht.
    destruct (is_space c) eqn:Hc.
    + simpl in Ha1. rewrite Ha1. simpl in Hr1.
      apply negb_true_iff in Hr1.
      destruct b; [specialize (Hl eq_refl); simpl in Hl; congruence|].
      cbn [andb negb].
      apply IH; done.
    + apply IH; done.
Qed.

Lemma is_normalized_scan s :
  is_normalized s = true -> s = [] \/ norm_after true s = true.
Proof.
  unfold is_normalized, loosely_normalized.
  rewrite !andb_true_iff, !negb_true_iff. intros [[[Hl Ht] Hr] Ha].
  destruct s as [|c s]; [by left|right].
  by apply norm_after_intro.
Qed.

Lemma join_scan ws :
  Forall word ws ->
  join [SPACE] ws = [] \/ norm_after true (join [SPACE] ws) = true.
Proof.
  intros H. destruct ws as [|w ws]; [by left|right].
  by apply norm_after_join.
Qed.

Lemma slice_to_length {A} (l : list A) (n : Z) :
  0 <= n -> len (slice_to l n) <= n.
Proof.
  intros Hn. unfold len, slice_to.
  destruct (Z.ltb_spec n 0); [lia|]. rewrite length_take. lia.
Qed.

Lemma slice_to_words ws n : Forall word ws -> Forall word (slice_to ws n).
Proof. intros H. unfold slice_to. by apply Forall_take. Qed.

End PyFacts.

(** ** Answer post-processing *)

Module PostProcess.
Import Py PyFacts.

(** The length-limit step, on the words of the normalized answer: its
    result is empty or scanned, and within the limit when the limit is
    positive. *)
Lemma within_limit (n : Z) (ws : list (list N)) :
  Forall word ws ->
  let answer :=
    if n <? len ws then
      let answer := join [SPACE] (slice_to ws n) in
      if negb (endswith answer [DOT]) then
        if int_gt_float (rfind answer DOT) (float_of_Z (len answer) * 0.7)
        then slice_to answer (rfind answer DOT + 1)
        else answer
      else answer
    else join [SPACE] ws in
  (answer = [] \/ norm_after true answer = true)
  /\ (1 <= n -> len (split answer) <= n).
Proof.
  intros Hws. cbv zeta.
  destruct (Z.ltb_spec n (len ws)) as [Hlt|Hge].
  - pose proof (slice_to_words ws n Hws) as Hcut.
    set (cut := join [SPACE] (slice_to ws n)).
    assert (len (split cut) <= n \/ n < 1) as Hlen.
    { destruct (Z.le_gt_cases 1 n); [left|right; lia].
      unfold cut. rewrite split_join by done. apply slice_to_length. lia. }
    assert (cut = [] \/ norm_after true cut = true) as Hcutn
      by (by apply join_scan).
    destruct (negb (endswith cut [DOT])); [|split; [done|lia]].
    destruct (int_gt_float _ _); [|split; [done|lia]].
    destruct (rfind_spec cut DOT) as [->|[Hp Hlook]].
    + split; [by left|]. simpl. unfold len. simpl. lia.
    + unfold slice_to.
      destruct (Z.ltb_spec (rfind cut DOT + 1) 0); [lia|].
      replace (Z.to_nat (rfind cut DOT + 1))
        with (S (Z.to_nat (rfind cut DOT))) by lia.
      split.
      * right. destruct Hcutn as [E|Hn]; [by rewrite E in Hlook|].
        by eapply norm_after_take.
      * intros Hn. unfold len in *.
        pose proof (split_take_length (S (Z.to_nat (rfind cut DOT))) cut).
        lia.
  - split; [by apply join_scan|].
    intros _. by rewrite split_join.
Qed.

(** The punctuation step. *)
Lemma punctuated (n : Z) (answer : list N) :
  answer = [] \/ norm_after true answer = true ->
  (1 <= n -> len (split answer) <= n) ->
  let out :=
    if negb (endswith_any answer terminators)
    then answer ++ [DOT] else answer in
  norm_after true out = true
  /\ endswith_any out terminators = true
  /\ (1 <= n -> len (split out) <= n).
Proof.
  intros Hn Hlen. cbv zeta.
  destruct (endswith_any answer terminators) eqn:He; simpl.
  - destruct (terminated_last _ He) as (c & Hl & _).
    destruct Hn as [->|Hn]; done.
  - split; [by apply norm_after_snoc|]. split; [apply terminated_snoc_dot|].
    intros H1. specialize (Hlen H1). unfold len in *.
    rewrite split_snoc_length by done.
    destruct Hn as [->|Hn]; [simpl; lia|].
    destruct (norm_after_last _ _ Hn (norm_after_nonempty _ Hn))
      as (c & Hl & Hc).
    unfold has_trailing_space. rewrite Hl, Hc.
    rewrite bool_decide_eq_false_2 by (by apply norm_after_nonempty).
    simpl. lia.
Qed.

(** What every output satisfies. *)
Lemma post_process_spec (answer : list N) (request : AnswerGenerationRequest.t) :
  let out := AIAnswerService._post_process_answer answer request in
  norm_after true out = true
  /\ endswith_any out terminators = true
  /\ (1 <= AnswerGenerationRequest.max_length request ->
      len (split out) <= AnswerGenerationRequest.max_length request).
Proof.
  cbv zeta. unfold AIAnswerService._post_process_answer.
  set (n := AnswerGenerationRequest.max_length request).
  rewrite (split_join (split answer)) by apply split_words.
  destruct (within_limit n (split answer) (split_words answer)) as [Hn Hlen].
  destruct (punctuated n _ Hn Hlen) as (H1 & H2 & H3).
  cbv zeta in *. by rewrite (norm_after_strip _ H1).
Qed.

(** A scanned, terminated answer within the limit is returned as it is. *)
Lemma post_process_fixed (answer : list N) (request : AnswerGenerationRequest.t) :
  norm_after true answer = true ->
  endswith_any answer terminators = true ->
  len (split answer) <= AnswerGenerationRequest.max_length request ->
  AIAnswerService._post_process_answer answer request = answer.
Proof.
  intros Hn He Hlen. unfold AIAnswerService._post_process_answer.
  rewrite (norm_after_fixed _ Hn).
  destruct (Z.ltb_spec (AnswerGenerationRequest.max_length request)
              (len (split answer))); [lia|].
  rewrite He. simpl. by apply norm_after_strip.
Qed.

(** With a limit of zero every answer becomes the single word ".". *)
Lemma post_process_zero (answer : list N) (request : AnswerGenerationRequest.t) :
  AnswerGenerationRequest.max_length request = 0 ->
  AIAnswerService._post_process_answer answer request = [DOT].
Proof.
  intros Hz. unfold AIAnswerService._post_process_answer. rewrite Hz.
  rewrite (split_join (split answer)) by apply split_words.
  destruct (split answer) as [|w ws]; reflexivity.
Qed.

(** C1, as the specification states it, fails for a limit of zero: the
    empty answer is post-processed to ".", which is one word. *)
Lemma post_process_zero_limit_counterexample :
  AIAnswerService._post_process_answer [] (Samples.request 0) = [DOT]
  /\ len (split (AIAnswerService._post_process_answer [] (Samples.request 0)))
     = 1
  /\ (len (split (AIAnswerService._post_process_answer [] (Samples.request 0)))
      <=? AnswerGenerationRequest.max_length (Samples.request 0)) = false.
Proof. by vm_compute. Qed.

(** C1 (amended): for every limit [max_length >= 1] and every generated
    text, [_post_process_answer] returns a string of at most [max_length]
    words whose last character is one of ".", "!", "?". *)
Theorem post_process_bounded (answer : list N)
    (request : AnswerGenerationRequest.t) :
  1 <= AnswerGenerationRequest.max_length request ->
  len (split (AIAnswerService._post_process_answer answer request))
    <= AnswerGenerationRequest.max_length request
  /\ exists c,
       last (AIAnswerService._post_process_answer answer request) = Some c
       /\ (c = DOT \/ c = BANG \/ c = QUESTION).
Proof.
  intros Hn.
  destruct (post_process_spec answer request) as (_ & He & Hlen).
  cbv zeta in *. split; [by apply Hlen|].
  unfold endswith_any, terminators in He. cbn [existsb] in He.
  rewrite !orb_true_iff, !endswith_last in He.
  destruct He as [H|[H|[H|H]]]; [| | |done]; eauto 6.
Qed.

Lemma post_process_bounded_witness :
  len (split (AIAnswerService._post_process_answer Samples.six_words
                (Samples.request 3))) <= 3
  /\ exists c,
       last (AIAnswerService._post_process_answer Samples.six_words
               (Samples.request 3)) = Some c
       /\ (c = DOT \/ c = BANG \/ c = QUESTION).
Proof.
  apply (post_process_bounded Samples.six_words (Samples.request 3)).
  simpl. lia.
Defined.

(** C9, as the specification states it, fails on a string whose only
    whitespace is one tab: it has no leading or trailing whitespace and
    no run of whitespace, ends in "." and has two words, and is
    rewritten to "a b.". *)
Lemma post_process_tab_counterexample :
  loosely_normalized Samples.tabbed = true
  /\ endswith_any Samples.tabbed terminators = true
  /\ (len (split Samples.tabbed) <=? 150) = true
  /\ AIAnswerService._post_process_answer Samples.tabbed
       (Samples.request 150) = of_string "a b."
  /\ bool_decide
       (AIAnswerService._post_process_answer Samples.tabbed
          (Samples.request 150) = Samples.tabbed) = false.
Proof. by vm_compute. Qed.

(** C9 (amended): an answer that has no leading or trailing whitespace,
    no run of whitespace and no whitespace character other than the
    space U+0020, that ends in ".", "!" or "?" and has at most
    [max_length] words is returned unchanged; and for every
    [max_length >= 0] post-processing twice gives what post-processing
    once gives. *)
Theorem post_process_idempotent (answer : list N)
    (request : AnswerGenerationRequest.t) :
  (is_normalized answer = true ->
   endswith_any answer terminators = true ->
   len (split answer) <= AnswerGenerationRequest.max_length request ->
   AIAnswerService._post_process_answer answer request = answer)
  /\ (0 <= AnswerGenerationRequest.max_length request ->
      AIAnswerService._post_process_answer
        (AIAnswerService._post_process_answer answer request) request
      = AIAnswerService._post_process_answer answer request).
Proof.
  split.
  - intros Hn He Hlen. apply post_process_fixed; [|done..].
    destruct (is_normalized_scan _ Hn) as [->|]; done.
  - intros H0.
    destruct (Z.eq_dec (AnswerGenerationRequest.max_length request) 0) as [Hz|Hz].
    + by rewrite !post_process_zero.
    + destruct (post_process_spec answer request) as (H1 & H2 & H3).
      cbv zeta in *. apply post_process_fixed; [done..|]. apply H3. lia.
Qed.

Lemma post_process_idempotent_witness :
  AIAnswerService._post_process_answer (of_string "Fine, thanks.")
    (Samples.request 150) = of_string "Fine, thanks."
  /\ AIAnswerService._post_process_answer
       (AIAnswerService._post_process_answer Samples.six_words
          (Samples.request 3)) (Samples.request 3)
     = AIAnswerService._post_process_answer Samples.six_words
         (Samples.request 3).
Proof.
  split.
  - apply (proj1 (post_process_idempotent (of_string "Fine, thanks.")
                    (Samples.request 150))); [reflexivity|reflexivity|].
    vm_compute. discriminate.
  - apply (proj2 (post_process_idempotent Samples.six_words
                    (Samples.request 3))).
    simpl. lia.
Defined.

End PostProcess.

(** ** The fallback loop *)

Module ServiceFacts.
Import Service.
Section ServiceFacts.
Context {W Req Raw Resp : Type}.
Variable provider_of : Req -> string.
Variable set_provider : Req -> string -> Req.
Variable primary_response : Req -> Raw -> Resp.
Variable fallback_response : Req -> string -> Raw -> Resp.
Variable all_failed : string.
Variable fallback_order : list string.
Variable providers : gmap string (Adapter W Req Raw).

(** Assigning [request.provider] sets the field that is read back. *)
Hypothesis provider_set :
  forall request name, provider_of (set_provider request name) = name.

Local Abbreviation loop :=
  (fallback_loop provider_of set_provider fallback_response all_failed
     providers).
Local Abbreviation call :=
  (invoke provider_of set_provider primary_response fallback_response
     all_failed fallback_order providers).
Local Abbreviation names_last := (Service.names_last provider_of).
Local Abbreviation all_fail := (Service.all_fail providers).

Lemma loop_names_last names st :
  names_last st -> names_last (loop names st).2.
Proof.
  revert st. induction names as [|name names IH]; intros st Hst; [done|].
  simpl. destruct (providers !! name) as [provider|]; [|by apply IH].
  case_bool_decide; [by apply IH|].
  destruct (provider _ _) as [[result|] world'] eqn:E.
  - simpl. unfold names_last. simpl. by rewrite last_snoc, provider_set.
  - apply IH. unfold names_last. simpl. by rewrite last_snoc, provider_set.
Qed.

(** After a call that got past the registry lookup, the caller's request
    object names the adapter that was called last. *)
Lemma call_names_last request world :
  is_Some (providers !! provider_of request) ->
  names_last (call request world).2.
Proof.
  intros [provider Hp]. unfold invoke. rewrite Hp.
  destruct (provider _ _) as [[result|] world'] eqn:E; [done|].
  by apply loop_names_last.
Qed.

(** The loop only adds attempts, and it adds them in the order of the
    list it walks. *)
Lemma loop_attempts names st :
  exists tried,
    attempts (loop names st).2 = attempts st ++ tried /\ sublist tried names.
Proof.
  revert st. induction names as [|name names IH]; intros st.
  - exists []. by rewrite app_nil_r.
  - simpl. destruct (providers !! name) as [provider|].
    + case_bool_decide.
      * destruct (IH st) as (tried & -> & Hsub).
        exists tried. split; [done|]. by apply sublist_cons.
      * destruct (provider _ _) as [[result|] world'] eqn:E.
        -- exists [name]. split; [done|].
           apply sublist_skip, sublist_nil_l.
        -- edestruct IH as (tried & -> & Hsub). simpl.
           exists (name :: tried). split; [by rewrite <- app_assoc|].
           by apply sublist_skip.
    + destruct (IH st) as (tried & -> & Hsub).
      exists tried. split; [done|]. by apply sublist_cons.
Qed.

(** A value returned by the loop is the response built from what the
    adapter called last returned; the request names that adapter. *)
Lemma loop_success names st resp st' :
  loop names st = (inl resp, st') ->
  exists name provider world result before,
    providers !! name = Some provider
    /\ provider (request st') world = (Some result, Service.world st')
    /\ resp = fallback_response (request st') name result
    /\ provider_of (request st') = name
    /\ attempts st' = before ++ [name]
    /\ (length (attempts st) <= length before)%nat.
Proof.
  revert st. induction names as [|name names IH]; intros st H; [done|].
  simpl in H. destruct (providers !! name) as [provider|] eqn:Hp.
  - case_bool_decide as Hn; [by apply IH|].
    destruct (provider _ _) as [[result|] world'] eqn:E.
    + injection H as <- <-. simpl.
      exists name, provider, (Service.world st), result, (attempts st).
      by rewrite provider_set.
    + destruct (IH _ H) as (n & p & w & r & before & ? & ? & ? & ? & ? & Hl).
      exists n, p, w, r, before. simpl in Hl. rewrite length_app in Hl.
      simpl in Hl. repeat split; try done. lia.
  - by apply IH.
Qed.

(** Assignments to [request.provider] overwrite one another and touch
    no other field. *)
Hypothesis set_set :
  forall request a b,
    set_provider (set_provider request a) b = set_provider request b.
Hypothesis set_same :
  forall request, set_provider request (provider_of request) = request.

Lemma loop_request_frame names st :
  request (loop names st).2
  = set_provider (request st) (provider_of (request (loop names st).2)).
Proof.
  revert st. induction names as [|name names IH]; intros st.
  - simpl. by rewrite set_same.
  - simpl. destruct (providers !! name) as [provider|]; [|by apply IH].
    case_bool_decide; [by apply IH|].
    destruct (provider _ _) as [[result|] world'] eqn:E.
    + simpl. by rewrite provider_set.
    + rewrite IH at 1. simpl. by rewrite set_set.
Qed.

Lemma call_request_frame req world :
  request (call req world).2
  = set_provider req (provider_of (request (call req world).2)).
Proof.
  unfold invoke. destruct (providers !! provider_of req) as [provider|].
  - destruct (provider _ _) as [[result|] world'] eqn:E.
    + simpl. by rewrite set_same.
    + by rewrite loop_request_frame at 1.
  - simpl. by rewrite set_same.
Qed.

(** When every adapter raises, the loop ends in its final exception. *)
Lemma loop_all_fail names st :
  all_fail -> (loop names st).1 = inr (Py.Exception all_failed).
Proof.
  intros Hf. revert st. induction names as [|name names IH]; intros st; [done|].
  simpl. destruct (providers !! name) as [provider|] eqn:Hp; [|by apply IH].
  case_bool_decide; [by apply IH|].
  pose proof (Hf name provider (set_provider (request st) name)
                (Service.world st) Hp) as Hnone.
  destruct (provider _ _) as [result world']. simpl in Hnone. subst result.
  by apply IH.
Qed.

Lemma call_all_fail request world :
  is_Some (providers !! provider_of request) -> all_fail ->
  (call request world).1 = inr (Py.Exception all_failed).
Proof.
  intros [provider Hp] Hf. unfold invoke. rewrite Hp.
  pose proof (Hf _ provider request world Hp) as Hnone.
  destruct (provider _ _) as [result world']. simpl in Hnone. subst result.
  by apply loop_all_fail.
Qed.



(** The loop raises nothing but its final exception. *)
Lemma loop_failure names st e st' :
  loop names st = (inr e, st') -> e = Py.Exception all_failed.
Proof.
  revert st. induction names as [|name names IH]; intros st H.
  - simpl in H. congruence.
  - simpl in H. destruct (providers !! name) as [provider|]; [|by eapply IH].
    case_bool_decide; [by eapply IH|].
    destruct (provider _ _) as [[result|] world']; [done|by eapply IH].
Qed.

(** A service call raises one of two exceptions: the requested provider
    is not registered, or every adapter tried has raised. *)
Lemma call_failure request world e st' :
  call request world = (inr e, st') ->
  e = Py.ValueError ("Provider " ++ provider_of request ++ " not available")
  \/ e = Py.Exception all_failed.
Proof.
  unfold invoke. intros H.
  destruct (providers !! provider_of request) as [provider|].
  - destruct (provider _ _) as [[result|] world']; [done|].
    right. by eapply loop_failure.
  - left. congruence.
Qed.

(** With the requested provider registered it is the second. *)
Lemma call_exhausted request world e :
  is_Some (providers !! provider_of request) ->
  (call request world).1 = inr e -> e = Py.Exception all_failed.
Proof.
  intros [provider Hp] H.
  destruct (call request world) as [r st'] eqn:E. simpl in H. subst r.
  unfold invoke in E. rewrite Hp in E.
  destruct (provider _ _) as [[result|] world']; [done|].
  by eapply loop_failure.
Qed.


(** When the list holds a registered name other than the one the request
    carries, the loop calls an adapter, and the first one it calls has
    such a name. *)
Lemma loop_first names st name :
  name ∈ names -> name <> provider_of (request st) ->
  is_Some (providers !! name) ->
  exists first tried,
    attempts (loop names st).2 = attempts st ++ first :: tried
    /\ first <> provider_of (request st)
    /\ is_Some (providers !! first)
    /\ sublist (first :: tried) names.
Proof.
  revert st. induction names as [|n names IH]; intros st Hin Hne Hreg.
  { by apply elem_of_nil in Hin. }
  assert (n <> name -> name ∈ names) as Hrest.
  { intros Hn. apply elem_of_cons in Hin as [->|Hin]; done. }
  simpl. destruct (providers !! n) as [provider|] eqn:Hp.
  - case_bool_decide as Hskip.
    + destruct (IH st) as (first & tried & -> & H1 & H2 & H3);
        [apply Hrest; congruence|done|done|].
      exists first, tried. do 3 (split; [done|]). by apply sublist_cons.
    + destruct (provider _ _) as [[result|] world'] eqn:E.
      * exists n, []. simpl. do 2 (split; [done|]). split; [by eauto|].
        apply sublist_skip, sublist_nil_l.
      * destruct (loop_attempts names
                    (mkRun (set_provider (request st) n) world'
                       (attempts st ++ [n])))
          as (tried & -> & Hsub).
        exists n, tried. simpl. rewrite <- app_assoc.
        do 2 (split; [done|]). split; [by eauto|]. by apply sublist_skip.
  - destruct (IH st) as (first & tried & -> & H1 & H2 & H3);
      [apply Hrest; intros ->; destruct Hreg; congruence|done|done|].
    exists first, tried. do 3 (split; [done|]). by apply sublist_cons.
Qed.

(** So a call whose requested adapter raises goes on to a fallback when
    one is registered under another name. *)
Lemma call_first request world provider name :
  providers !! provider_of request = Some provider ->
  (provider request world).1 = None ->
  name ∈ fallback_order -> name <> provider_of request ->
  is_Some (providers !! name) ->
  exists first tried,
    attempts (call request world).2 = provider_of request :: first :: tried
    /\ first <> provider_of request
    /\ is_Some (providers !! first)
    /\ sublist (first :: tried) fallback_order.
Proof.
  intros Hp Hnone Hin Hne Hreg. unfold invoke. rewrite Hp.
  destruct (provider request world) as [result world']. simpl in Hnone.
  subst result.
  by apply (loop_first fallback_order
              (mkRun request world' [provider_of request]) name).
Qed.

End ServiceFacts.
End ServiceFacts.

(** ** The three services *)

Module Services.
Import Service ServiceFacts.

(** C4 (the code departs from it): the skip test of [_try_fallback]
    compares a name with [request.provider], which the loop itself
    overwrites at every attempt. Once one fallback has been tried the
    failed primary is no longer recognised: with every adapter raising,
    STT primary "openai" is called again after "local", translation
    primary "google" again after "google_free", and answer primary
    "anthropic" again after "openai". *)
Lemma fallback_retries_failed_primary :
  SpeechToTextService.transcribe Samples.stt_all_failing
    (Samples.transcription_request "openai") tt
  = (inr (Py.Exception "All STT providers failed"),
     mkRun (Samples.transcription_request "google") tt
       ["openai"; "local"; "openai"; "google"])
  /\ TranslationService.translate Samples.translation_all_failing
       (Samples.translation_request "google") tt
     = (inr (Py.Exception "All translation providers failed"),
        mkRun (Samples.translation_request "deepl") tt
          ["google"; "google_free"; "google"; "deepl"])
  /\ AIAnswerService.generate_answer Samples.ai_all_failing
       (AnswerGenerationRequest.set_provider (Samples.request 150)
          "anthropic") tt
     = (inr (Py.Exception "All AI providers failed"),
        mkRun
          (AnswerGenerationRequest.set_provider (Samples.request 150)
             "anthropic") tt
          ["anthropic"; "openai"; "anthropic"]).
Proof. by vm_compute. Qed.

(** What does hold of the order: the fallbacks tried after the primary
    are taken from the capability's list, in the order of the list. *)
Lemma fallback_attempts_in_order {W}
    (providers : gmap string (Adapter W TranscriptionRequest.t SttResult.t))
    (st : Run) :
  exists tried,
    attempts (SpeechToTextService._try_fallback providers st).2
    = attempts st ++ tried
    /\ sublist tried ["local"; "openai"; "google"].
Proof. apply loop_attempts. Qed.

(** *** The speech-to-text registry, attempt by attempt *)

Lemma attempt_registered {W}
    (providers : gmap string (Adapter W TranscriptionRequest.t SttResult.t))
    name :
  is_Some ((SpeechToTextService.attempt <$> providers) !! name)
  <-> is_Some (providers !! name).
Proof. by rewrite lookup_fmap, fmap_is_Some. Qed.

(** An attempt whose adapter raises has raised. *)
Lemma attempt_raises {W}
    (provider : Adapter W TranscriptionRequest.t SttResult.t) request world :
  (provider request world).1 = None ->
  (SpeechToTextService.attempt provider request world).1 = None.
Proof.
  unfold SpeechToTextService.attempt.
  destruct (provider request world) as [result world']. simpl. by intros ->.
Qed.

Lemma attempt_all_fail {W}
    (providers : gmap string (Adapter W TranscriptionRequest.t SttResult.t)) :
  Service.all_fail providers ->
  Service.all_fail (SpeechToTextService.attempt <$> providers).
Proof.
  intros Hf name provider request world H. rewrite lookup_fmap in H.
  destruct (providers !! name) as [raw|] eqn:Hp; [|done].
  injection H as <-. apply attempt_raises. by eapply Hf.
Qed.

(** An attempt that returns is an adapter call that returned a result
    whose language, or else the request's, is a string. *)
Lemma attempt_returns {W}
    (provider : Adapter W TranscriptionRequest.t SttResult.t) request world
    result language world' :
  SpeechToTextService.attempt provider request world
  = (Some (result, language), world') ->
  provider request world = (Some result, world')
  /\ SpeechToTextService.result_language request result = Some language.
Proof.
  unfold SpeechToTextService.attempt.
  destruct (provider request world) as [[r|] w]; [|done].
  destruct (SpeechToTextService.result_language request r) as [l|] eqn:E;
    [|done].
  intros H. injection H as <- <- <-. done.
Qed.

(** *** Start-up without real adapters *)





(** And a real adapter keeps the mock out. *)
Lemma stt_mock_not_mixed {W} settings (env : Environment.t W) :
  SpeechToTextService.no_real_adapter settings env = false ->
  SpeechToTextService._initialize_providers settings env !! "mock" = None.
Proof.
  unfold SpeechToTextService.no_real_adapter,
    SpeechToTextService._initialize_providers,
    Environment.available, Environment.register.
  intros H.
  destruct (Py.truthy _ && Environment.openai env),
    (Environment.OpenAISTTProvider env),
    (Py.truthy _ && Environment.speech env),
    (Environment.GoogleSTTProvider env),
    (Environment.whisper env),
    (Environment.LocalWhisperProvider env);
    simpl in H; try discriminate H;
    (rewrite bool_decide_eq_false_2;
     [by simplify_map_eq
     |rewrite map_size_empty_iff; apply insert_non_empty]).
Qed.




End Services.

(** ** The chunk pipeline *)

Module Pipeline.
Import Main.
Section Pipeline.
Context {W : Type}.
Implicit Types (app : App (W := W)) (session : InterviewSession.t).

Ltac unfold_pipeline :=
  unfold process_audio_chunk, try_except, bind, gets, get_settings, ret,
    stt_transcribe, translation_translate, ai_generate_answer,
    send_error, send_message.

(** C3: a chunk whose transcription comes back empty or whitespace-only
    makes the run send exactly one frame, the transcription frame with
    that text, and stop: the only calls made are the STT service call
    and its adapter calls. *)
Theorem blank_transcription_stops app session_id data session t run :
  active_sessions app !! session_id = Some session ->
  Py.truthy (Inbound.audio_data data) = true ->
  session_id ∈ active_connections app ->
  SpeechToTextService.transcribe (stt_service app)
    (stt_request app session data) (world app) = (inl t, run) ->
  Py.strip (TranscriptionResponse.text t) = [] ->
  (process_audio_chunk session_id data app).1 = inl tt
  /\ sent (process_audio_chunk session_id data app).2
     = sent app ++ [transcription_frame session_id t]
  /\ log (process_audio_chunk session_id data app).2
     = log app ++ ServiceCall STT :: map (AdapterCall STT) (Service.attempts run).
Proof.
  intros Hs Ha Hc Ht Hblank. unfold_pipeline. simpl.
  rewrite Hs, Ha. simpl.
  unfold stt_request in Ht. rewrite Ht. simpl.
  rewrite (bool_decide_eq_true_2 _ Hc). simpl.
  rewrite (bool_decide_eq_true_2 _ Hblank). done.
Qed.

(** The run leaves the settings, the registries and the two tables as
    they were: it only calls services and sends frames. *)
Lemma process_audio_chunk_frame app session_id data :
  settings (process_audio_chunk session_id data app).2 = settings app
  /\ active_sessions (process_audio_chunk session_id data app).2
     = active_sessions app
  /\ active_connections (process_audio_chunk session_id data app).2
     = active_connections app
  /\ stt_service (process_audio_chunk session_id data app).2 = stt_service app
  /\ translation_service (process_audio_chunk session_id data app).2
     = translation_service app
  /\ ai_service (process_audio_chunk session_id data app).2 = ai_service app
  /\ (process_audio_chunk session_id data app).1 = inl tt.
Proof.
  unfold_pipeline. simpl.
  repeat (case_match; simpl in *; simplify_eq; try done).
Qed.




(** In particular when every adapter of the registry raises, on every
    request and in every world. *)
Lemma stt_exhausted
    (providers : gmap string
       (Service.Adapter W TranscriptionRequest.t SttResult.t))
    request world :
  is_Some (providers !! TranscriptionRequest.provider request) ->
  Service.all_fail providers ->
  exists run,
    SpeechToTextService.transcribe providers request world
    = (inr (Py.Exception "All STT providers failed"), run).
Proof.
  intros Hp Hf.
  destruct (SpeechToTextService.transcribe providers request world)
    as [r run] eqn:E.
  exists run. f_equal.
  pose proof (ServiceFacts.call_all_fail TranscriptionRequest.provider
                TranscriptionRequest.set_provider
                SpeechToTextService.primary_response
                SpeechToTextService.fallback_response
                SpeechToTextService.all_failed
                SpeechToTextService.fallback_order
                (SpeechToTextService.attempt <$> providers) request world
                (proj2 (Services.attempt_registered _ _) Hp)
                (Services.attempt_all_fail _ Hf)) as Hr.
  unfold SpeechToTextService.transcribe in E. by rewrite E in Hr.
Qed.

Lemma all_fail_exhausted app session data :
  is_Some (stt_service app !! Settings.stt_provider (settings app)) ->
  Service.all_fail (stt_service app) ->
  exhausted STT app session data.
Proof.
  intros Hp Hf. split; [done|].
  destruct (stt_exhausted (stt_service app) (stt_request app session data)
              (world app) Hp Hf) as [run Hr].
  by eexists _, run.
Qed.

(** The receive loop hands an [audio_chunk] frame to the pipeline, and
    the pipeline never raises: the loop goes on to the next frame. *)
Lemma handle_audio_chunk app session_id data :
  handle_websocket_message session_id (Some "audio_chunk") data app
  = process_audio_chunk session_id data app.
Proof.
  unfold handle_websocket_message, try_except. simpl.
  pose proof (process_audio_chunk_frame app session_id data)
    as (_ & _ & _ & _ & _ & _ & Hret).
  destruct (process_audio_chunk session_id data app) as [[[]|e] app'];
    [done|done].
Qed.



(** Once the transcription has returned, its frame is the first one the
    run sends. *)
Lemma transcription_frame_first app session_id data session t run :
  active_sessions app !! session_id = Some session ->
  Py.truthy (Inbound.audio_data data) = true ->
  session_id ∈ active_connections app ->
  SpeechToTextService.transcribe (stt_service app)
    (stt_request app session data) (world app) = (inl t, run) ->
  exists rest,
    sent (process_audio_chunk session_id data app).2
    = sent app ++ transcription_frame session_id t :: rest.
Proof.
  intros Hs Ha Hc Ht. unfold_pipeline. simpl. rewrite Hs, Ha. simpl.
  unfold stt_request in Ht. rewrite Ht. simpl.
  rewrite (bool_decide_eq_true_2 _ Hc). simpl.
  repeat (case_match; simpl in *; simplify_eq);
    simpl; unfold transcription_frame; rewrite <- ?app_assoc; simpl;
    eexists; reflexivity.
Qed.

(** A transcription that took more than one adapter call came out of
    [_try_fallback]: it is built from the result of the adapter called
    last. *)
Lemma fallback_transcription
    (providers : gmap string
       (Service.Adapter W TranscriptionRequest.t SttResult.t))
    request world t run :
  SpeechToTextService.transcribe providers request world = (inl t, run) ->
  (2 <= length (Service.attempts run))%nat ->
  exists name provider world' result,
    last (Service.attempts run) = Some name
    /\ providers !! name = Some provider
    /\ provider (Service.request run) world'
       = (Some result, Service.world run)
    /\ TranscriptionResponse.text t = SttResult.text result
    /\ TranscriptionResponse.confidence t
       = default 0.8%float (SttResult.confidence result)
    /\ TranscriptionResponse.provider t = name
    /\ SpeechToTextService.result_language (Service.request run) result
       = Some (TranscriptionResponse.language t).
Proof.
  unfold SpeechToTextService.transcribe, Service.invoke. intros H Hlen.
  destruct (_ !! _) as [primary|]; [|by simplify_eq/=; lia].
  destruct (primary _ _) as [[result|] world1].
  { simplify_eq/=. lia. }
  apply (ServiceFacts.loop_success TranscriptionRequest.provider) in H;
    [|done].
  destruct H as (name & provider & w & [result language] & before
                 & Hp & Hcall & -> & _ & Hatt & _).
  apply lookup_fmap_Some in Hp as (raw & <- & Hp).
  apply Services.attempt_returns in Hcall as [Hcall Hlang].
  exists name, raw, w, result. rewrite Hatt, last_snoc. done.
Qed.

(** C5 (amended): when the primary STT provider raises and a fallback
    returns, the [TranscriptionResponse] names that fallback as its
    provider and carries the fallback adapter's own confidence, or 0.8
    when the adapter reports none; the transcription frame sent to the
    client carries that response's text, confidence and language (it has
    no provider field). So the confidence is at most the primary-path
    default 0.9 when the adapter reports none, and whatever the adapter
    reports otherwise. *)
Theorem fallback_transcription_frame app session_id data session t run :
  active_sessions app !! session_id = Some session ->
  Py.truthy (Inbound.audio_data data) = true ->
  session_id ∈ active_connections app ->
  SpeechToTextService.transcribe (stt_service app)
    (stt_request app session data) (world app) = (inl t, run) ->
  (2 <= length (Service.attempts run))%nat ->
  exists name provider world' result rest,
    last (Service.attempts run) = Some name
    /\ stt_service app !! name = Some provider
    /\ provider (Service.request run) world'
       = (Some result, Service.world run)
    /\ TranscriptionResponse.provider t = name
    /\ TranscriptionResponse.confidence t
       = default 0.8%float (SttResult.confidence result)
    /\ (SttResult.confidence result = None ->
        PrimFloat.leb (TranscriptionResponse.confidence t) 0.9 = true)
    /\ sent (process_audio_chunk session_id data app).2
       = sent app
         ++ RealTimeMessage.mk "transcription" session_id
              (TranscriptionData (SttResult.text result)
                 (default 0.8%float (SttResult.confidence result))
                 (TranscriptionResponse.language t))
         :: rest.
Proof.
  intros Hs Ha Hc Ht Hlen.
  destruct (fallback_transcription _ _ _ _ _ Ht Hlen)
    as (name & provider & w & result & Hl & Hp & Hcall & Htext & Hconf
        & Hname & _).
  destruct (transcription_frame_first _ _ _ _ _ _ Hs Ha Hc Ht) as [rest Hr].
  exists name, provider, w, result, rest.
  do 5 (split; [done|]). split.
  - rewrite Hconf. by intros ->.
  - rewrite Hr. unfold transcription_frame. by rewrite Htext, Hconf.
Qed.

End Pipeline.

(** *** The theorems above, on sample runs *)

Lemma stt_all_failing_fails : Service.all_fail Samples.stt_all_failing.
Proof.
  intros name provider request world H. unfold Samples.stt_all_failing in H.
  repeat (apply lookup_insert_Some in H as [[_ <-]|[_ H]]; [done|]).
  by rewrite lookup_empty in H.
Qed.

Lemma blank_transcription_stops_witness :
  (process_audio_chunk "s1" Samples.chunk Samples.silent_app).1 = inl tt
  /\ sent (process_audio_chunk "s1" Samples.chunk Samples.silent_app).2
     = sent Samples.silent_app
       ++ [RealTimeMessage.mk "transcription" "s1"
             (TranscriptionData (Py.of_string "  ") 0.9%float "auto")]
  /\ log (process_audio_chunk "s1" Samples.chunk Samples.silent_app).2
     = log Samples.silent_app ++ [ServiceCall STT; AdapterCall STT "openai"].
Proof.
  apply (blank_transcription_stops Samples.silent_app "s1" Samples.chunk
           (InterviewSession.mk "s1" "auto" "en" true)
           (TranscriptionResponse.mk (Py.of_string "  ") 0.9%float "auto"
              "openai")
           (Service.mkRun
              (TranscriptionRequest.mk "QUJD" (Some "auto") "openai") tt
              ["openai"])).
  - reflexivity.
  - reflexivity.
  - vm_compute. reflexivity.
  - reflexivity.
  - reflexivity.
Defined.


(** The same two adapters over two chunks: the first chunk exhausts
    them, both raising; the second chunk of the same session is
    transcribed by the first of them. *)
Lemma transient_failure_example :
  map RealTimeMessage.type
    (sent (process_audio_chunk "s1" Samples.chunk
             (process_audio_chunk "s1" Samples.chunk Fixtures.flaky_app).2).2)
  = ["status"; "error"; "transcription"; "error"]
  /\ log (process_audio_chunk "s1" Samples.chunk
            (process_audio_chunk "s1" Samples.chunk Fixtures.flaky_app).2).2
     = [ServiceCall STT; AdapterCall STT "openai"; AdapterCall STT "google";
        ServiceCall STT; AdapterCall STT "openai"; ServiceCall Translation].
Proof. by vm_compute. Qed.

(** C5, as the specification states it, fails on both counts: the
    transcription frame has no provider field, and when the fallback
    adapter reports a confidence above 0.9 the frame carries it. Primary
    "openai" raises, fallback "google" returns "Hello" with 0.97. *)
Lemma fallback_confidence_counterexample :
  SpeechToTextService.transcribe (stt_service Samples.fallback_app)
    (Samples.transcription_request "openai") tt
  = (inl (TranscriptionResponse.mk (Py.of_string "Hello") 0.97%float "auto"
            "google"),
     Service.mkRun (Samples.transcription_request "google") tt
       ["openai"; "google"])
  /\ sent (process_audio_chunk "s1" Samples.chunk Samples.fallback_app).2
       !! 1%nat
     = Some (RealTimeMessage.mk "transcription" "s1"
               (TranscriptionData (Py.of_string "Hello") 0.97%float "auto"))
  /\ PrimFloat.leb 0.97 0.9 = false.
Proof. by vm_compute. Qed.

Lemma fallback_transcription_frame_witness :
  exists name provider world' result rest,
    last ["openai"; "google"] = Some name
    /\ stt_service Samples.fallback_app !! name = Some provider
    /\ provider (Samples.transcription_request "google") world'
       = (Some result, tt)
    /\ "google" = name
    /\ 0.97%float = default 0.8%float (SttResult.confidence result)
    /\ (SttResult.confidence result = None ->
        PrimFloat.leb 0.97 0.9 = true)
    /\ sent (process_audio_chunk "s1" Samples.chunk Samples.fallback_app).2
       = sent Samples.fallback_app
         ++ RealTimeMessage.mk "transcription" "s1"
              (TranscriptionData (SttResult.text result)
                 (default 0.8%float (SttResult.confidence result)) "auto")
         :: rest.
Proof.
  apply (fallback_transcription_frame Samples.fallback_app "s1" Samples.chunk
           (InterviewSession.mk "s1" "auto" "en" true)
           (TranscriptionResponse.mk (Py.of_string "Hello") 0.97%float "auto"
              "google")
           (Service.mkRun (Samples.transcription_request "google") tt
              ["openai"; "google"])).
  - reflexivity.
  - reflexivity.
  - vm_compute. reflexivity.
  - reflexivity.
  - simpl. lia.
Defined.

End Pipeline.

(** ** The translation decision *)

Module TranslationDecision.
Import Main.

(** The helper compares base subtags: it answers [False] exactly when
    the parts before the first "-" are equal. *)
Lemma is_translation_needed_spec (source_lang target_lang : string) :
  TranslationService.is_translation_needed source_lang target_lang
  = negb (bool_decide (Py.split0 "-" source_lang
                       = Py.split0 "-" target_lang)).
Proof.
  unfold TranslationService.is_translation_needed.
  case_bool_decide as H; [|done].
  subst. by rewrite bool_decide_eq_true_2.
Qed.

Section TranslationDecision.
Context {W : Type}.
Implicit Types (app : App (W := W)).

(** What [process_audio_chunk] tests instead: the session's two
    configured languages, as whole strings. When they are equal the run
    goes from the transcription straight to the answer stage. *)
Lemma translation_skipped_for_equal_session_languages
    app session_id data session t run :
  active_sessions app !! session_id = Some session ->
  Py.truthy (Inbound.audio_data data) = true ->
  SpeechToTextService.transcribe (stt_service app)
    (stt_request app session data) (world app) = (inl t, run) ->
  Py.strip (TranscriptionResponse.text t) <> [] ->
  InterviewSession.source_language session
  = InterviewSession.target_language session ->
  exists answer_run : @Service.Run W AnswerGenerationRequest.t,
    log (process_audio_chunk session_id data app).2
    = log app
      ++ (ServiceCall STT :: map (AdapterCall STT) (Service.attempts run))
      ++ ServiceCall Answer
         :: map (AdapterCall Answer) (Service.attempts answer_run).
Proof.
  intros Hs Ha Ht Hnb Heq.
  unfold process_audio_chunk, try_except, bind, gets, get_settings, ret,
    stt_transcribe, translation_translate, ai_generate_answer,
    send_error, send_message.
  simpl. rewrite Hs, Ha. simpl.
  unfold stt_request in Ht. rewrite Ht. simpl.
  destruct (bool_decide (session_id ∈ active_connections app)) eqn:Hc; simpl;
    rewrite (bool_decide_eq_false_2 _ Hnb); simpl;
    rewrite (bool_decide_eq_true_2 _ Heq); simpl;
    (destruct (AIAnswerService.generate_answer _ _ _) as [[a|e] run2]; simpl;
     rewrite ?Hc; simpl; exists run2; by rewrite <- app_assoc).
Qed.

End TranslationDecision.

(** C2 (the code departs from it): the pipeline never consults the
    detected language nor [is_translation_needed]. A session with the
    default languages (source "auto", target "en") whose chunk is
    detected as "en", and a session with source "en-US" and target "en",
    both have equal base subtags, and [is_translation_needed] says no
    translation is needed; in both runs the translation service is
    called and a translation frame is sent. *)
Lemma translation_invoked_for_same_base_language :
  TranslationService.is_translation_needed "en" "en" = false
  /\ TranslationService.is_translation_needed "en-US" "en" = false
  /\ sent (Samples.after (process_audio_chunk "s1" Samples.chunk)
             (Samples.after (websocket_endpoint_open "s1") Samples.mock_app))
       !! 1%nat
     = Some (RealTimeMessage.mk "transcription" "s1"
               (TranscriptionData
                  (Py.of_string
                     "This is a mock transcription for testing purposes.")
                  0.95%float "en"))
  /\ map RealTimeMessage.type
       (sent (Samples.after (process_audio_chunk "s1" Samples.chunk)
                (Samples.after (websocket_endpoint_open "s1")
                   Samples.mock_app)))
     = ["status"; "transcription"; "translation"; "error"]
  /\ log (Samples.after (process_audio_chunk "s1" Samples.chunk)
            (Samples.after (websocket_endpoint_open "s1") Samples.mock_app))
     = [ServiceCall STT; AdapterCall STT "mock"; ServiceCall Translation;
        AdapterCall Translation "mock"; ServiceCall Answer]
  /\ map RealTimeMessage.type
       (sent (Samples.after (process_audio_chunk "s1" Samples.chunk)
                (Samples.after
                   (update_session_config "s1" (Samples.set_source "en-US"))
                   (Samples.after (websocket_endpoint_open "s1")
                      Samples.mock_app))))
     = ["status"; "config_updated"; "transcription"; "translation"; "error"]
  /\ log (Samples.after (process_audio_chunk "s1" Samples.chunk)
            (Samples.after
               (update_session_config "s1" (Samples.set_source "en-US"))
               (Samples.after (websocket_endpoint_open "s1")
                  Samples.mock_app)))
     = [ServiceCall STT; AdapterCall STT "mock"; ServiceCall Translation;
        AdapterCall Translation "mock"; ServiceCall Answer].
Proof. by vm_compute. Qed.

End TranslationDecision.

(** * Further properties of the services *)

Module FallbackShape.
Import Service ServiceFacts.

(** No name occurs twice in a row. *)
Local Abbreviation no_repeat l :=
  (forall (i : nat) (a : string), l !! i = Some a -> l !! S i = Some a -> False).

Lemma no_repeat_snoc (l : list string) (p name : string) :
  no_repeat l -> last l = Some p -> name <> p -> no_repeat (l ++ [name]).
Proof.
  intros Hl Hlast Hne i a H1 H2.
  destruct (decide (S i < length l)%nat) as [Hlt|Hge].
  - rewrite lookup_app_l in H1 by lia. rewrite lookup_app_l in H2 by lia.
    exact (Hl i a H1 H2).
  - destruct (decide (S i = length l)) as [Heq|Hneq].
    + rewrite lookup_app_l in H1 by lia.
      rewrite lookup_app_r in H2 by lia.
      replace (S i - length l)%nat with 0%nat in H2 by lia.
      simpl in H2. rewrite last_lookup in Hlast.
      replace (pred (length l)) with i in Hlast by lia. congruence.
    + apply lookup_lt_Some in H2. rewrite length_app in H2. simpl in H2. lia.
Qed.

Section FallbackShape.
Context {W Req Raw Resp : Type}.
Variable provider_of : Req -> string.
Variable set_provider : Req -> string -> Req.
Variable primary_response : Req -> Raw -> Resp.
Variable fallback_response : Req -> string -> Raw -> Resp.
Variable all_failed : string.
Variable fallback_order : list string.
Variable providers : gmap string (Adapter W Req Raw).
Hypothesis provider_set :
  forall request name, provider_of (set_provider request name) = name.

Lemma loop_no_repeat names st :
  no_repeat (attempts st) -> names_last provider_of st ->
  no_repeat
    (attempts
       (fallback_loop provider_of set_provider fallback_response all_failed
          providers names st).2).
Proof.
  revert st. induction names as [|name names IH]; intros st Hst Hlast; [done|].
  simpl. destruct (providers !! name) as [provider|]; [|by apply IH].
  case_bool_decide as Hn; [by apply IH|].
  assert (no_repeat (attempts st ++ [name])) as Hnew
    by (by eapply no_repeat_snoc).
  destruct (provider _ _) as [[result|] world']; [done|].
  apply IH; [done|]. unfold names_last. simpl.
  by rewrite last_snoc, provider_set.
Qed.

(** The adapter calls of one service call: the requested provider first,
    then names of the fallback list in the order of the list, never the
    same adapter twice in a row. *)
Lemma call_attempts_shape request world :
  is_Some (providers !! provider_of request) ->
  exists tried,
    attempts
      (invoke provider_of set_provider primary_response fallback_response
         all_failed fallback_order providers request world).2
    = provider_of request :: tried
    /\ sublist tried fallback_order
    /\ no_repeat (provider_of request :: tried).
Proof.
  intros [provider Hp]. unfold invoke. rewrite Hp.
  destruct (provider _ _) as [[result|] world'] eqn:E.
  - exists []. simpl. split; [done|]. split; [apply sublist_nil_l|].
    intros i a H1 H2. by destruct i.
  - destruct (loop_attempts provider_of set_provider fallback_response
                all_failed providers fallback_order
                (mkRun request world' [provider_of request]))
      as (tried & Ht & Hsub).
    exists tried. split; [done|]. split; [done|].
    change (provider_of request :: tried)
      with (attempts (mkRun request world' [provider_of request]) ++ tried).
    rewrite <- Ht. apply loop_no_repeat.
    + intros i a H1 H2. by destruct i.
    + done.
Qed.

End FallbackShape.

(** X1: for each of the three services, a call whose requested provider
    is registered calls that provider first and then only names of the
    service's fallback list, in list order and never the same adapter
    twice in a row; so it makes at most four (answer generation: three)
    adapter calls and never falls back to the mock. *)
Theorem attempts_shape :
  (forall W (providers : gmap string
                (Adapter W TranscriptionRequest.t SttResult.t))
          request world,
      is_Some (providers !! TranscriptionRequest.provider request) ->
      exists tried,
        attempts (SpeechToTextService.transcribe providers request world).2
        = TranscriptionRequest.provider request :: tried
        /\ sublist tried ["local"; "openai"; "google"]
        /\ ("mock" ∉ tried)
        /\ (length tried <= 3)%nat
        /\ no_repeat (TranscriptionRequest.provider request :: tried))
  /\ (forall W (providers : gmap string
                   (Adapter W TranslationRequest.t TranslateResult.t))
             request world,
         is_Some (providers !! TranslationRequest.provider request) ->
         exists tried,
           attempts (TranslationService.translate providers request world).2
           = TranslationRequest.provider request :: tried
           /\ sublist tried ["google_free"; "google"; "deepl"]
           /\ ("mock" ∉ tried)
           /\ (length tried <= 3)%nat
           /\ no_repeat (TranslationRequest.provider request :: tried))
  /\ (forall W (providers : gmap string
                   (Adapter W AnswerGenerationRequest.t GenerateResult.t))
             request world,
         is_Some (providers !! AnswerGenerationRequest.provider request) ->
         exists tried,
           attempts
             (AIAnswerService.generate_answer providers request world).2
           = AnswerGenerationRequest.provider request :: tried
           /\ sublist tried ["openai"; "anthropic"]
           /\ ("mock" ∉ tried)
           /\ (length tried <= 2)%nat
           /\ no_repeat (AnswerGenerationRequest.provider request :: tried)).
Proof.
  split; [|split]; intros W providers request world Hp.
  - apply Services.attempt_registered in Hp.
    destruct (call_attempts_shape TranscriptionRequest.provider
                TranscriptionRequest.set_provider
                SpeechToTextService.primary_response
                SpeechToTextService.fallback_response
                SpeechToTextService.all_failed
                SpeechToTextService.fallback_order
                (SpeechToTextService.attempt <$> providers)
                ltac:(done) request world Hp) as (tried & H1 & H2 & H3).
    exists tried. split; [done|]. split; [done|].
    split; [|split; [|done]].
    + intros Hin. eapply elem_of_sublist in Hin; [|done].
      apply list_elem_of_In in Hin. cbv in Hin. intuition congruence.
    + apply sublist_length in H2. simpl in H2. lia.
  - destruct (call_attempts_shape TranslationRequest.provider
                TranslationRequest.set_provider
                TranslationService.primary_response
                TranslationService.fallback_response
                TranslationService.all_failed
                TranslationService.fallback_order providers
                ltac:(done) request world Hp) as (tried & H1 & H2 & H3).
    exists tried. split; [done|]. split; [done|].
    split; [|split; [|done]].
    + intros Hin. eapply elem_of_sublist in Hin; [|done].
      apply list_elem_of_In in Hin. cbv in Hin. intuition congruence.
    + apply sublist_length in H2. simpl in H2. lia.
  - destruct (call_attempts_shape AnswerGenerationRequest.provider
                AnswerGenerationRequest.set_provider
                AIAnswerService.primary_response
                AIAnswerService.fallback_response
                AIAnswerService.all_failed
                AIAnswerService.fallback_order providers
                ltac:(done) request world Hp) as (tried & H1 & H2 & H3).
    exists tried. split; [done|]. split; [done|].
    split; [|split; [|done]].
    + intros Hin. eapply elem_of_sublist in Hin; [|done].
      apply list_elem_of_In in Hin. cbv in Hin. intuition congruence.
    + apply sublist_length in H2. simpl in H2. lia.
Qed.

Lemma attempts_shape_witness :
  exists tried,
    attempts
      (SpeechToTextService.transcribe Samples.stt_all_failing
         (Samples.transcription_request "openai") tt).2
    = "openai" :: tried
    /\ sublist tried ["local"; "openai"; "google"]
    /\ ("mock" ∉ tried)
    /\ (length tried <= 3)%nat
    /\ no_repeat ("openai" :: tried).
Proof.
  apply (proj1 attempts_shape unit Samples.stt_all_failing
           (Samples.transcription_request "openai") tt).
  vm_compute. eauto.
Defined.

End FallbackShape.

(** ** What a returned response carries *)

Module Responses.
Import Service ServiceFacts.

Section Responses.
Context {W Req Raw Resp : Type}.
Variable provider_of : Req -> string.
Variable set_provider : Req -> string -> Req.
Variable primary_response : Req -> Raw -> Resp.
Variable fallback_response : Req -> string -> Raw -> Resp.
Variable all_failed : string.
Variable fallback_order : list string.
Variable providers : gmap string (Adapter W Req Raw).
Hypothesis provider_set :
  forall request name, provider_of (set_provider request name) = name.
Hypothesis set_set :
  forall request a b,
    set_provider (set_provider request a) b = set_provider request b.
Hypothesis set_same :
  forall request, set_provider request (provider_of request) = request.

(** A call that returns was answered by the adapter called last: by the
    requested one, on the request as it came, or by a fallback, on the
    request with its [provider] overwritten. *)
Lemma call_success request world resp st' :
  invoke provider_of set_provider primary_response fallback_response
    all_failed fallback_order providers request world = (inl resp, st') ->
  exists name result,
    last (attempts st') = Some name
    /\ is_Some (providers !! name)
    /\ (name = provider_of request /\ resp = primary_response request result
        \/ resp = fallback_response (set_provider request name) name result).
Proof.
  intros H.
  pose proof (call_request_frame provider_of set_provider primary_response
                fallback_response all_failed fallback_order providers
                provider_set set_set set_same request world) as Hframe.
  rewrite H in Hframe. simpl in Hframe.
  unfold invoke in H.
  destruct (providers !! provider_of request) as [provider|] eqn:Hp; [|done].
  destruct (provider _ _) as [[result|] world'] eqn:E.
  - injection H as <- <-. exists (provider_of request), result. eauto.
  - apply (loop_success provider_of set_provider fallback_response
             all_failed providers provider_set) in H
      as (name & provider' & w & result & before & H1 & H2 & -> & H4 & H5 & _).
    exists name, result. rewrite H5, last_snoc.
    split; [done|]. split; [by eauto|]. right.
    by rewrite Hframe, H4.
Qed.

End Responses.

(** The answer of a returned response is the adapter's text,
    post-processed against the request as the answering adapter got
    it. *)
Lemma generate_answer_success {W}
    (providers : gmap string
       (Adapter W AnswerGenerationRequest.t GenerateResult.t))
    (req : AnswerGenerationRequest.t) (w : W)
    (resp : AnswerGenerationResponse.t) run :
  AIAnswerService.generate_answer providers req w = (inl resp, run) ->
  exists name result,
    last (attempts run) = Some name
    /\ AnswerGenerationResponse.provider resp = name
    /\ AnswerGenerationResponse.question resp
       = AnswerGenerationRequest.question req
    /\ AnswerGenerationResponse.answer resp
       = AIAnswerService._post_process_answer (GenerateResult.answer result)
           (AnswerGenerationRequest.set_provider req name).
Proof.
  intros H.
  apply (call_success AnswerGenerationRequest.provider
           AnswerGenerationRequest.set_provider
           AIAnswerService.primary_response
           AIAnswerService.fallback_response
           AIAnswerService.all_failed AIAnswerService.fallback_order
           providers ltac:(done) ltac:(done) ltac:(by intros []))
    in H as (name & result & Hlast & _ & Hresp).
  exists name, result. destruct Hresp as [[-> ->]| ->]; by destruct req.
Qed.



(** A call that returns found its requested provider registered. *)
Lemma success_registered {W Req Raw Resp : Type} (provider_of : Req -> string)
    set_provider (primary_response : Req -> Raw -> Resp) fallback_response
    all_failed fallback_order
    (providers : gmap string (Adapter W Req Raw)) request world resp st' :
  invoke provider_of set_provider primary_response fallback_response
    all_failed fallback_order providers request world = (inl resp, st') ->
  is_Some (providers !! provider_of request).
Proof.
  unfold invoke. by destruct (providers !! provider_of request).
Qed.

(** X22: a response that [transcribe] or [translate] returns is labelled
    with the adapter that was called last, which is a registered one,
    and the caller's request object names that adapter too. A
    translation response repeats the text and the target language of
    the request. *)
Theorem response_names_adapter {W} :
  (forall (providers : gmap string
             (Adapter W TranscriptionRequest.t SttResult.t))
          req w resp run,
      SpeechToTextService.transcribe providers req w = (inl resp, run) ->
      last (attempts run) = Some (TranscriptionResponse.provider resp)
      /\ is_Some (providers !! TranscriptionResponse.provider resp)
      /\ TranscriptionRequest.provider (Service.request run)
         = TranscriptionResponse.provider resp)
  /\ (forall (providers : gmap string
                (Adapter W TranslationRequest.t TranslateResult.t))
             req w resp run,
         TranslationService.translate providers req w = (inl resp, run) ->
         last (attempts run) = Some (TranslationResponse.provider resp)
         /\ is_Some (providers !! TranslationResponse.provider resp)
         /\ TranslationRequest.provider (Service.request run)
            = TranslationResponse.provider resp
         /\ TranslationResponse.original_text resp
            = TranslationRequest.text req
         /\ TranslationResponse.target_language resp
            = TranslationRequest.target_language req).
Proof.
  split; intros providers req w resp run H.
  - pose proof (success_registered _ _ _ _ _ _ _ _ _ _ _ H) as Hreg.
    apply (call_names_last TranscriptionRequest.provider
             TranscriptionRequest.set_provider
             SpeechToTextService.primary_response
             SpeechToTextService.fallback_response
             SpeechToTextService.all_failed
             SpeechToTextService.fallback_order
             (SpeechToTextService.attempt <$> providers) ltac:(done) req w)
      in Hreg.
    unfold names_last in Hreg.
    unfold SpeechToTextService.transcribe in H. rewrite H in Hreg.
    simpl in Hreg.
    apply (call_success TranscriptionRequest.provider
             TranscriptionRequest.set_provider
             SpeechToTextService.primary_response
             SpeechToTextService.fallback_response
             SpeechToTextService.all_failed
             SpeechToTextService.fallback_order
             (SpeechToTextService.attempt <$> providers)
             ltac:(done) ltac:(done) ltac:(by intros []))
      in H as (name & result & Hlast & Hsome & Hresp).
    apply Services.attempt_registered in Hsome.
    assert (TranscriptionResponse.provider resp = name) as ->
      by (by destruct Hresp as [[-> ->]| ->]).
    split; [done|]. split; [done|]. congruence.
  - pose proof (success_registered _ _ _ _ _ _ _ _ _ _ _ H) as Hreg.
    apply (call_names_last TranslationRequest.provider
             TranslationRequest.set_provider
             TranslationService.primary_response
             TranslationService.fallback_response
             TranslationService.all_failed
             TranslationService.fallback_order providers ltac:(done) req w)
      in Hreg.
    unfold names_last in Hreg.
    unfold TranslationService.translate in H. rewrite H in Hreg.
    simpl in Hreg.
    apply (call_success TranslationRequest.provider
             TranslationRequest.set_provider
             TranslationService.primary_response
             TranslationService.fallback_response
             TranslationService.all_failed
             TranslationService.fallback_order
             providers ltac:(done) ltac:(done) ltac:(by intros []))
      in H as (name & result & Hlast & Hsome & Hresp).
    assert (TranslationResponse.provider resp = name
            /\ TranslationResponse.original_text resp
               = TranslationRequest.text req
            /\ TranslationResponse.target_language resp
               = TranslationRequest.target_language req)
      as (-> & -> & ->)
      by (destruct Hresp as [[-> ->]| ->]; by destruct req).
    split; [done|]. split; [done|]. split; [congruence|done].
Qed.


End Responses.

(** ** What a call leaves in the caller's request *)

Module Mutation.
Import Service ServiceFacts.

Section Mutation.
Context {W Req Raw Resp : Type}.
Variable provider_of : Req -> string.
Variable set_provider : Req -> string -> Req.
Variable primary_response : Req -> Raw -> Resp.
Variable fallback_response : Req -> string -> Raw -> Resp.
Variable all_failed : string.
Variable fallback_order : list string.
Variable providers : gmap string (Adapter W Req Raw).
Hypothesis provider_set :
  forall request name, provider_of (set_provider request name) = name.
Hypothesis set_set :
  forall request a b,
    set_provider (set_provider request a) b = set_provider request b.
Hypothesis set_same :
  forall request, set_provider request (provider_of request) = request.

Local Abbreviation call :=
  (invoke provider_of set_provider primary_response fallback_response
     all_failed fallback_order providers).

(** After a call that got past the registry look-up the request is the
    caller's with [provider] naming the adapter called last. When the
    requested adapter raised and the fallback list holds a registered
    name other than the requested one, that adapter is a fallback, and
    the first fallback called is not the requested provider; the name
    left is the requested one only if that provider was called again,
    last. *)
Lemma call_mutation request world :
  is_Some (providers !! provider_of request) ->
  last (attempts (call request world).2)
  = Some (provider_of (Service.request (call request world).2))
  /\ Service.request (call request world).2
     = set_provider request
         (provider_of (Service.request (call request world).2))
  /\ forall provider name,
       providers !! provider_of request = Some provider ->
       (provider request world).1 = None ->
       name ∈ fallback_order -> name <> provider_of request ->
       is_Some (providers !! name) ->
       exists first tried,
         attempts (call request world).2
         = provider_of request :: first :: tried
         /\ first <> provider_of request
         /\ sublist (first :: tried) fallback_order
         /\ provider_of (Service.request (call request world).2)
            ∈ fallback_order
         /\ (provider_of (Service.request (call request world).2)
             = provider_of request ->
             exists between, tried = between ++ [provider_of request]).
Proof.
  intros Hreg.
  pose proof (call_names_last provider_of set_provider primary_response
                fallback_response all_failed fallback_order providers
                provider_set request world Hreg) as Hlast.
  unfold names_last in Hlast.
  split; [done|]. split.
  { by apply call_request_frame. }
  intros provider name Hp Hnone Hin Hne Hname.
  destruct (call_first provider_of set_provider primary_response
              fallback_response all_failed fallback_order providers
              request world provider name Hp Hnone Hin Hne Hname)
    as (first & tried & Hatt & Hfirst & _ & Hsub).
  exists first, tried. rewrite Hatt in Hlast. rewrite last_cons_cons in Hlast.
  do 3 (split; [done|]). split.
  - eapply elem_of_sublist; [|done]. by apply last_Some_elem_of.
  - intros Hsame. rewrite Hsame in Hlast.
    destruct tried as [|x tried _] using rev_ind.
    + simpl in Hlast. congruence.
    + exists tried. rewrite app_comm_cons, last_snoc in Hlast. congruence.
Qed.

End Mutation.

(** C10, as the specification states it, fails when the provider asked
    for is itself the last fallback called: the skip test of
    [_try_fallback] compares with the field the loop has overwritten, so
    after one other fallback the requested provider is called again, and
    when it raises again the request is left naming it. Every provider
    has failed, the all-providers-failed exception is raised, and the
    request object equals the one the caller passed. So it does, with
    no fallback called at all, when the requested provider is the only
    one registered. *)
Lemma request_names_primary_counterexample :
  AIAnswerService.generate_answer Samples.ai_all_failing
    (AnswerGenerationRequest.set_provider (Samples.request 150) "anthropic")
    tt
  = (inr (Py.Exception "All AI providers failed"),
     mkRun
       (AnswerGenerationRequest.set_provider (Samples.request 150)
          "anthropic")
       tt ["anthropic"; "openai"; "anthropic"])
  /\ SpeechToTextService.transcribe
       (<["local" := Samples.failing]> (<["openai" := Samples.failing]> ∅))
       (Samples.transcription_request "openai") tt
     = (inr (Py.Exception "All STT providers failed"),
        mkRun (Samples.transcription_request "openai") tt
          ["openai"; "local"; "openai"])
  /\ SpeechToTextService.transcribe (<["openai" := Samples.failing]> ∅)
       (Samples.transcription_request "openai") tt
     = (inr (Py.Exception "All STT providers failed"),
        mkRun (Samples.transcription_request "openai") tt ["openai"]).
Proof. by vm_compute. Qed.

(** C10 (amended): a service call that finds the requested provider
    registered leaves the caller's request object naming the adapter it
    called last, with every other field as the caller set it: a response
    carries the same name, and a call that raises has raised the
    all-providers-failed exception, with nothing restored. When the
    requested adapter raises and the fallback list holds a registered
    provider of another name, at least one fallback is called, the first
    of them under a name other than the requested one, and the request
    is left naming a provider of the fallback list; that name is the
    requested one only when the requested provider was called again as
    the last fallback. *)
Theorem request_names_last_attempt :
  (forall W (providers : gmap string
                (Adapter W TranscriptionRequest.t SttResult.t))
          request world,
      is_Some (providers !! TranscriptionRequest.provider request) ->
      last (attempts
              (SpeechToTextService.transcribe providers request world).2)
      = Some (TranscriptionRequest.provider
                (Service.request
                   (SpeechToTextService.transcribe providers request
                      world).2))
      /\ TranscriptionRequest.audio_data
           (Service.request
              (SpeechToTextService.transcribe providers request world).2)
         = TranscriptionRequest.audio_data request
      /\ TranscriptionRequest.language
           (Service.request
              (SpeechToTextService.transcribe providers request world).2)
         = TranscriptionRequest.language request
      /\ (forall resp,
             (SpeechToTextService.transcribe providers request world).1
             = inl resp ->
             TranscriptionResponse.provider resp
             = TranscriptionRequest.provider
                 (Service.request
                    (SpeechToTextService.transcribe providers request
                       world).2))
      /\ (forall e,
             (SpeechToTextService.transcribe providers request world).1
             = inr e ->
             e = Py.Exception "All STT providers failed")
      /\ forall provider name,
           providers !! TranscriptionRequest.provider request
           = Some provider ->
           (SpeechToTextService.attempt provider request world).1 = None ->
           name ∈ ["local"; "openai"; "google"] ->
           name <> TranscriptionRequest.provider request ->
           is_Some (providers !! name) ->
           exists first tried,
             attempts
               (SpeechToTextService.transcribe providers request world).2
             = TranscriptionRequest.provider request :: first :: tried
             /\ first <> TranscriptionRequest.provider request
             /\ sublist (first :: tried) ["local"; "openai"; "google"]
             /\ TranscriptionRequest.provider
                  (Service.request
                     (SpeechToTextService.transcribe providers request
                        world).2)
                ∈ ["local"; "openai"; "google"]
             /\ (TranscriptionRequest.provider
                   (Service.request
                      (SpeechToTextService.transcribe providers request
                         world).2)
                 = TranscriptionRequest.provider request ->
                 exists between,
                   tried
                   = between ++ [TranscriptionRequest.provider request]))
  /\ (forall W (providers : gmap string
                   (Adapter W TranslationRequest.t TranslateResult.t))
             request world,
         is_Some (providers !! TranslationRequest.provider request) ->
         last (attempts
                 (TranslationService.translate providers request world).2)
         = Some (TranslationRequest.provider
                   (Service.request
                      (TranslationService.translate providers request
                         world).2))
         /\ TranslationRequest.text
              (Service.request
                 (TranslationService.translate providers request world).2)
            = TranslationRequest.text request
         /\ TranslationRequest.source_language
              (Service.request
                 (TranslationService.translate providers request world).2)
            = TranslationRequest.source_language request
         /\ TranslationRequest.target_language
              (Service.request
                 (TranslationService.translate providers request world).2)
            = TranslationRequest.target_language request
         /\ (forall resp,
                (TranslationService.translate providers request world).1
                = inl resp ->
                TranslationResponse.provider resp
                = TranslationRequest.provider
                    (Service.request
                       (TranslationService.translate providers request
                          world).2))
         /\ (forall e,
                (TranslationService.translate providers request world).1
                = inr e ->
                e = Py.Exception "All translation providers failed")
         /\ forall provider name,
              providers !! TranslationRequest.provider request
              = Some provider ->
              (provider request world).1 = None ->
              name ∈ ["google_free"; "google"; "deepl"] ->
              name <> TranslationRequest.provider request ->
              is_Some (providers !! name) ->
              exists first tried,
                attempts
                  (TranslationService.translate providers request world).2
                = TranslationRequest.provider request :: first :: tried
                /\ first <> TranslationRequest.provider request
                /\ sublist (first :: tried) ["google_free"; "google"; "deepl"]
                /\ TranslationRequest.provider
                     (Service.request
                        (TranslationService.translate providers request
                           world).2)
                   ∈ ["google_free"; "google"; "deepl"]
                /\ (TranslationRequest.provider
                      (Service.request
                         (TranslationService.translate providers request
                            world).2)
                    = TranslationRequest.provider request ->
                    exists between,
                      tried
                      = between ++ [TranslationRequest.provider request]))
  /\ (forall W (providers : gmap string
                   (Adapter W AnswerGenerationRequest.t GenerateResult.t))
             request world,
         is_Some (providers !! AnswerGenerationRequest.provider request) ->
         last (attempts
                 (AIAnswerService.generate_answer providers request world).2)
         = Some (AnswerGenerationRequest.provider
                   (Service.request
                      (AIAnswerService.generate_answer providers request
                         world).2))
         /\ AnswerGenerationRequest.question
              (Service.request
                 (AIAnswerService.generate_answer providers request world).2)
            = AnswerGenerationRequest.question request
         /\ AnswerGenerationRequest.context
              (Service.request
                 (AIAnswerService.generate_answer providers request world).2)
            = AnswerGenerationRequest.context request
         /\ AnswerGenerationRequest.style
              (Service.request
                 (AIAnswerService.generate_answer providers request world).2)
            = AnswerGenerationRequest.style request
         /\ AnswerGenerationRequest.max_length
              (Service.request
                 (AIAnswerService.generate_answer providers request world).2)
            = AnswerGenerationRequest.max_length request
         /\ AnswerGenerationRequest.language
              (Service.request
                 (AIAnswerService.generate_answer providers request world).2)
            = AnswerGenerationRequest.language request
         /\ (forall resp,
                (AIAnswerService.generate_answer providers request world).1
                = inl resp ->
                AnswerGenerationResponse.provider resp
                = AnswerGenerationRequest.provider
                    (Service.request
                       (AIAnswerService.generate_answer providers request
                          world).2))
         /\ (forall e,
                (AIAnswerService.generate_answer providers request world).1
                = inr e ->
                e = Py.Exception "All AI providers failed")
         /\ forall provider name,
              providers !! AnswerGenerationRequest.provider request
              = Some provider ->
              (provider request world).1 = None ->
              name ∈ ["openai"; "anthropic"] ->
              name <> AnswerGenerationRequest.provider request ->
              is_Some (providers !! name) ->
              exists first tried,
                attempts
                  (AIAnswerService.generate_answer providers request world).2
                = AnswerGenerationRequest.provider request :: first :: tried
                /\ first <> AnswerGenerationRequest.provider request
                /\ sublist (first :: tried) ["openai"; "anthropic"]
                /\ AnswerGenerationRequest.provider
                     (Service.request
                        (AIAnswerService.generate_answer providers request
                           world).2)
                   ∈ ["openai"; "anthropic"]
                /\ (AnswerGenerationRequest.provider
                      (Service.request
                         (AIAnswerService.generate_answer providers request
                            world).2)
                    = AnswerGenerationRequest.provider request ->
                    exists between,
                      tried
                      = between
                        ++ [AnswerGenerationRequest.provider request])).
Proof.
  split; [|split]; intros W providers request world Hp.
  - apply Services.attempt_registered in Hp.
    destruct (call_mutation TranscriptionRequest.provider
                TranscriptionRequest.set_provider
                SpeechToTextService.primary_response
                SpeechToTextService.fallback_response
                SpeechToTextService.all_failed
                SpeechToTextService.fallback_order
                (SpeechToTextService.attempt <$> providers)
                ltac:(done) ltac:(done) ltac:(by intros [])
                request world Hp) as (Hlast & Hframe & Hfirst).
    fold (SpeechToTextService.transcribe providers request world)
      in Hlast, Hframe, Hfirst.
    split; [done|]. split; [by rewrite Hframe|]. split; [by rewrite Hframe|].
    split; [|split].
    + intros resp Hr.
      destruct (SpeechToTextService.transcribe providers request world)
        as [r run] eqn:E.
      simpl in *. subst r. unfold SpeechToTextService.transcribe in E.
      apply (Responses.call_success TranscriptionRequest.provider
               TranscriptionRequest.set_provider
               SpeechToTextService.primary_response
               SpeechToTextService.fallback_response
               SpeechToTextService.all_failed
               SpeechToTextService.fallback_order
               (SpeechToTextService.attempt <$> providers)
               ltac:(done) ltac:(done) ltac:(by intros []))
        in E as (name & result & Hl & _ & Hresp).
      assert (TranscriptionResponse.provider resp = name) as ->
        by (by destruct Hresp as [[-> ->]| ->]).
      congruence.
    + intros e He.
      by apply (call_exhausted TranscriptionRequest.provider
                  TranscriptionRequest.set_provider
                  SpeechToTextService.primary_response
                  SpeechToTextService.fallback_response
                  SpeechToTextService.all_failed
                  SpeechToTextService.fallback_order
                  (SpeechToTextService.attempt <$> providers) request world).
    + intros provider name Hprov Hnone Hin Hne Hname.
      apply (Hfirst (SpeechToTextService.attempt provider) name);
        [by rewrite lookup_fmap, Hprov|done|done|done
        |by apply Services.attempt_registered].
  - destruct (call_mutation TranslationRequest.provider
                TranslationRequest.set_provider
                TranslationService.primary_response
                TranslationService.fallback_response
                TranslationService.all_failed
                TranslationService.fallback_order providers
                ltac:(done) ltac:(done) ltac:(by intros [])
                request world Hp) as (Hlast & Hframe & Hfirst).
    fold (TranslationService.translate providers request world)
      in Hlast, Hframe, Hfirst.
    split; [done|]. split; [by rewrite Hframe|]. split; [by rewrite Hframe|].
    split; [by rewrite Hframe|]. split; [|split].
    + intros resp Hr.
      destruct (TranslationService.translate providers request world)
        as [r run] eqn:E.
      simpl in *. subst r. unfold TranslationService.translate in E.
      apply (Responses.call_success TranslationRequest.provider
               TranslationRequest.set_provider
               TranslationService.primary_response
               TranslationService.fallback_response
               TranslationService.all_failed
               TranslationService.fallback_order providers
               ltac:(done) ltac:(done) ltac:(by intros []))
        in E as (name & result & Hl & _ & Hresp).
      assert (TranslationResponse.provider resp = name) as ->
        by (by destruct Hresp as [[-> ->]| ->]).
      congruence.
    + intros e He.
      by apply (call_exhausted TranslationRequest.provider
                  TranslationRequest.set_provider
                  TranslationService.primary_response
                  TranslationService.fallback_response
                  TranslationService.all_failed
                  TranslationService.fallback_order providers request world).
    + done.
  - destruct (call_mutation AnswerGenerationRequest.provider
                AnswerGenerationRequest.set_provider
                AIAnswerService.primary_response
                AIAnswerService.fallback_response
                AIAnswerService.all_failed
                AIAnswerService.fallback_order providers
                ltac:(done) ltac:(done) ltac:(by intros [])
                request world Hp) as (Hlast & Hframe & Hfirst).
    fold (AIAnswerService.generate_answer providers request world)
      in Hlast, Hframe, Hfirst.
    split; [done|]. do 5 (split; [by rewrite Hframe|]).
    split; [|split].
    + intros resp Hr.
      destruct (AIAnswerService.generate_answer providers request world)
        as [r run] eqn:E.
      simpl in *. subst r. unfold AIAnswerService.generate_answer in E.
      apply (Responses.call_success AnswerGenerationRequest.provider
               AnswerGenerationRequest.set_provider
               AIAnswerService.primary_response
               AIAnswerService.fallback_response
               AIAnswerService.all_failed
               AIAnswerService.fallback_order providers
               ltac:(done) ltac:(done) ltac:(by intros []))
        in E as (name & result & Hl & _ & Hresp).
      assert (AnswerGenerationResponse.provider resp = name) as ->
        by (by destruct Hresp as [[-> ->]| ->]).
      congruence.
    + intros e He.
      by apply (call_exhausted AnswerGenerationRequest.provider
                  AnswerGenerationRequest.set_provider
                  AIAnswerService.primary_response
                  AIAnswerService.fallback_response
                  AIAnswerService.all_failed
                  AIAnswerService.fallback_order providers request world).
    + done.
Qed.

Lemma request_names_last_attempt_witness :
  last (attempts
          (SpeechToTextService.transcribe Samples.stt_all_failing
             (Samples.transcription_request "openai") tt).2)
  = Some (TranscriptionRequest.provider
            (Service.request
               (SpeechToTextService.transcribe Samples.stt_all_failing
                  (Samples.transcription_request "openai") tt).2))
  /\ exists first tried,
       attempts
         (SpeechToTextService.transcribe Samples.stt_all_failing
            (Samples.transcription_request "openai") tt).2
       = "openai" :: first :: tried
       /\ first <> "openai"
       /\ sublist (first :: tried) ["local"; "openai"; "google"]
       /\ TranscriptionRequest.provider
            (Service.request
               (SpeechToTextService.transcribe Samples.stt_all_failing
                  (Samples.transcription_request "openai") tt).2)
          ∈ ["local"; "openai"; "google"]
       /\ (TranscriptionRequest.provider
             (Service.request
                (SpeechToTextService.transcribe Samples.stt_all_failing
                   (Samples.transcription_request "openai") tt).2)
           = "openai" ->
           exists between, tried = between ++ ["openai"]).
Proof.
  destruct (proj1 request_names_last_attempt unit Samples.stt_all_failing
              (Samples.transcription_request "openai") tt)
    as (Hlast & _ & _ & _ & _ & Hfirst).
  { vm_compute. eauto. }
  split; [exact Hlast|].
  apply (Hfirst Samples.failing "local").
  - reflexivity.
  - reflexivity.
  - apply list_elem_of_here.
  - discriminate.
  - vm_compute. eauto.
Defined.

(** On that run the request the caller passed for "openai" comes back
    naming "google", the last of three fallbacks called. *)
Lemma request_overwritten_example :
  Service.request
    (SpeechToTextService.transcribe Samples.stt_all_failing
       (Samples.transcription_request "openai") tt).2
  = Samples.transcription_request "google"
  /\ attempts
       (SpeechToTextService.transcribe Samples.stt_all_failing
          (Samples.transcription_request "openai") tt).2
     = ["openai"; "local"; "openai"; "google"].
Proof. by vm_compute. Qed.

End Mutation.

(** * Further properties of the pipeline *)

Module Runs.
Import Main.

Ltac unfold_run :=
  unfold process_audio_chunk, try_except, bind, gets, get_settings, ret,
    stt_transcribe, translation_translate, ai_generate_answer,
    send_error, send_message, after_call, push_sent.

Section Runs.
Context {W : Type}.
Implicit Types (app : App (W := W)) (session : InterviewSession.t).

(** The log entries of one service call. *)
Local Abbreviation calls c run :=
  (ServiceCall c :: map (AdapterCall c) (Service.attempts run)).

(** The [answer] frame of a run. *)
Local Abbreviation answer_frame app session_id a :=
  (RealTimeMessage.mk "answer" session_id
     (AnswerData (AnswerGenerationResponse.question a)
        (AnswerGenerationResponse.answer a)
        (AnswerGenerationResponse.confidence a)
        (Settings.answer_style (settings app)))).

(** The globals after a run that left the world [w], handed [frames] to
    [send_message] and logged [entries]: a session without a connection
    gets no frame. *)
Local Abbreviation left_by app session_id w frames entries :=
  (mkApp (settings app) (stt_service app) (translation_service app)
     (ai_service app) (active_connections app) (active_sessions app) w
     (sent app
      ++ if bool_decide (session_id ∈ active_connections app)
         then frames else [])
     (log app ++ entries)).

(** The paths of [process_audio_chunk], in the order of the code. *)
Lemma run_paths app session_id data :
  ((active_sessions app !! session_id = None
    \/ Py.truthy (Inbound.audio_data data) = false)
   /\ process_audio_chunk session_id data app = (inl tt, app))
  \/ exists session,
       active_sessions app !! session_id = Some session
       /\ Py.truthy (Inbound.audio_data data) = true
       /\ ((exists e run0,
               SpeechToTextService.transcribe (stt_service app)
                 (stt_request app session data) (world app) = (inr e, run0)
               /\ process_audio_chunk session_id data app
                  = (inl tt,
                     left_by app session_id (Service.world run0)
                       [error_frame session_id (Py.str e)] (calls STT run0)))
           \/ exists t run0,
                SpeechToTextService.transcribe (stt_service app)
                  (stt_request app session data) (world app) = (inl t, run0)
                /\ ((Py.strip (TranscriptionResponse.text t) = []
                     /\ process_audio_chunk session_id data app
                        = (inl tt,
                           left_by app session_id (Service.world run0)
                             [transcription_frame session_id t]
                             (calls STT run0)))
                    \/ (Py.strip (TranscriptionResponse.text t) <> []
                        /\ InterviewSession.source_language session
                           = InterviewSession.target_language session
                        /\ ((exists e run2,
                                AIAnswerService.generate_answer (ai_service app)
                                  (answer_request app session
                                     (TranscriptionResponse.text t))
                                  (Service.world run0) = (inr e, run2)
                                /\ process_audio_chunk session_id data app
                                   = (inl tt,
                                      left_by app session_id
                                        (Service.world run2)
                                        [transcription_frame session_id t;
                                         error_frame session_id (Py.str e)]
                                        (calls STT run0 ++ calls Answer run2)))
                            \/ exists a run2,
                                 AIAnswerService.generate_answer
                                   (ai_service app)
                                   (answer_request app session
                                      (TranscriptionResponse.text t))
                                   (Service.world run0) = (inl a, run2)
                                 /\ process_audio_chunk session_id data app
                                    = (inl tt,
                                       left_by app session_id
                                         (Service.world run2)
                                         [transcription_frame session_id t;
                                          answer_frame app session_id a]
                                         (calls STT run0
                                          ++ calls Answer run2))))
                    \/ (Py.strip (TranscriptionResponse.text t) <> []
                        /\ InterviewSession.source_language session
                           <> InterviewSession.target_language session
                        /\ ((exists e run1,
                                TranslationService.translate
                                  (translation_service app)
                                  (translation_request app session t)
                                  (Service.world run0) = (inr e, run1)
                                /\ process_audio_chunk session_id data app
                                   = (inl tt,
                                      left_by app session_id
                                        (Service.world run1)
                                        [transcription_frame session_id t;
                                         error_frame session_id (Py.str e)]
                                        (calls STT run0
                                         ++ calls Translation run1)))
                            \/ exists tr run1,
                                 TranslationService.translate
                                   (translation_service app)
                                   (translation_request app session t)
                                   (Service.world run0) = (inl tr, run1)
                                 /\ ((exists e run2,
                                         AIAnswerService.generate_answer
                                           (ai_service app)
                                           (answer_request app session
                                              (TranslationResponse.translated_text
                                                 tr))
                                           (Service.world run1)
                                         = (inr e, run2)
                                         /\ process_audio_chunk session_id data
                                              app
                                            = (inl tt,
                                               left_by app session_id
                                                 (Service.world run2)
                                                 [transcription_frame
                                                    session_id t;
                                                  translation_frame
                                                    session_id tr;
                                                  error_frame session_id
                                                    (Py.str e)]
                                                 (calls STT run0
                                                  ++ calls Translation run1
                                                  ++ calls Answer run2)))
                                     \/ exists a run2,
                                          AIAnswerService.generate_answer
                                            (ai_service app)
                                            (answer_request app session
                                               (TranslationResponse.translated_text
                                                  tr))
                                            (Service.world run1)
                                          = (inl a, run2)
                                          /\ process_audio_chunk session_id
                                               data app
                                             = (inl tt,
                                                left_by app session_id
                                                  (Service.world run2)
                                                  [transcription_frame
                                                     session_id t;
                                                   translation_frame
                                                     session_id tr;
                                                   answer_frame app
                                                     session_id a]
                                                  (calls STT run0
                                                   ++ calls Translation run1
                                                   ++ calls Answer
                                                        run2))))))).
Proof.
  unfold stt_request, translation_request, answer_request,
    transcription_frame, translation_frame, error_frame.
  unfold_run. simpl.
  destruct (active_sessions app !! session_id) as [session|] eqn:Hs; simpl;
    [|left; split; [by left|done]].
  destruct (Py.truthy (Inbound.audio_data data)) eqn:Ha; simpl;
    [|left; split; [by right|done]].
  right. exists session. split; [done|]. split; [done|].
  destruct (bool_decide (session_id ∈ active_connections app)) eqn:Hconn.
  all: destruct (SpeechToTextService.transcribe _ _ _) as [[t|e] run0] eqn:Et;
    simpl; rewrite ?Hconn; simpl;
    [right; exists t, run0; split; [done|]
    |left; exists e, run0; split; [done|]; by rewrite ?app_nil_r].
  all: destruct (bool_decide (Py.strip (TranscriptionResponse.text t) = []))
         eqn:Hb; simpl;
    [apply bool_decide_eq_true in Hb; left; split; [done|];
     by rewrite ?app_nil_r
    |apply bool_decide_eq_false in Hb; right].
  all: destruct (bool_decide (InterviewSession.source_language session
                              = InterviewSession.target_language session))
         eqn:Hl; simpl;
    [apply bool_decide_eq_true in Hl; left; split; [done|]; split; [done|]
    |apply bool_decide_eq_false in Hl; right; split; [done|]; split; [done|];
     destruct (TranslationService.translate _ _ _) as [[tr|e] run1] eqn:Etr;
     simpl; rewrite ?Hconn; simpl;
     [right; exists tr, run1; split; [done|]
     |left; exists e, run1; split; [done|];
      by rewrite ?app_nil_r, <- ?app_assoc]].
  all: destruct (AIAnswerService.generate_answer _ _ _) as [[a|e] run2] eqn:Eg;
    simpl; rewrite ?Hconn; simpl;
    [right; exists a, run2|left; exists e, run2];
    (split; [done|]); by rewrite ?app_nil_r, <- ?app_assoc.
Qed.

Ltac by_paths app session_id data :=
  destruct (run_paths app session_id data)
    as [[_ ->]
       |(session & Hs & Ha
         & [(e & run0 & Et & ->)
           |(t & run0 & Et
             & [[Hb ->]
               |[(Hb & Hl
                  & [(e & run2 & Eg & ->)|(a & run2 & Eg & ->)])
                |(Hb & Hl
                  & [(e & run1 & Etr & ->)
                    |(tr & run1 & Etr
                      & [(e & run2 & Eg & ->)
                        |(a & run2 & Eg & ->)])])]])])].

(** A run only appends frames, all of them addressed to its session. *)
Lemma run_sent app session_id data :
  exists frames,
    sent (process_audio_chunk session_id data app).2 = sent app ++ frames
    /\ Forall (fun m => RealTimeMessage.session_id m = session_id) frames.
Proof.
  by_paths app session_id data; simpl.
  1: { exists []. by rewrite app_nil_r. }
  all: eexists; (split; [done|]);
    destruct (bool_decide (session_id ∈ active_connections app));
    repeat constructor.
Qed.

(** X3: one run of [process_audio_chunk] never raises, only appends to
    the frames sent, addresses every frame to its own session, and sends
    the frame types in one of seven orders: a transcription comes first,
    a translation only after it, an answer or an error only last, and
    never more than one frame of a type. *)
Theorem run_frames app session_id data :
  (process_audio_chunk session_id data app).1 = inl tt
  /\ exists frames,
       sent (process_audio_chunk session_id data app).2 = sent app ++ frames
       /\ Forall (fun m => RealTimeMessage.session_id m = session_id) frames
       /\ map RealTimeMessage.type frames
          ∈ [ [];
              ["error"];
              ["transcription"];
              ["transcription"; "error"];
              ["transcription"; "translation"; "error"];
              ["transcription"; "answer"];
              ["transcription"; "translation"; "answer"] ].
Proof.
  by_paths app session_id data; (split; [done|]); simpl.
  1: { exists []. rewrite app_nil_r. split; [done|]. split; [done|].
       apply list_elem_of_here. }
  all: eexists; (split; [done|]);
    destruct (bool_decide (session_id ∈ active_connections app));
    (split; [repeat constructor|apply list_elem_of_In; simpl; tauto]).
Qed.

(** X4: the calls of one run, as logged: each of the three services is
    called at most once, speech-to-text first, translation only after
    it, answer generation last, and the adapter calls of a service
    follow its call directly. *)
Theorem run_calls app session_id data :
  exists blocks : list (Capability * list string),
    log (process_audio_chunk session_id data app).2
    = log app
      ++ flat_map (fun b => ServiceCall b.1 :: map (AdapterCall b.1) b.2)
           blocks
    /\ map fst blocks
       ∈ [ [];
           [STT];
           [STT; Translation];
           [STT; Answer];
           [STT; Translation; Answer] ].
Proof.
  by_paths app session_id data; simpl.
  - exists []. rewrite app_nil_r. split; [done|]. apply list_elem_of_here.
  - exists [(STT, Service.attempts run0)]. simpl. rewrite app_nil_r.
    split; [done|]. apply list_elem_of_In; simpl; tauto.
  - exists [(STT, Service.attempts run0)]. simpl. rewrite app_nil_r.
    split; [done|]. apply list_elem_of_In; simpl; tauto.
  - exists [(STT, Service.attempts run0); (Answer, Service.attempts run2)].
    simpl. rewrite app_nil_r.
    split; [done|]. apply list_elem_of_In; simpl; tauto.
  - exists [(STT, Service.attempts run0); (Answer, Service.attempts run2)].
    simpl. rewrite app_nil_r.
    split; [done|]. apply list_elem_of_In; simpl; tauto.
  - exists [(STT, Service.attempts run0);
            (Translation, Service.attempts run1)].
    simpl. rewrite app_nil_r.
    split; [done|]. apply list_elem_of_In; simpl; tauto.
  - exists [(STT, Service.attempts run0);
            (Translation, Service.attempts run1);
            (Answer, Service.attempts run2)].
    simpl. rewrite app_nil_r.
    split; [done|]. apply list_elem_of_In; simpl; tauto.
  - exists [(STT, Service.attempts run0);
            (Translation, Service.attempts run1);
            (Answer, Service.attempts run2)].
    simpl. rewrite app_nil_r.
    split; [done|]. apply list_elem_of_In; simpl; tauto.
Qed.

(** X5: while the answer registry has no "openai" entry, a run sends no
    [answer] frame and calls no answer adapter, whatever else is
    registered: the pipeline asks for "openai" by name, and a provider
    that is not registered is not replaced by a fallback. *)
Theorem answer_needs_openai app session_id data :
  ai_service app !! "openai" = None ->
  exists frames entries,
    sent (process_audio_chunk session_id data app).2 = sent app ++ frames
    /\ log (process_audio_chunk session_id data app).2 = log app ++ entries
    /\ ("answer" ∉ map RealTimeMessage.type frames)
    /\ (forall provider, AdapterCall Answer provider ∉ entries).
Proof.
  intros Hnone.
  assert (forall request w r run,
             AnswerGenerationRequest.provider request = "openai" ->
             AIAnswerService.generate_answer (ai_service app) request w
             = (r, run) ->
             (exists e, r = inr e) /\ Service.attempts run = []) as Hai.
  { intros request w r run Hp E.
    unfold AIAnswerService.generate_answer, Service.invoke in E.
    rewrite Hp, Hnone in E. injection E as <- <-. eauto. }
  by_paths app session_id data; simpl.
  1: { exists [], []. rewrite !app_nil_r. split; [done|]. split; [done|].
       split; [by apply not_elem_of_nil|]. intros ?. by apply not_elem_of_nil. }
  all: try (apply Hai in Eg as [[? ?] Hatt]; [|done]; simplify_eq).
  all: eexists _, _; (split; [done|]); (split; [done|]); split.
  all: try (destruct (bool_decide (session_id ∈ active_connections app));
            intros Hin; apply list_elem_of_In in Hin; simpl in Hin;
            intuition congruence).
  all: intros provider Hin; try rewrite Hatt in Hin;
    apply list_elem_of_In in Hin; simpl in Hin;
    repeat match type of Hin with
           | _ \/ _ => destruct Hin as [Hin|Hin]
           | In _ (_ ++ _) => apply in_app_iff in Hin; simpl in Hin
           | In _ (map _ _) => apply in_map_iff in Hin
           | exists _, _ => destruct Hin as (? & Hin & _)
           | False => destruct Hin
           end;
    discriminate Hin.
Qed.

(** X6: an [answer] frame that a run sends is its last frame, carries
    the answer style of the settings and an answer that ends in ".", "!"
    or "?", whatever the configured limit; for a limit of at least one
    word the answer has at most [answer_max_length] words. *)
Theorem answer_frame_bounded app session_id data frames m question answer
    confidence style :
  sent (process_audio_chunk session_id data app).2 = sent app ++ frames ->
  m ∈ frames ->
  RealTimeMessage.data m = AnswerData question answer confidence style ->
  RealTimeMessage.type m = "answer"
  /\ last frames = Some m
  /\ style = Settings.answer_style (settings app)
  /\ Py.endswith_any answer Py.terminators = true
  /\ (1 <= Settings.answer_max_length (settings app) ->
      Py.len (Py.split answer) <= Settings.answer_max_length (settings app)).
Proof.
  intros Hsent Hm Hdata. revert Hsent.
  by_paths app session_id data; simpl; intros Hsent.
  1: { rewrite <- (app_nil_r (sent app)) in Hsent at 1.
       apply app_inv_head in Hsent. subst frames.
       by apply elem_of_nil in Hm. }
  all: apply app_inv_head in Hsent; subst frames;
    destruct (bool_decide (session_id ∈ active_connections app));
    try (by apply elem_of_nil in Hm);
    apply list_elem_of_In in Hm; simpl in Hm;
    repeat match type of Hm with
           | _ \/ _ => destruct Hm as [Hm|Hm]
           | False => destruct Hm
           end;
    subst m; simpl in Hdata; try discriminate Hdata;
    injection Hdata as <- <- <- <-;
    apply Responses.generate_answer_success in Eg
      as (name & result & _ & _ & _ & ->);
    (split; [done|]); (split; [done|]); (split; [done|]);
    match goal with
    | |- context [AnswerGenerationRequest.set_provider ?r name] =>
        destruct (PostProcess.post_process_spec (GenerateResult.answer result)
                    (AnswerGenerationRequest.set_provider r name))
          as (_ & H1 & H2)
    end;
    done.
Qed.

(** X20: of the [audio_chunk] frames whose [data] is an object: such a
    frame for a session that is not open, or without audio data (the key
    missing, null or an empty string), is dropped in silence: no service
    is called and no frame, not even an error frame, is sent. *)
Theorem chunk_dropped app session_id data :
  active_sessions app !! session_id = None
  \/ Py.truthy (Inbound.audio_data data) = false ->
  handle_websocket_message session_id (Some "audio_chunk") data app
  = (inl tt, app).
Proof.
  intros Hdrop. rewrite Pipeline.handle_audio_chunk.
  destruct (run_paths app session_id data)
    as [[_ ->]|(session & Hs & Ha & _)]; [done|].
  destruct Hdrop; congruence.
Qed.

(** A service call makes at most one adapter call more than its
    fallback list is long. *)
Lemma call_attempts_bound {Req Raw Resp : Type} (provider_of : Req -> string)
    set_provider (primary_response : Req -> Raw -> Resp) fallback_response
    all_failed fallback_order
    (providers : gmap string (Service.Adapter W Req Raw)) request world :
  (length
     (Service.attempts
        (Service.invoke provider_of set_provider primary_response
           fallback_response all_failed fallback_order providers request
           world).2)
   <= S (length fallback_order))%nat.
Proof.
  unfold Service.invoke.
  destruct (providers !! provider_of request) as [provider|]; [|simpl; lia].
  destruct (provider _ _) as [[result|] world']; [simpl; lia|].
  destruct (ServiceFacts.loop_attempts provider_of set_provider
              fallback_response all_failed providers fallback_order
              (Service.mkRun request world' [provider_of request]))
    as (tried & -> & Hsub).
  apply sublist_length in Hsub. simpl. lia.
Qed.

(** X21: one run of [process_audio_chunk] logs at most fourteen calls:
    the three service calls and at most four speech-to-text, four
    translation and three answer adapter calls. *)
Theorem run_cost app session_id data :
  exists entries,
    log (process_audio_chunk session_id data app).2 = log app ++ entries
    /\ (length entries <= 14)%nat.
Proof.
  assert (forall request w,
             (length (Service.attempts
                        (SpeechToTextService.transcribe (stt_service app)
                           request w).2) <= 4)%nat) as Hstt
    by (intros; apply call_attempts_bound).
  assert (forall request w,
             (length (Service.attempts
                        (TranslationService.translate
                           (translation_service app) request w).2) <= 4)%nat)
    as Htr by (intros; apply call_attempts_bound).
  assert (forall request w,
             (length (Service.attempts
                        (AIAnswerService.generate_answer (ai_service app)
                           request w).2) <= 3)%nat) as Hai
    by (intros; apply call_attempts_bound).
  by_paths app session_id data; simpl.
  1: { exists []. rewrite app_nil_r. split; [done|]. simpl. lia. }
  all: eexists; (split; [done|]);
    repeat match goal with
           | E : SpeechToTextService.transcribe _ ?r ?w = _ |- _ =>
               let H := fresh in
               pose proof (Hstt r w) as H; rewrite E in H; simpl in H;
               clear E
           | E : TranslationService.translate _ ?r ?w = _ |- _ =>
               let H := fresh in
               pose proof (Htr r w) as H; rewrite E in H; simpl in H;
               clear E
           | E : AIAnswerService.generate_answer _ ?r ?w = _ |- _ =>
               let H := fresh in
               pose proof (Hai r w) as H; rewrite E in H; simpl in H;
               clear E
           end;
    repeat (progress (simpl; rewrite ?length_app, ?length_map)); lia.
Qed.

End Runs.

Lemma chunk_dropped_witness :
  handle_websocket_message "s2" (Some "audio_chunk") Samples.chunk
    Samples.open_app
  = (inl tt, Samples.open_app).
Proof.
  apply (chunk_dropped Samples.open_app "s2" Samples.chunk).
  left. reflexivity.
Defined.

Lemma answer_frame_bounded_witness :
  "answer" = "answer"
  /\ last [RealTimeMessage.mk "transcription" "s1"
             (TranscriptionData (Py.of_string "Hello") 0.97%float "en");
           RealTimeMessage.mk "answer" "s1"
             (AnswerData (Py.of_string "Hello")
                (Py.of_string "I plan carefully.") 0.9%float "professional")]
     = Some (RealTimeMessage.mk "answer" "s1"
               (AnswerData (Py.of_string "Hello")
                  (Py.of_string "I plan carefully.") 0.9%float
                  "professional"))
  /\ "professional" = Settings.answer_style (settings Fixtures.answering_app)
  /\ Py.endswith_any (Py.of_string "I plan carefully.") Py.terminators = true
  /\ (1 <= Settings.answer_max_length (settings Fixtures.answering_app) ->
      Py.len (Py.split (Py.of_string "I plan carefully."))
      <= Settings.answer_max_length (settings Fixtures.answering_app)).
Proof.
  apply (answer_frame_bounded Fixtures.answering_app "s1" Samples.chunk
           [RealTimeMessage.mk "transcription" "s1"
              (TranscriptionData (Py.of_string "Hello") 0.97%float "en");
            RealTimeMessage.mk "answer" "s1"
              (AnswerData (Py.of_string "Hello")
                 (Py.of_string "I plan carefully.") 0.9%float "professional")]
           (RealTimeMessage.mk "answer" "s1"
              (AnswerData (Py.of_string "Hello")
                 (Py.of_string "I plan carefully.") 0.9%float "professional"))
           (Py.of_string "Hello") (Py.of_string "I plan carefully.")
           0.9%float "professional").
  - reflexivity.
  - apply list_elem_of_further, list_elem_of_here.
  - reflexivity.
Defined.

Lemma answer_needs_openai_witness :
  exists frames entries,
    sent (process_audio_chunk "s1" Samples.chunk Fixtures.mock_open_app).2
    = sent Fixtures.mock_open_app ++ frames
    /\ log (process_audio_chunk "s1" Samples.chunk Fixtures.mock_open_app).2
       = log Fixtures.mock_open_app ++ entries
    /\ ("answer" ∉ map RealTimeMessage.type frames)
    /\ (forall provider, AdapterCall Answer provider ∉ entries).
Proof.
  apply (answer_needs_openai Fixtures.mock_open_app "s1" Samples.chunk).
  reflexivity.
Defined.

End Runs.

(** ** The configuration endpoint *)

Module Configuration.
Import Main.

Ltac unfold_pipeline :=
  unfold process_audio_chunk, try_except, bind, gets, get_settings, ret,
    stt_transcribe, translation_translate, ai_generate_answer,
    send_error, send_message.


Section Configuration.
Context {W : Type}.
Implicit Types (app : App (W := W)).





(** The value [update_config] leaves in a field: the one of the body
    when it is there and not empty, else the old one. *)
Local Abbreviation pick o old := (if Py.truthy o then default old o else old).


End Configuration.



End Configuration.

(** * Further properties of the connection handlers *)

Module Connections.
Import Main Endpoints.

Section Connections.
Context {W : Type}.
Implicit Types (app : App (W := W)) (session : InterviewSession.t).

(** What the handler of one inbound frame leaves as it was, and what it
    sends. *)
Lemma handle_message_frame app session_id message_type data :
  let r := handle_websocket_message session_id message_type data app in
  r.1 = inl tt
  /\ settings r.2 = settings app
  /\ stt_service r.2 = stt_service app
  /\ translation_service r.2 = translation_service app
  /\ ai_service r.2 = ai_service app
  /\ active_connections r.2 = active_connections app
  /\ dom (active_sessions r.2) = dom (active_sessions app)
  /\ (forall other,
        other <> session_id ->
        active_sessions r.2 !! other = active_sessions app !! other)
  /\ exists frames,
       sent r.2 = sent app ++ frames
       /\ Forall (fun m => RealTimeMessage.session_id m = session_id) frames.
Proof.
  cbv zeta. unfold handle_websocket_message, try_except.
  case_bool_decide as Ha.
  { pose proof (Pipeline.process_audio_chunk_frame app session_id data)
      as (H1 & H2 & H3 & H4 & H5 & H6 & H7).
    pose proof (Runs.run_sent app session_id data) as Hsent.
    destruct (process_audio_chunk session_id data app) as [[[]|e] app'];
      simpl in *; [|done].
    rewrite H2. done. }
  case_bool_decide as Hc.
  { unfold update_session_config, bind, gets, ret, send_message. simpl.
    destruct (active_sessions app !! session_id) as [session|] eqn:Hs; simpl.
    - assert (forall x : InterviewSession.t,
                 dom (<[session_id := x]> (active_sessions app))
                 = dom (active_sessions app)) as Hdom.
      { intros x. rewrite dom_insert_L.
        apply subseteq_union_1_L, singleton_subseteq_l.
        by apply elem_of_dom_2 in Hs. }
      case_bool_decide; simpl; repeat (split; [done|]);
        (split; [by intros other Hne; rewrite lookup_insert_ne|]).
      + eexists. split; [done|]. by repeat constructor.
      + exists []. by rewrite app_nil_r.
    - repeat (split; [done|]). exists []. by rewrite app_nil_r. }
  case_bool_decide as Hp.
  { unfold send_message. case_bool_decide; simpl; repeat (split; [done|]).
    - eexists. split; [done|]. by repeat constructor.
    - exists []. by rewrite app_nil_r. }
  simpl. repeat (split; [done|]). exists []. by rewrite app_nil_r.
Qed.

(** The same for the receive loop, on whatever arrives. *)
Lemma receive_loop_frame app session_id received :
  let r := receive_loop session_id received app in
  settings r.2 = settings app
  /\ stt_service r.2 = stt_service app
  /\ translation_service r.2 = translation_service app
  /\ ai_service r.2 = ai_service app
  /\ active_connections r.2 = active_connections app
  /\ dom (active_sessions r.2) = dom (active_sessions app)
  /\ (forall other,
        other <> session_id ->
        active_sessions r.2 !! other = active_sessions app !! other)
  /\ exists frames,
       sent r.2 = sent app ++ frames
       /\ Forall (fun m => RealTimeMessage.session_id m = session_id) frames.
Proof.
  cbv zeta. revert app.
  induction received as [|[message_type data|e] rest IH]; intros app.
  - simpl. repeat (split; [done|]). exists []. by rewrite app_nil_r.
  - cbn [receive_loop]. unfold bind.
    pose proof (handle_message_frame app session_id message_type data)
      as (H0 & H1 & H2 & H3 & H4 & H5 & H6 & H7 & frames & H8 & H9).
    cbv zeta in *.
    destruct (handle_websocket_message session_id message_type data app)
      as [[[]|e] app']; simpl in *; [|done].
    destruct (IH app') as (I1 & I2 & I3 & I4 & I5 & I6 & I7 & more & I8 & I9).
    rewrite I1, I2, I3, I4, I5, I6, I8, H8.
    repeat (split; [done|]).
    split; [by intros other Hne; rewrite I7, H7|].
    exists (frames ++ more). rewrite app_assoc. split; [done|].
    by apply Forall_app.
  - simpl. repeat (split; [done|]). exists []. by rewrite app_nil_r.
Qed.


(** The [status] frame that greets a new connection. *)
Local Abbreviation welcome session_id :=
  (RealTimeMessage.mk "status" session_id
     (StatusData "Connected to Real-Time Interview Assistant" session_id
        ["transcription"; "translation"; "answer_generation"])).

Lemma open_effect app session_id :
  websocket_endpoint_open session_id app
  = (inl tt,
     mkApp (settings app) (stt_service app) (translation_service app)
       (ai_service app) ({[session_id]} ∪ active_connections app)
       (<[session_id :=
            InterviewSession.mk session_id
              (Settings.default_source_language (settings app))
              (Settings.default_target_language (settings app)) true]>
          (active_sessions app))
       (world app) (sent app ++ [welcome session_id]) (log app)).
Proof.
  unfold websocket_endpoint_open, bind, get_settings, gets, send_message.
  simpl. rewrite bool_decide_eq_true_2; [done|].
  by apply elem_of_union_l, elem_of_singleton_2.
Qed.

Lemma close_effect app session_id :
  websocket_endpoint_close session_id app
  = (inl tt,
     mkApp (settings app) (stt_service app) (translation_service app)
       (ai_service app) (active_connections app ∖ {[session_id]})
       (delete session_id (active_sessions app))
       (world app) (sent app) (log app)).
Proof.
  unfold websocket_endpoint_close, bind. destruct app as [s r1 r2 r3 c t w f l].
  simpl. unfold set_active_connections, set_active_sessions.
  do 2 (case_bool_decide; simpl in * ); repeat f_equal;
    first
      [ by symmetry; apply difference_disjoint_L, disjoint_singleton_r
      | by symmetry; apply delete_id, eq_None_not_Some ].
Qed.

(** The receive loop inside its [try]: it ends without an exception. *)
Lemma serve_frame app session_id received :
  (try_except (receive_loop session_id received)
     (fun e => send_error session_id "WebSocket error" (Py.str e)) app).1
  = inl tt
  /\ settings
       (try_except (receive_loop session_id received)
          (fun e => send_error session_id "WebSocket error" (Py.str e))
          app).2
     = settings app
  /\ active_connections
       (try_except (receive_loop session_id received)
          (fun e => send_error session_id "WebSocket error" (Py.str e))
          app).2
     = active_connections app
  /\ dom (active_sessions
            (try_except (receive_loop session_id received)
               (fun e => send_error session_id "WebSocket error" (Py.str e))
               app).2)
     = dom (active_sessions app)
  /\ (forall other,
        other <> session_id ->
        active_sessions
          (try_except (receive_loop session_id received)
             (fun e => send_error session_id "WebSocket error" (Py.str e))
             app).2 !! other
        = active_sessions app !! other)
  /\ exists frames,
       sent
         (try_except (receive_loop session_id received)
            (fun e => send_error session_id "WebSocket error" (Py.str e))
            app).2
       = sent app ++ frames
       /\ Forall (fun m => RealTimeMessage.session_id m = session_id) frames.
Proof.
  unfold try_except.
  pose proof (receive_loop_frame app session_id received)
    as (H1 & _ & _ & _ & H5 & H6 & H7 & frames & H8 & H9).
  cbv zeta in *.
  destruct (receive_loop session_id received app) as [[[]|e] app'];
    simpl in *.
  - repeat (split; [done|]). by exists frames.
  - unfold send_error, send_message. case_bool_decide; simpl.
    + repeat (split; [done|]). rewrite H8.
      eexists. rewrite <- app_assoc. split; [done|].
      apply Forall_app. split; [done|]. by repeat constructor.
    + repeat (split; [done|]). by exists frames.
Qed.

(** X8: [websocket_endpoint] returns without an exception whatever
    arrives on the connection; afterwards its session identifier is in
    neither table, even if another connection had registered it before;
    every other connection and session is as it was, and so are the
    settings; and the frames it sent start with the [status] greeting
    and are all addressed to this session. *)
Theorem websocket_endpoint_scope app session_id received :
  (websocket_endpoint session_id received app).1 = inl tt
  /\ (session_id
      ∉ active_connections (websocket_endpoint session_id received app).2)
  /\ active_sessions (websocket_endpoint session_id received app).2
       !! session_id = None
  /\ (forall other,
        other <> session_id ->
        active_sessions (websocket_endpoint session_id received app).2
          !! other
        = active_sessions app !! other
        /\ (other
            ∈ active_connections
                (websocket_endpoint session_id received app).2
            <-> other ∈ active_connections app))
  /\ settings (websocket_endpoint session_id received app).2 = settings app
  /\ exists frames,
       sent (websocket_endpoint session_id received app).2
       = sent app ++ welcome session_id :: frames
       /\ Forall (fun m => RealTimeMessage.session_id m = session_id) frames.
Proof.
  unfold websocket_endpoint. rewrite open_effect.
  match goal with
  | |- context [try_except _ _ ?a] =>
      pose proof (serve_frame a session_id received)
        as (_ & H2 & H3 & _ & H4 & frames & H5 & H6);
      destruct (try_except (receive_loop session_id received)
                  (fun e =>
                     send_error session_id "WebSocket error" (Py.str e)) a)
        as [r app']
  end.
  cbv beta iota zeta. rewrite close_effect.
  simpl in H2, H3, H4, H5. simpl.
  split; [done|]. split.
  { rewrite elem_of_difference, elem_of_singleton. tauto. }
  split; [by rewrite lookup_delete_eq|].
  split.
  { intros other Hne. rewrite lookup_delete_ne by done.
    rewrite H4, lookup_insert_ne by done. split; [done|].
    rewrite H3, elem_of_difference, elem_of_union, !elem_of_singleton.
    tauto. }
  split; [done|].
  exists frames. rewrite H5, <- app_assoc. done.
Qed.

(** X9: the two tables stay in step. If the sessions table has exactly
    the keys of the connections table, it still has after a connection
    is opened, after its [finally] block, after any inbound frame, after
    a pipeline run, after a global configuration update and after a
    whole [websocket_endpoint]. *)
Theorem tables_agree app session_id message_type data config received :
  dom (active_sessions app) = active_connections app ->
  dom (active_sessions (websocket_endpoint_open session_id app).2)
  = active_connections (websocket_endpoint_open session_id app).2
  /\ dom (active_sessions (websocket_endpoint_close session_id app).2)
     = active_connections (websocket_endpoint_close session_id app).2
  /\ dom (active_sessions
            (handle_websocket_message session_id message_type data app).2)
     = active_connections
         (handle_websocket_message session_id message_type data app).2
  /\ dom (active_sessions (process_audio_chunk session_id data app).2)
     = active_connections (process_audio_chunk session_id data app).2
  /\ dom (active_sessions (update_config config app).2)
     = active_connections (update_config config app).2
  /\ dom (active_sessions (websocket_endpoint session_id received app).2)
     = active_connections (websocket_endpoint session_id received app).2.
Proof.
  intros Hdom. split; [|split; [|split; [|split; [|split]]]].
  - rewrite open_effect. simpl. by rewrite dom_insert_L, Hdom.
  - rewrite close_effect. simpl. by rewrite dom_delete_L, Hdom.
  - pose proof (handle_message_frame app session_id message_type data)
      as (_ & _ & _ & _ & _ & H5 & H6 & _).
    cbv zeta in *. by rewrite H5, H6.
  - pose proof (Pipeline.process_audio_chunk_frame app session_id data)
      as (_ & H2 & H3 & _).
    by rewrite H2, H3.
  - done.
  - unfold websocket_endpoint. rewrite open_effect.
    match goal with
    | |- context [try_except _ _ ?a] =>
        pose proof (serve_frame a session_id received)
          as (_ & _ & H3 & H4 & _);
        destruct (try_except (receive_loop session_id received)
                    (fun e =>
                       send_error session_id "WebSocket error" (Py.str e)) a)
          as [r app']
    end.
    cbv beta iota zeta. rewrite close_effect.
    simpl in H3, H4. simpl.
    by rewrite dom_delete_L, H4, H3, dom_insert_L, Hdom.
Qed.

(** A loop that meets a broken text after [messages] has handled the
    messages, and ends in the exception. *)
Lemma receive_loop_broken app session_id messages e rest :
  receive_loop session_id
    (map (fun m => Message m.1 m.2) messages ++ Broken e :: rest) app
  = (inr e,
     (receive_loop session_id (map (fun m => Message m.1 m.2) messages)
        app).2).
Proof.
  revert app. induction messages as [|[message_type data] messages IH];
    intros app; [done|].
  cbn [map List.app receive_loop fst snd]. unfold bind.
  pose proof (handle_message_frame app session_id message_type data)
    as (H0 & _).
  cbv zeta in *.
  destruct (handle_websocket_message session_id message_type data app)
    as [[[]|e'] app']; simpl in H0; [|done].
  apply IH.
Qed.

(** X10: a text that cannot be decoded ends the connection: what arrives
    after it is never handled, and the last frame sent is the
    "WebSocket error" frame with the exception's message. *)
Theorem broken_text_ends_connection app session_id messages e rest :
  websocket_endpoint session_id
    (map (fun m => Message m.1 m.2) messages ++ Broken e :: rest) app
  = websocket_endpoint session_id
      (map (fun m => Message m.1 m.2) messages ++ [Broken e]) app
  /\ last (sent (websocket_endpoint session_id
                   (map (fun m => Message m.1 m.2) messages
                    ++ Broken e :: rest) app).2)
     = Some (RealTimeMessage.mk "error" session_id
               (ErrorData "WebSocket error" (Py.str e))).
Proof.
  unfold websocket_endpoint. rewrite open_effect.
  unfold try_except. rewrite !receive_loop_broken.
  split; [done|].
  match goal with
  | |- context [receive_loop _ _ ?a] =>
      pose proof (receive_loop_frame a session_id
                    (map (fun m => Message m.1 m.2) messages))
        as (_ & _ & _ & _ & H5 & _);
      destruct (receive_loop session_id
                  (map (fun m => Message m.1 m.2) messages) a)
        as [r app']
  end.
  cbv zeta in H5. simpl in H5. simpl.
  unfold send_error, send_message.
  rewrite bool_decide_eq_true_2
    by (rewrite H5; by apply elem_of_union_l, elem_of_singleton_2).
  cbv beta iota zeta. rewrite close_effect. simpl. by rewrite last_snoc.
Qed.

(** X11: of the [config_update] frames whose [data] is an object with
    strings for the languages it carries: such a frame for a session
    that is not open changes nothing. For an open session it sets
    exactly the languages the frame carries, an empty string included,
    keeps the others, sends one [config_updated] frame with the
    resulting pair, and leaves the global settings alone, so that a
    session opened afterwards starts from the global defaults. *)
Theorem session_config_update app session_id config :
  (active_sessions app !! session_id = None ->
   handle_websocket_message session_id (Some "config_update") config app
   = (inl tt, app))
  /\ (forall session,
        active_sessions app !! session_id = Some session ->
        session_id ∈ active_connections app ->
        active_sessions
          (handle_websocket_message session_id (Some "config_update") config
             app).2 !! session_id
        = Some (InterviewSession.mk (InterviewSession.session_id session)
                  (default (InterviewSession.source_language session)
                     (Inbound.source_language config))
                  (default (InterviewSession.target_language session)
                     (Inbound.target_language config))
                  (InterviewSession.is_active session))
        /\ sent
             (handle_websocket_message session_id (Some "config_update")
                config app).2
           = sent app
             ++ [RealTimeMessage.mk "config_updated" session_id
                   (ConfigUpdatedData
                      (default (InterviewSession.source_language session)
                         (Inbound.source_language config))
                      (default (InterviewSession.target_language session)
                         (Inbound.target_language config)))]
        /\ settings
             (handle_websocket_message session_id (Some "config_update")
                config app).2
           = settings app
        /\ log
             (handle_websocket_message session_id (Some "config_update")
                config app).2
           = log app
        /\ forall other,
             active_sessions
               (websocket_endpoint_open other
                  (handle_websocket_message session_id
                     (Some "config_update") config app).2).2 !! other
             = Some (InterviewSession.mk other
                       (Settings.default_source_language (settings app))
                       (Settings.default_target_language (settings app))
                       true)).
Proof.
  unfold handle_websocket_message, try_except, update_session_config, bind,
    gets, ret, send_message.
  simpl. split.
  - by intros ->.
  - intros session -> Hc. simpl. rewrite (bool_decide_eq_true_2 _ Hc).
    destruct session as [sid src tgt active],
      (Inbound.source_language config) as [new_src|],
      (Inbound.target_language config) as [new_tgt|]; simpl;
      rewrite lookup_insert_eq; repeat (split; [done|]);
      intros other; rewrite open_effect; simpl; by rewrite lookup_insert_eq.
Qed.

End Connections.

Lemma session_config_update_witness :
  active_sessions
    (handle_websocket_message "s1" (Some "config_update")
       (Samples.set_source "") Samples.open_app).2 !! "s1"
  = Some (InterviewSession.mk "s1" "" "en" true)
  /\ sent
       (handle_websocket_message "s1" (Some "config_update")
          (Samples.set_source "") Samples.open_app).2
     = sent Samples.open_app
       ++ [RealTimeMessage.mk "config_updated" "s1"
             (ConfigUpdatedData "" "en")]
  /\ settings
       (handle_websocket_message "s1" (Some "config_update")
          (Samples.set_source "") Samples.open_app).2
     = settings Samples.open_app
  /\ log
       (handle_websocket_message "s1" (Some "config_update")
          (Samples.set_source "") Samples.open_app).2
     = log Samples.open_app
  /\ forall other,
       active_sessions
         (websocket_endpoint_open other
            (handle_websocket_message "s1" (Some "config_update")
               (Samples.set_source "") Samples.open_app).2).2 !! other
       = Some (InterviewSession.mk other "auto" "en" true).
Proof.
  apply (proj2 (session_config_update Samples.open_app "s1"
                  (Samples.set_source ""))
           (InterviewSession.mk "s1" "auto" "en" true)).
  - reflexivity.
  - vm_compute. reflexivity.
Defined.

Lemma tables_agree_witness :
  dom (active_sessions
         (websocket_endpoint_open "s2" Samples.open_app).2)
  = active_connections (websocket_endpoint_open "s2" Samples.open_app).2
  /\ dom (active_sessions
            (websocket_endpoint_close "s2" Samples.open_app).2)
     = active_connections (websocket_endpoint_close "s2" Samples.open_app).2
  /\ dom (active_sessions
            (handle_websocket_message "s2" (Some "ping") Samples.chunk
               Samples.open_app).2)
     = active_connections
         (handle_websocket_message "s2" (Some "ping") Samples.chunk
            Samples.open_app).2
  /\ dom (active_sessions
            (process_audio_chunk "s2" Samples.chunk Samples.open_app).2)
     = active_connections
         (process_audio_chunk "s2" Samples.chunk Samples.open_app).2
  /\ dom (active_sessions
            (update_config Samples.use_french Samples.open_app).2)
     = active_connections
         (update_config Samples.use_french Samples.open_app).2
  /\ dom (active_sessions
            (websocket_endpoint "s2" [Message (Some "ping") Samples.chunk]
               Samples.open_app).2)
     = active_connections
         (websocket_endpoint "s2" [Message (Some "ping") Samples.chunk]
            Samples.open_app).2.
Proof.
  apply (tables_agree Samples.open_app "s2" (Some "ping") Samples.chunk
           Samples.use_french [Message (Some "ping") Samples.chunk]).
  vm_compute. reflexivity.
Defined.


End Connections.

(** * Further properties of the HTTP endpoints *)

Module Http.
Import Main Endpoints.

Section Http.
Context {W : Type}.
Implicit Types (app : App (W := W)).

(** Start-up never leaves a registry empty: where no real adapter is
    registered the mock is. *)
Lemma stt_registry_nonempty settings (env : Environment.t W) :
  SpeechToTextService._initialize_providers settings env <> ∅.
Proof.
  unfold SpeechToTextService._initialize_providers. cbv zeta.
  case_bool_decide as Hsize; [apply insert_non_empty|].
  intros Hempty. apply Hsize. by rewrite Hempty, map_size_empty.
Qed.

Lemma translation_registry_nonempty settings (env : Environment.t W) :
  TranslationService._initialize_providers settings env <> ∅.
Proof.
  unfold TranslationService._initialize_providers. cbv zeta.
  case_bool_decide as Hsize; [apply insert_non_empty|].
  intros Hempty. apply Hsize. by rewrite Hempty, map_size_empty.
Qed.

Lemma ai_registry_nonempty settings (env : Environment.t W) :
  AIAnswerService._initialize_providers settings env <> ∅.
Proof.
  unfold AIAnswerService._initialize_providers. cbv zeta.
  case_bool_decide as Hsize; [apply insert_non_empty|].
  intros Hempty. apply Hsize. by rewrite Hempty, map_size_empty.
Qed.

(** X12: before start-up [health_check] reports every service unhealthy
    and the status "degraded". Once [startup_event] has returned it
    reports the four services healthy and the status "healthy",
    whatever the settings and the installed libraries: a registry that
    holds the mock only, or that lacks the configured provider, counts
    as healthy. *)
Theorem health_after_startup :
  health_check (W := W) None
  = HealthCheck.mk "degraded"
      [("speech_to_text", "unhealthy"); ("translation", "unhealthy");
       ("ai_generation", "unhealthy"); ("audio_capture", "unhealthy")]
      "1.0.0"
  /\ forall settings (env : Environment.t W) world app,
       startup_event settings env world = inl app ->
       health_check (Some app)
       = HealthCheck.mk "healthy"
           [("speech_to_text", "healthy"); ("translation", "healthy");
            ("ai_generation", "healthy"); ("audio_capture", "healthy")]
           "1.0.0".
Proof.
  split; [done|].
  intros settings env world app Hstart. unfold startup_event in Hstart.
  destruct (Settings.validate_api_keys settings); [done|].
  injection Hstart as <-. unfold health_check, initialize_services. simpl.
  rewrite !bool_decide_eq_false_2; [done|..].
  - apply ai_registry_nonempty.
  - apply translation_registry_nonempty.
  - apply stt_registry_nonempty.
Qed.


(** X13: each of the three service endpoints answers a failure with
    status 500, never with 503: before start-up the 503 it raises is
    caught by its own handler and wrapped, and after start-up the detail
    is one of the two messages of the service, that the provider is not
    available or that all providers failed. *)
Theorem service_endpoints_fail_with_500 (http_str : HTTPException.t -> string) :
  (forall request (globals : option (App (W := W))) e globals',
      transcribe_audio http_str request globals = (inr e, globals') ->
      HTTPException.status_code e = 500
      /\ match globals with
         | None =>
             HTTPException.detail e
             = http_str (HTTPException.mk 503
                           "Speech-to-text service not available")
         | Some _ =>
             HTTPException.detail e
             = ("Provider " ++ TranscriptionRequest.provider request
                ++ " not available")%string
             \/ HTTPException.detail e = "All STT providers failed"
         end)
  /\ (forall request (globals : option (App (W := W))) e globals',
         translate_text http_str request globals = (inr e, globals') ->
         HTTPException.status_code e = 500
         /\ match globals with
            | None =>
                HTTPException.detail e
                = http_str (HTTPException.mk 503
                              "Translation service not available")
            | Some _ =>
                HTTPException.detail e
                = ("Provider " ++ TranslationRequest.provider request
                   ++ " not available")%string
                \/ HTTPException.detail e
                   = "All translation providers failed"
            end)
  /\ (forall request (globals : option (App (W := W))) e globals',
         generate_answer http_str request globals = (inr e, globals') ->
         HTTPException.status_code e = 500
         /\ match globals with
            | None =>
                HTTPException.detail e
                = http_str (HTTPException.mk 503 "AI service not available")
            | Some _ =>
                HTTPException.detail e
                = ("Provider " ++ AnswerGenerationRequest.provider request
                   ++ " not available")%string
                \/ HTTPException.detail e = "All AI providers failed"
            end).
Proof.
  split; [|split]; intros request [app|] e globals' H;
    unfold transcribe_audio, translate_text, generate_answer,
      service_endpoint in H;
    try (by injection H as <- _).
  - unfold stt_transcribe in H.
    destruct (SpeechToTextService.transcribe _ _ _) as [[r|e'] run] eqn:E;
      [done|].
    injection H as <- _. split; [done|].
    apply ServiceFacts.call_failure in E as [->| ->]; [by left|by right].
  - unfold translation_translate in H.
    destruct (TranslationService.translate _ _ _) as [[r|e'] run] eqn:E;
      [done|].
    injection H as <- _. split; [done|].
    apply ServiceFacts.call_failure in E as [->| ->]; [by left|by right].
  - unfold ai_generate_answer in H.
    destruct (AIAnswerService.generate_answer _ _ _) as [[r|e'] run] eqn:E;
      [done|].
    injection H as <- _. split; [done|].
    apply ServiceFacts.call_failure in E as [->| ->]; [by left|by right].
Qed.

(** What one field of a configuration update does to a setting. *)
Local Abbreviation pick o old := (if Py.truthy o then default old o else old).

Lemma pick_twice (o : option string) (old : string) :
  pick o (pick o old) = pick o old.
Proof. by destruct o as [value|]; simpl; [destruct (negb _)|]. Qed.

Lemma pick_same (old : string) : pick (Some old) old = old.
Proof. simpl. by destruct (negb _). Qed.

(** X14: [update_config] is idempotent and ignores [answer_provider]; a
    field that is missing or the empty string keeps the old value, and
    nothing changes [answer_max_length]. [get_current_config] then
    returns the updated values, and writing the configuration it
    returned back changes nothing. *)
Theorem update_config_laws app config :
  update_config config (update_config config app).2
  = update_config config app
  /\ (forall provider,
        update_config
          (ConfigUpdate.mk (ConfigUpdate.source_language config)
             (ConfigUpdate.target_language config)
             (ConfigUpdate.stt_provider config)
             (ConfigUpdate.translation_provider config) provider
             (ConfigUpdate.answer_style config)) app
        = update_config config app)
  /\ (get_current_config (update_config config app).2).1
     = inl (CurrentConfig.mk
              (pick (ConfigUpdate.source_language config)
                 (Settings.default_source_language (settings app)))
              (pick (ConfigUpdate.target_language config)
                 (Settings.default_target_language (settings app)))
              (pick (ConfigUpdate.stt_provider config)
                 (Settings.stt_provider (settings app)))
              (pick (ConfigUpdate.translation_provider config)
                 (Settings.translation_provider (settings app)))
              (pick (ConfigUpdate.answer_style config)
                 (Settings.answer_style (settings app)))
              (Settings.answer_max_length (settings app)))
  /\ (forall current provider,
        (get_current_config app).1 = inl current ->
        update_config
          (ConfigUpdate.mk (Some (CurrentConfig.source_language current))
             (Some (CurrentConfig.target_language current))
             (Some (CurrentConfig.stt_provider current))
             (Some (CurrentConfig.translation_provider current)) provider
             (Some (CurrentConfig.answer_style current))) app
        = (inl tt, app)).
Proof.
  split; [|split; [done|split; [done|]]].
  - unfold update_config, set_settings. cbv zeta. simpl.
    by rewrite !pick_twice.
  - intros current provider Hcur.
    unfold get_current_config, bind, get_settings, gets, ret in Hcur.
    simpl in Hcur. injection Hcur as <-.
    unfold update_config, set_settings. cbv zeta.
    cbn [ConfigUpdate.source_language ConfigUpdate.target_language
         ConfigUpdate.stt_provider ConfigUpdate.translation_provider
         ConfigUpdate.answer_style CurrentConfig.source_language
         CurrentConfig.target_language CurrentConfig.stt_provider
         CurrentConfig.translation_provider CurrentConfig.answer_style].
    rewrite !pick_same. by destruct app as [[] ? ? ? ? ? ? ? ?].
Qed.

End Http.

Lemma update_config_laws_witness :
  update_config
    (ConfigUpdate.mk (Some "auto") (Some "en") (Some "openai")
       (Some "google") (Some "anthropic") (Some "professional"))
    Samples.open_app
  = (inl tt, Samples.open_app).
Proof.
  apply (proj2 (proj2 (proj2 (update_config_laws Samples.open_app
                                Samples.use_french)))
           (CurrentConfig.mk "auto" "en" "openai" "google" "professional"
              150)).
  reflexivity.
Defined.

Lemma service_endpoints_fail_with_500_witness :
  HTTPException.status_code
    (HTTPException.mk 500 "Provider openai not available") = 500
  /\ (HTTPException.detail
        (HTTPException.mk 500 "Provider openai not available")
      = ("Provider " ++ "openai" ++ " not available")%string
      \/ HTTPException.detail
           (HTTPException.mk 500 "Provider openai not available")
         = "All STT providers failed").
Proof.
  apply (proj1 (service_endpoints_fail_with_500 (fun _ => ""))
           (Samples.transcription_request "openai")
           (Some Samples.default_app)
           (HTTPException.mk 500 "Provider openai not available")
           (transcribe_audio (fun _ => "")
              (Samples.transcription_request "openai")
              (Some Samples.default_app)).2).
  reflexivity.
Defined.

End Http.

(** * Properties of the utility functions *)

Module Utilities.

(** ** Case mapping of identifiers *)

Lemma lower_upper_ascii a :
  Identifier.lower_ascii (Py.upper_ascii a) = Identifier.lower_ascii a.
Proof. by destruct a as [[] [] [] [] [] [] [] []]. Qed.

Lemma upper_lower_ascii a :
  Py.upper_ascii (Identifier.lower_ascii a) = Py.upper_ascii a.
Proof. by destruct a as [[] [] [] [] [] [] [] []]. Qed.

Lemma upper_upper_ascii a : Py.upper_ascii (Py.upper_ascii a) = Py.upper_ascii a.
Proof. by destruct a as [[] [] [] [] [] [] [] []]. Qed.

Lemma lower_lower_ascii a :
  Identifier.lower_ascii (Identifier.lower_ascii a) = Identifier.lower_ascii a.
Proof. by destruct a as [[] [] [] [] [] [] [] []]. Qed.

Lemma lower_upper s : Identifier.lower (Py.upper s) = Identifier.lower s.
Proof.
  induction s as [|a s IH]; [done|]. simpl. by rewrite lower_upper_ascii, IH.
Qed.

Lemma upper_lower s : Py.upper (Identifier.lower s) = Py.upper s.
Proof.
  induction s as [|a s IH]; [done|]. simpl. by rewrite upper_lower_ascii, IH.
Qed.

Lemma upper_upper s : Py.upper (Py.upper s) = Py.upper s.
Proof.
  induction s as [|a s IH]; [done|]. simpl. by rewrite upper_upper_ascii, IH.
Qed.

Lemma lower_lower s : Identifier.lower (Identifier.lower s) = Identifier.lower s.
Proof.
  induction s as [|a s IH]; [done|]. simpl. by rewrite lower_lower_ascii, IH.
Qed.

(** ** The DeepL language codes *)

(** X15: on ASCII language codes the DeepL mapping does not depend on the
    case of its argument, maps its own results to themselves, and
    returns upper-case codes only. *)
Theorem map_language_code_laws (lang_code : string) :
  Identifier.is_ascii lang_code = true ->
  DeepLProvider._map_language_code (Identifier.lower lang_code)
  = DeepLProvider._map_language_code lang_code
  /\ DeepLProvider._map_language_code (Py.upper lang_code)
     = DeepLProvider._map_language_code lang_code
  /\ DeepLProvider._map_language_code
       (DeepLProvider._map_language_code lang_code)
     = DeepLProvider._map_language_code lang_code
  /\ Py.upper (DeepLProvider._map_language_code lang_code)
     = DeepLProvider._map_language_code lang_code.
Proof.
  intros _. unfold DeepLProvider._map_language_code.
  rewrite lower_lower, lower_upper, upper_lower, upper_upper.
  split; [done|]. split; [done|].
  destruct (DeepLProvider.mapping !! Identifier.lower lang_code)
    as [code|] eqn:E; simpl.
  - apply elem_of_list_to_map_2, list_elem_of_In in E. simpl in E.
    repeat (destruct E as [E|E]; [by injection E as _ <-|]).
    destruct E.
  - by rewrite lower_upper, E, upper_upper.
Qed.

Lemma map_language_code_laws_witness :
  DeepLProvider._map_language_code (Identifier.lower "Zh-TW")
  = DeepLProvider._map_language_code "Zh-TW"
  /\ DeepLProvider._map_language_code (Py.upper "Zh-TW")
     = DeepLProvider._map_language_code "Zh-TW"
  /\ DeepLProvider._map_language_code
       (DeepLProvider._map_language_code "Zh-TW")
     = DeepLProvider._map_language_code "Zh-TW"
  /\ Py.upper (DeepLProvider._map_language_code "Zh-TW")
     = DeepLProvider._map_language_code "Zh-TW".
Proof.
  apply (map_language_code_laws "Zh-TW"). reflexivity.
Defined.

(** ** The quality check of answers *)

Lemma split_blank s :
  Py.split s = [] <-> Forall (fun c => Py.is_space c = true) s.
Proof.
  induction s as [|c s IH]; [done|].
  destruct (Py.is_space c) eqn:Hc.
  - simpl. rewrite Hc, IH. split; [by constructor|by inversion 1].
  - split.
    + intros H. by apply PyFacts.split_nonempty in H.
    + inversion 1. congruence.
Qed.

Lemma verdict (m : AnswerQuality.Metrics) :
  PrimFloat.leb 0.75%float
    (Py.float_of_Z (AnswerQuality.passed m) / Py.float_of_Z 4)%float
  = (3 <=? AnswerQuality.passed m).
Proof. by destruct m as [[] [] [] []]; vm_compute. Qed.

(** X16: [validate_answer_quality] raises [ZeroDivisionError] exactly on
    an answer that is empty or all whitespace; on any other answer it
    returns, and calls the answer acceptable exactly when at least three
    of its four metrics hold. *)
Theorem answer_quality_verdict (str_lower : list N -> list N)
    (answer question : list N) :
  (AnswerQuality.validate_answer_quality str_lower answer question = None
   <-> Forall (fun c => Py.is_space c = true) answer)
  /\ forall r,
       AnswerQuality.validate_answer_quality str_lower answer question
       = Some r ->
       (AnswerQuality.is_acceptable r = true
        <-> 3 <= AnswerQuality.passed (AnswerQuality.metrics r))
       /\ AnswerQuality.has_punctuation (AnswerQuality.metrics r)
          = Py.endswith_any answer Py.terminators.
Proof.
  unfold AnswerQuality.validate_answer_quality. cbv zeta.
  assert (Py.len (Py.split answer) = 0 <-> Py.split answer = []) as Hlen.
  { unfold Py.len. destruct (Py.split answer); [done|]. simpl. split; [lia|done]. }
  case_bool_decide as Hw.
  - split; [|done]. split; [|done]. intros _. by apply split_blank, Hlen.
  - split.
    + split; [done|]. intros H. by apply split_blank, Hlen in H.
    + intros r [= <-]. simpl. rewrite verdict. split; [|done].
      apply Z.leb_le.
Qed.

(** X17: an answer that went through [_post_process_answer] can always
    be rated: [validate_answer_quality] returns on it, its punctuation
    metric holds, and it is acceptable exactly when two of the other
    three metrics hold. *)
Theorem processed_answer_rated (str_lower : list N -> list N)
    (text question : list N) (request : AnswerGenerationRequest.t) :
  exists r,
    AnswerQuality.validate_answer_quality str_lower
      (AIAnswerService._post_process_answer text request) question
    = Some r
    /\ AnswerQuality.has_punctuation (AnswerQuality.metrics r) = true
    /\ (AnswerQuality.is_acceptable r = true
        <-> 2 <= Z.b2z (AnswerQuality.length_appropriate
                          (AnswerQuality.metrics r))
                 + Z.b2z (AnswerQuality.not_too_repetitive
                            (AnswerQuality.metrics r))
                 + Z.b2z (AnswerQuality.addresses_question
                            (AnswerQuality.metrics r))).
Proof.
  destruct (PostProcess.post_process_spec text request)
    as (Hnorm & Hend & _). cbv zeta in *.
  remember (AIAnswerService._post_process_answer text request) as out
    eqn:Hout.
  clear Hout. unfold AnswerQuality.validate_answer_quality. cbv zeta.
  rewrite bool_decide_eq_false_2.
  - eexists. split; [done|].
    cbn [AnswerQuality.metrics AnswerQuality.has_punctuation
         AnswerQuality.is_acceptable].
    split; [done|].
    rewrite verdict, Z.leb_le. unfold AnswerQuality.passed.
    cbn [AnswerQuality.length_appropriate AnswerQuality.has_punctuation
         AnswerQuality.not_too_repetitive AnswerQuality.addresses_question].
    rewrite Hend. cbn [Z.b2z]. lia.
  - intros Hlen.
    assert (Py.split out = []) as Hsplit
      by (unfold Py.len in Hlen; destruct (Py.split out); [done|simpl in Hlen; lia]).
    pose proof (PyFacts.norm_after_fixed _ Hnorm) as Hfix.
    rewrite Hsplit in Hfix. simpl in Hfix.
    by apply PyFacts.norm_after_nonempty in Hnorm.
Qed.

(** ** Language names *)

Lemma letter_not_space c : (65 <= c <= 122)%N -> Py.is_space c = false.
Proof.
  intros Hc. apply not_true_is_false. unfold Py.is_space.
  rewrite !orb_true_iff, !andb_true_iff, !N.leb_le, !N.eqb_eq. lia.
Qed.

Lemma lower_cons c s :
  Py.lower (c :: s)
  = (if ((65 <=? c) && (c <=? 90))%N then (c + 32)%N else c) :: Py.lower s.
Proof. done. Qed.

Lemma lower_space c :
  Py.is_space (if ((65 <=? c) && (c <=? 90))%N then (c + 32)%N else c)
  = Py.is_space c.
Proof.
  destruct ((65 <=? c) && (c <=? 90))%N eqn:H; [|done].
  apply andb_true_iff in H as [H1%N.leb_le H2%N.leb_le].
  rewrite !letter_not_space; [done|lia|lia].
Qed.

Lemma lower_twice s : Py.lower (Py.lower s) = Py.lower s.
Proof.
  induction s as [|c s IH]; [done|]. rewrite !lower_cons, IH. f_equal.
  destruct ((65 <=? c) && (c <=? 90))%N eqn:H; [|by rewrite H].
  apply andb_true_iff in H as [H1%N.leb_le H2%N.leb_le].
  replace ((c + 32 <=? 90)%N) with false by (symmetry; apply N.leb_gt; lia).
  by rewrite andb_false_r.
Qed.

Lemma lower_lstrip s : Py.lstrip (Py.lower s) = Py.lower (Py.lstrip s).
Proof.
  induction s as [|c s IH]; [done|]. rewrite lower_cons.
  cbn [Py.lstrip]. rewrite lower_space.
  destruct (Py.is_space c); [done|]. by rewrite lower_cons.
Qed.

Lemma lower_reverse s : Py.lower (reverse s) = reverse (Py.lower s).
Proof. apply fmap_reverse. Qed.

Lemma lower_strip s : Py.strip (Py.lower s) = Py.lower (Py.strip s).
Proof.
  unfold Py.strip, Py.rstrip.
  by rewrite lower_lstrip, <- lower_reverse, lower_lstrip, lower_reverse.
Qed.

Lemma lstrip_head s :
  match Py.lstrip s with
  | [] => True
  | c :: _ => Py.is_space c = false
  end.
Proof.
  induction s as [|c s IH]; [done|]. simpl.
  destruct (Py.is_space c) eqn:Hc; [done|]. by rewrite Hc.
Qed.

Lemma lstrip_snoc s c :
  Py.is_space c = false -> Py.lstrip (s ++ [c]) = Py.lstrip s ++ [c].
Proof.
  intros Hc. induction s as [|d s IH]; simpl; [by rewrite Hc|].
  by destruct (Py.is_space d).
Qed.

Lemma strip_shape s :
  Py.strip s = []
  \/ (Py.starts_with_space (Py.strip s) = false
      /\ exists c, last (Py.strip s) = Some c /\ Py.is_space c = false).
Proof.
  unfold Py.strip, Py.rstrip.
  pose proof (lstrip_head s) as Hhead.
  destruct (Py.lstrip s) as [|c t]; [by left|]. right.
  rewrite reverse_cons, lstrip_snoc, reverse_app, reverse_singleton by done.
  simpl. split; [done|].
  pose proof (lstrip_head (reverse t)) as Hlast.
  destruct (Py.lstrip (reverse t)) as [|d u].
  - by exists c.
  - exists d. split; [|done].
    by rewrite reverse_cons, app_comm_cons, last_snoc.
Qed.

Lemma strip_twice s : Py.strip (Py.strip s) = Py.strip s.
Proof.
  destruct (strip_shape s) as [->|[Hhead Hlast]]; [done|].
  by apply PyFacts.strip_id.
Qed.

(** X18: on ASCII input [normalize_language_code] is idempotent, and its
    result is in lower case and has no whitespace around it. *)
Theorem normalize_language_code_laws (lang_code : list N) :
  LanguageNames.is_ascii lang_code = true ->
  LanguageNames.normalize_language_code
    (LanguageNames.normalize_language_code lang_code)
  = LanguageNames.normalize_language_code lang_code
  /\ Py.strip (LanguageNames.normalize_language_code lang_code)
     = LanguageNames.normalize_language_code lang_code
  /\ Py.lower (LanguageNames.normalize_language_code lang_code)
     = LanguageNames.normalize_language_code lang_code.
Proof.
  intros _. unfold LanguageNames.normalize_language_code. cbv zeta.
  assert (Py.strip (Py.strip (Py.lower lang_code))
          = Py.strip (Py.lower lang_code)) as Hs by apply strip_twice.
  assert (Py.lower (Py.strip (Py.lower lang_code))
          = Py.strip (Py.lower lang_code)) as Hl
    by (by rewrite <- lower_strip, lower_twice).
  remember (Py.strip (Py.lower lang_code)) as name eqn:Hname. clear Hname.
  destruct (LanguageNames.mapping !! name) as [code|] eqn:E; simpl.
  - apply elem_of_list_to_map_2, list_elem_of_In in E. simpl in E.
    repeat (destruct E as [E|E]; [by injection E as _ <-; vm_compute|]).
    destruct E.
  - by rewrite Hl, Hs, E.
Qed.

Lemma normalize_language_code_laws_witness :
  LanguageNames.normalize_language_code
    (LanguageNames.normalize_language_code (Py.of_string " Chinese "))
  = LanguageNames.normalize_language_code (Py.of_string " Chinese ")
  /\ Py.strip (LanguageNames.normalize_language_code
                 (Py.of_string " Chinese "))
     = LanguageNames.normalize_language_code (Py.of_string " Chinese ")
  /\ Py.lower (LanguageNames.normalize_language_code
                 (Py.of_string " Chinese "))
     = LanguageNames.normalize_language_code (Py.of_string " Chinese ").
Proof.
  apply (normalize_language_code_laws (Py.of_string " Chinese ")).
  reflexivity.
Defined.

(** ** The translation test *)

(** X19: [is_translation_needed] never asks for a translation of a
    language into itself, gives the same answer for both directions,
    and "no translation needed" is transitive: it sorts the language
    codes into classes by what precedes their first "-". *)
Theorem translation_need_laws (a b c : string) :
  TranslationService.is_translation_needed a a = false
  /\ TranslationService.is_translation_needed a b
     = TranslationService.is_translation_needed b a
  /\ (TranslationService.is_translation_needed a b = false ->
      TranslationService.is_translation_needed b c = false ->
      TranslationService.is_translation_needed a c = false)
  /\ (TranslationService.is_translation_needed a b = false
      <-> Py.split0 "-" a = Py.split0 "-" b).
Proof.
  rewrite !TranslationDecision.is_translation_needed_spec.
  rewrite !negb_false_iff, !bool_decide_eq_true.
  split; [done|]. split; [|split; [congruence|done]].
  f_equal. apply bool_decide_ext. split; congruence.
Qed.

End Utilities.

(** * Properties of the ring buffer *)

Module Ring.
Import AudioBuffer.

Section Ring.
Variable frombuffer : list Byte.byte -> option (list Z).
Variable to_samples : float -> Z.

Local Abbreviation add_chunk := (AudioBuffer.add_chunk true frombuffer).
Local Abbreviation get_audio_data :=
  (AudioBuffer.get_audio_data true to_samples None).

(** The part of a chunk that is written: its last [max_samples]
    samples. *)
Local Abbreviation kept b samples :=
  (drop (length samples - max_samples b) samples).

(** [add_chunk] on a well-formed buffer and a chunk that decodes, in
    closed form. *)
Lemma add_chunk_eq b data samples :
  wf b -> frombuffer data = Some samples ->
  add_chunk data b
  = Some
      (if (max_samples b <? write_pos b + length (kept b samples))%nat
       then
         mk (max_samples b)
           (drop (max_samples b - write_pos b) (kept b samples)
            ++ drop (write_pos b + length (kept b samples) - max_samples b)
                 (take (write_pos b) (buffer b)
                  ++ take (max_samples b - write_pos b) (kept b samples)))
           (write_pos b + length (kept b samples) - max_samples b)
           (is_full b)
       else if (max_samples b <=? write_pos b + length (kept b samples))%nat
       then
         mk (max_samples b)
           (take (write_pos b) (buffer b) ++ kept b samples) 0 true
       else
         mk (max_samples b)
           (take (write_pos b) (buffer b) ++ kept b samples
            ++ drop (write_pos b + length (kept b samples)) (buffer b))
           (write_pos b + length (kept b samples)) (is_full b)).
Proof.
  intros [Hlen Hpos] Hdata. unfold AudioBuffer.add_chunk. simpl.
  rewrite Hdata.
  destruct b as [n B wp full]. simpl in *.
  set (a := drop (length samples - n) samples).
  assert ((if (n <? length samples)%nat
           then (if (n =? 0)%nat then samples else a, n)
           else (samples, length samples))
          = (a, length a)) as ->.
  { unfold a. rewrite length_drop.
    destruct (Nat.ltb_spec n (length samples)).
    - destruct (Nat.eqb_spec n 0); [lia|]. f_equal. lia.
    - replace (length samples - n)%nat with 0%nat by lia.
      by rewrite drop_0, Nat.sub_0_r. }
  assert (length a <= n)%nat as Hk by (unfold a; rewrite length_drop; lia).
  unfold assign.
  destruct (Nat.ltb_spec n (wp + length a)) as [Hwrap|Hfit].
  - rewrite Nat.min_id, (Nat.min_l wp) by lia.
    rewrite length_take, (Nat.min_l (n - wp)) by lia.
    rewrite Hlen, Nat.eqb_refl.
    rewrite (drop_ge B n) by lia. rewrite app_nil_r.
    rewrite length_app, length_take, length_take, length_drop.
    rewrite (Nat.min_l wp), (Nat.min_l (n - wp)) by lia.
    rewrite (Nat.min_l (length a - (n - wp))) by lia.
    rewrite Nat.min_0_l, Nat.sub_0_r, Nat.eqb_refl. simpl.
    destruct (Nat.leb_spec n (length a - (n - wp))) as [?|_]; [lia|].
    do 2 f_equal; [|lia]. do 2 f_equal. lia.
  - rewrite (Nat.min_l (wp + length a)), (Nat.min_l wp) by lia.
    replace (wp + length a - wp)%nat with (length a) by lia.
    rewrite Nat.eqb_refl.
    destruct (Nat.leb_spec n (wp + length a)) as [Hfull|_]; [|done].
    rewrite (drop_ge B) by lia. by rewrite app_nil_r.
Qed.

(** X23: on a well-formed buffer [add_chunk] raises only when the chunk's
    bytes cannot be decoded; otherwise it returns a well-formed buffer
    of the same size, and a buffer that was full stays full. *)
Theorem add_chunk_keeps_shape b data :
  wf b ->
  (frombuffer data = None -> add_chunk data b = None)
  /\ (forall samples,
        frombuffer data = Some samples ->
        exists b',
          add_chunk data b = Some b'
          /\ wf b'
          /\ max_samples b' = max_samples b
          /\ (is_full b = true -> is_full b' = true)).
Proof.
  intros Hwf. split.
  - intros Hnone. unfold AudioBuffer.add_chunk. simpl. by rewrite Hnone.
  - intros samples Hdata. rewrite (add_chunk_eq _ _ _ Hwf Hdata).
    eexists. split; [done|]. destruct Hwf as [Hlen Hpos].
    set (a := kept b samples).
    assert (length a <= max_samples b)%nat as Hk
      by (unfold a; rewrite length_drop; lia).
    destruct (Nat.ltb_spec (max_samples b) (write_pos b + length a));
      [|destruct (Nat.leb_spec (max_samples b) (write_pos b + length a))];
      unfold wf; simpl;
      rewrite ?length_app, ?length_drop, ?length_app, ?length_take,
        ?length_drop;
      (split; [split; lia|done]).
Qed.

(** X24: while the buffer has not wrapped, what [get_audio_data] returns
    grows by exactly the samples of each chunk that still fits. *)
Theorem linear_round_trip b data samples :
  wf b ->
  is_full b = false ->
  frombuffer data = Some samples ->
  (write_pos b + length samples <= max_samples b)%nat ->
  exists b' old,
    add_chunk data b = Some b'
    /\ get_audio_data b = Some old
    /\ get_audio_data b' = Some (old ++ samples).
Proof.
  intros Hwf Hfull Hdata Hfit. rewrite (add_chunk_eq _ _ _ Hwf Hdata).
  destruct Hwf as [Hlen Hpos].
  replace (length samples - max_samples b)%nat with 0%nat by lia.
  rewrite drop_0.
  destruct (Nat.ltb_spec (max_samples b) (write_pos b + length samples));
    [lia|].
  eexists _, _. split; [done|].
  unfold AudioBuffer.get_audio_data. simpl. rewrite Hfull.
  split; [done|].
  assert (length (take (write_pos b) (buffer b)) = write_pos b) as Htake
    by (rewrite length_take; lia).
  destruct (Nat.leb_spec (max_samples b) (write_pos b + length samples));
    simpl; rewrite ?Hfull; f_equal.
  - by rewrite app_nil_r.
  - rewrite app_assoc. apply take_app_length'.
    rewrite length_app, Htake. done.
Qed.

(** X25: a chunk that wraps around the end of a buffer that was not
    full leaves it marked as not full, and [get_audio_data] then
    returns only the part of that chunk written at the front: what was
    recorded before, and the first part of the chunk, are not
    returned. *)
Theorem wrap_drops_history b data samples :
  wf b ->
  is_full b = false ->
  frombuffer data = Some samples ->
  (length samples <= max_samples b)%nat ->
  (max_samples b < write_pos b + length samples)%nat ->
  exists b',
    add_chunk data b = Some b'
    /\ is_full b' = false
    /\ get_audio_data b'
       = Some (drop (max_samples b - write_pos b) samples)
    /\ (length (drop (max_samples b - write_pos b) samples)
        < length samples)%nat.
Proof.
  intros Hwf Hfull Hdata Hsmall Hwrap. rewrite (add_chunk_eq _ _ _ Hwf Hdata).
  destruct Hwf as [Hlen Hpos].
  replace (length samples - max_samples b)%nat with 0%nat by lia.
  rewrite drop_0.
  destruct (Nat.ltb_spec (max_samples b) (write_pos b + length samples));
    [|lia].
  eexists. split; [done|]. simpl. split; [done|].
  unfold AudioBuffer.get_audio_data. simpl. rewrite Hfull.
  split.
  - f_equal. apply take_app_length'. rewrite length_drop. lia.
  - rewrite length_drop. lia.
Qed.

(** X26: once the buffer is marked full it is a sliding window:
    [get_audio_data] returns [max_samples] samples, and after a chunk
    it returns what it returned before followed by the chunk's samples,
    without the oldest ones. *)
Theorem full_window b data samples :
  wf b ->
  is_full b = true ->
  frombuffer data = Some samples ->
  exists b' old,
    add_chunk data b = Some b'
    /\ get_audio_data b = Some old
    /\ length old = max_samples b
    /\ get_audio_data b' = Some (drop (length samples) (old ++ samples)).
Proof.
  intros Hwf Hfull Hdata. rewrite (add_chunk_eq _ _ _ Hwf Hdata).
  destruct Hwf as [Hlen Hpos].
  eexists _, _. split; [done|].
  unfold AudioBuffer.get_audio_data. simpl. rewrite Hfull.
  split; [done|]. split.
  { rewrite length_app, length_drop, length_take. lia. }
  set (a := kept b samples).
  assert (length a = Nat.min (length samples) (max_samples b)) as Hk
    by (unfold a; rewrite length_drop; lia).
  assert (drop (length samples)
            ((drop (write_pos b) (buffer b) ++ take (write_pos b) (buffer b))
             ++ samples)
          = drop (length a)
              (drop (write_pos b) (buffer b) ++ take (write_pos b) (buffer b))
            ++ a) as ->.
  { rewrite drop_app, length_app, length_drop, length_take, Hlen.
    rewrite (Nat.min_l (write_pos b)) by lia.
    replace (max_samples b - write_pos b + write_pos b)%nat
      with (max_samples b) by lia.
    f_equal.
    destruct (Nat.le_gt_cases (length samples) (max_samples b)).
    - by rewrite Hk, Nat.min_l.
    - rewrite !drop_ge; [done|..];
        rewrite length_app, length_drop, length_take; lia. }
  assert (length a <= max_samples b)%nat as Hle by lia.
  clearbody a. clear Hk Hdata samples.
  destruct b as [n B wp full]. simpl in *. subst full.
  assert (length (take wp B) = wp) as Ht by (rewrite length_take; lia).
  assert (length (drop wp B) = (n - wp)%nat) as Hd
    by (rewrite length_drop; lia).
  destruct (Nat.ltb_spec n (wp + length a)) as [Hwrap|Hfit]; simpl.
  - f_equal.
    rewrite (drop_app_length' (drop (n - wp) a))
      by (rewrite length_drop; lia).
    rewrite (take_app_length' (drop (n - wp) a))
      by (rewrite length_drop; lia).
    rewrite (drop_app_le (take wp B)) by lia.
    rewrite <- app_assoc, take_drop.
    rewrite (drop_app_ge (drop wp B)) by lia.
    rewrite Hd. do 2 f_equal. lia.
  - destruct (Nat.leb_spec n (wp + length a)) as [Hexact|Hless]; simpl;
      f_equal.
    + rewrite drop_0, take_0, app_nil_r. f_equal.
      symmetry. apply drop_app_length'. lia.
    + rewrite !(app_assoc (take wp B) a).
      rewrite drop_app_length' by (rewrite length_app; lia).
      rewrite take_app_length' by (rewrite length_app; lia).
      rewrite (drop_app_le (drop wp B)) by lia.
      rewrite drop_drop. by rewrite <- !app_assoc.
Qed.

End Ring.

Lemma add_chunk_keeps_shape_witness :
  (Fixtures.int16_le Fixtures.one_two = None ->
   AudioBuffer.add_chunk true Fixtures.int16_le Fixtures.one_two (init 4)
   = None)
  /\ (forall samples,
        Fixtures.int16_le Fixtures.one_two = Some samples ->
        exists b',
          AudioBuffer.add_chunk true Fixtures.int16_le Fixtures.one_two
            (init 4) = Some b'
          /\ wf b'
          /\ max_samples b' = max_samples (init 4)
          /\ (is_full (init 4) = true -> is_full b' = true)).
Proof.
  apply (add_chunk_keeps_shape Fixtures.int16_le (init 4) Fixtures.one_two).
  split; [reflexivity|simpl; lia].
Defined.

Lemma linear_round_trip_witness :
  exists b' old,
    AudioBuffer.add_chunk true Fixtures.int16_le Fixtures.one_two (init 4)
    = Some b'
    /\ AudioBuffer.get_audio_data true (fun _ => 0) None (init 4) = Some old
    /\ AudioBuffer.get_audio_data true (fun _ => 0) None b'
       = Some (old ++ [1; 2]).
Proof.
  apply (linear_round_trip Fixtures.int16_le (fun _ => 0) (init 4)
           Fixtures.one_two [1; 2]).
  - split; [reflexivity|simpl; lia].
  - reflexivity.
  - reflexivity.
  - simpl. lia.
Defined.

Lemma wrap_drops_history_witness :
  exists b',
    AudioBuffer.add_chunk true Fixtures.int16_le Fixtures.four_five
      Fixtures.three_of_four = Some b'
    /\ is_full b' = false
    /\ AudioBuffer.get_audio_data true (fun _ => 0) None b'
       = Some (drop (max_samples Fixtures.three_of_four
                     - write_pos Fixtures.three_of_four) [4; 5])
    /\ (length (drop (max_samples Fixtures.three_of_four
                      - write_pos Fixtures.three_of_four) [4; 5])
        < length [4; 5])%nat.
Proof.
  apply (wrap_drops_history Fixtures.int16_le (fun _ => 0)
           Fixtures.three_of_four Fixtures.four_five [4; 5]).
  - split; [reflexivity|simpl; lia].
  - reflexivity.
  - reflexivity.
  - simpl. lia.
  - simpl. lia.
Defined.

Lemma full_window_witness :
  exists b' old,
    AudioBuffer.add_chunk true Fixtures.int16_le Fixtures.nine
      Fixtures.full_of_four = Some b'
    /\ AudioBuffer.get_audio_data true (fun _ => 0) None
         Fixtures.full_of_four = Some old
    /\ length old = max_samples Fixtures.full_of_four
    /\ AudioBuffer.get_audio_data true (fun _ => 0) None b'
       = Some (drop (length [9]) (old ++ [9])).
Proof.
  apply (full_window Fixtures.int16_le (fun _ => 0) Fixtures.full_of_four
           Fixtures.nine [9]).
  - split; [reflexivity|simpl; lia].
  - reflexivity.
  - reflexivity.
Defined.

End Ring.
